(** * git-legacy: the metrics extractor and the scorer

    A shallow embedding of the deterministic core of git-legacy
    (src/utils/utils.py, src/config.py, src/core/analyzer.py and
    src/core/scorer.py) and the properties its specification states
    about it.

    Conventions of the embedding.
    - A Python [int] is a [Z].  [len] of a list is [Z.of_nat (length _)].
    - A Python [float] is an exact number: a rational [Q] in the analyzer,
      whose only float operations are [+], [/] and comparisons, and a real
      [R] in the scorer, which calls [math.log1p].  Rounding, infinities and
      NaN are outside the model.
    - A JSON object read with [d.get(k)] / [d.get(k, default)] is a record
      of [option] fields: [None] is the absent key (or JSON null where the
      source treats both alike).
    - An exception is a value: fallible functions return [result A], either
      [Ok a] or [Raise e], and a [try ... except] is a [match] on it.
    - The two things the analyzer asks of its host, the clock
      ([datetime.now(timezone.utc)]) and the ISO-8601 parser
      ([datetime.fromisoformat]), are the fields of the class [Host].  The
      theorems hold for every host; [GitHubHost.host] is one concrete host,
      used to run the code on concrete inputs.  A run is taken to be
      instantaneous: every reading of the clock in it gives the same
      instant. *)

From Stdlib Require Import ZArith QArith Qminmax Qreals Reals Lra Lia.
From Stdlib Require Import List String Ascii Sorting.Sorted.
From stdpp Require Import base option list strings gmap.
Import ListNotations.

Open Scope Z_scope.

(** ** Python values: exceptions and truthiness *)

Module Py.

(** The exceptions the modelled code can raise. *)
Inductive exn : Type :=
| TypeError
| ValueError
| ZeroDivisionError.

Inductive result (A : Type) : Type :=
| Ok (a : A)
| Raise (e : exn).

Arguments Ok {A} a.
Arguments Raise {A} e.

#[global] Instance result_ret : MRet result := fun A a => Ok a.

#[global] Instance result_bind : MBind result :=
  fun A B f r => match r with Ok a => f a | Raise e => Raise e end.

(** A [for] loop whose body may raise: the state is threaded from left to
    right and the first exception ends the loop. *)
Fixpoint foldlM {S A : Type} (body : S -> A -> result S) (st : S) (xs : list A)
  : result S :=
  match xs with
  | [] => Ok st
  | x :: xs' => st' ← body st x; foldlM body st' xs'
  end.

(** [bool(s)] for an optional string: [None] and [""] are falsy. *)
Definition truthy_str (s : option string) : bool :=
  match s with
  | Some EmptyString => false
  | Some _ => true
  | None => false
  end.

(** [bool(b)] for an optional boolean. *)
Definition truthy_bool (b : option bool) : bool := default false b.

(** [bool(d)] for an optional JSON object, kept as its list of entries:
    [None] and the empty object are falsy. *)
Definition truthy_obj {A : Type} (d : option (list A)) : bool :=
  match d with
  | Some (_ :: _) => true
  | _ => false
  end.

(** [s.replace("Z", "+00:00")]. *)
Fixpoint replace_Z (s : string) : string :=
  match s with
  | EmptyString => EmptyString
  | String c s' =>
      if Ascii.eqb c "Z" then ("+00:00" ++ replace_Z s')%string
      else String c (replace_Z s')
  end.

(** The built-in [max(a, b)] on floats: [a] unless [b] is strictly larger. *)
Definition qmax (a b : Q) : Q := if Qle_bool b a then a else b.

(** [sum(xs)] on floats: the additions run left to right from [0]. *)
Definition qsum (xs : list Q) : Q := fold_left Qplus xs 0%Q.

(** [len(xs)]. *)
Definition len {A : Type} (xs : list A) : Z := Z.of_nat (length xs).

End Py.
Export Py.

(** ** datetime *)

Module Datetime.

(** A [datetime]: the microseconds its wall clock shows since
    1970-01-01T00:00:00, and its UTC offset in microseconds.  A datetime
    without an offset is naive. *)
Record datetime : Type := mk_datetime {
  wall : Z;
  utcoffset : option Z
}.

(** What the analyzer takes from its host. *)
Class Host : Type := {
  (** [datetime.now(timezone.utc)], in microseconds since the epoch. *)
  now : Z;
  (** [datetime.fromisoformat]; [None] stands for its [ValueError]. *)
  fromisoformat : string -> option datetime;
  fromisoformat_empty : fromisoformat "" = None
}.

(** [now - dt] for the aware [now]: a timedelta in microseconds.  Python
    refuses to subtract a naive datetime from an aware one. *)
Definition datetime_sub (now_utc : Z) (dt : datetime) : result Z :=
  match utcoffset dt with
  | Some off => Ok (now_utc - (wall dt - off))
  | None => Raise TypeError
  end.

(** [td.total_seconds()]. *)
Definition total_seconds (td : Z) : Q := (inject_Z td / 1000000)%Q.

(** [dt.date()], as the number of the day on the datetime's own wall
    clock. *)
Definition date (dt : datetime) : Z := wall dt / 86400000000.

End Datetime.
Export Datetime.

(** ** src/utils/utils.py *)

Module Utils.

(** The float operations [safe_divide] needs.  It is called on rationals
    by the analyzer and on reals by the scorer. *)
Class Number (F : Type) : Type := {
  is_zero : F -> bool;
  divide : F -> F -> F
}.

#[global] Instance Q_number : Number Q := {
  is_zero q := Qeq_bool q 0;
  divide := Qdiv
}.

#[global] Instance R_number : Number R := {
  is_zero r := if Req_dec_T r 0 then true else false;
  divide := Rdiv
}.

Section Dates.
Context `{Host}.

(** [parse_github_date]: [None] for an absent or empty string and for one
    [fromisoformat] rejects. *)
Definition parse_github_date (date_str : option string) : option datetime :=
  match date_str with
  | None => None
  | Some EmptyString => None
  | Some s => fromisoformat (replace_Z s)
  end.

(** [days_since]: [0.0] without a date, else
    [max((now - dt).total_seconds() / 86400, 0.0)]. *)
Definition days_since (date_str : option string) : result Q :=
  match parse_github_date date_str with
  | None => Ok 0%Q
  | Some dt =>
      td ← datetime_sub now dt;
      Ok (qmax (total_seconds td / 86400) 0)%Q
  end.

Definition years_since (date_str : option string) : result Q :=
  d ← days_since date_str;
  Ok (d / 365.25)%Q.

End Dates.

(** [clamp(value, lo, hi)]; the source's defaults are [lo = 0.0] and
    [hi = 100.0], written out at each call. *)
Definition clamp (value lo hi : R) : R := Rmax lo (Rmin hi value).

(** [safe_divide(numerator, denominator, default)]; the source's default
    for [default] is [0.0], written out at each call. *)
Definition safe_divide {F : Type} `{Number F} (numerator denominator default : F) : F :=
  if is_zero denominator then default else divide numerator denominator.

(** [math.log1p]: a [ValueError] at and below [-1]. *)
Definition log1p (x : R) : result R :=
  if Rle_dec x (-1) then Raise ValueError else Ok (ln (1 + x)).

(** Float division: a [ZeroDivisionError] on a zero divisor. *)
Definition truediv (a b : R) : result R :=
  if Req_dec_T b 0 then Raise ZeroDivisionError else Ok (a / b)%R.

(** [log_scale(value, scale)]. *)
Definition log_scale (value scale : R) : result R :=
  if Rle_dec value 0 then Ok 0%R
  else
    a ← log1p value;
    b ← log1p scale;
    q ← truediv a b;
    Ok (clamp (q * 100) 0 100).

End Utils.
Export Utils.

(** ** src/config.py *)

Module Config.

(** The six dimension names, the keys of [SCORE_WEIGHTS]. *)
Inductive dimension : Type :=
| consistency
| collaboration
| depth
| breadth
| momentum
| openness.

(** [SCORE_WEIGHTS], in the order the dict lists its items. *)
Definition SCORE_WEIGHTS : list (dimension * R) :=
  [ (consistency, 0.20); (collaboration, 0.20); (depth, 0.20);
    (breadth, 0.15); (momentum, 0.15); (openness, 0.10) ]%R.

Definition UTOPIA_THRESHOLD : R := 70.
Definition DYSTOPIA_THRESHOLD : R := 40.

End Config.
Export Config.

(** ** src/core/analyzer.py *)

(** *** The raw GitHub records

    Each record lists the keys the analyzer reads, under the names of the
    JSON keys. *)

Module RawProfile.
Record t : Type := {
  login : option string;
  created_at : option string;
  public_repos : option Z;
  followers : option Z;
  following : option Z;
  blog : option string;
  bio : option string;
  hireable : option bool
}.
End RawProfile.

Module RawRepository.
(** Of [license] only the truth value is read; it is kept as the entries of
    the JSON object. *)
Record t : Type := {
  language : option string;
  stargazers_count : option Z;
  forks_count : option Z;
  watchers_count : option Z;
  created_at : option string;
  fork : option bool;
  license : option (list (string * string))
}.
End RawRepository.

Module RawEvent.
(** One commit of a push event. *)
Record commit : Type := { sha : string }.

(** The payload object; only [commits] is read. *)
Record payload_t : Type := { commits : option (list commit) }.

Record t : Type := {
  type : option string;
  created_at : option string;
  payload : option payload_t
}.
End RawEvent.

Module RawData.
(** The dict [GitHubClient.fetch_all] returns, as [analyze] reads it. *)
Record t : Type := {
  profile : option RawProfile.t;
  repos : option (list RawRepository.t);
  events : option (list RawEvent.t)
}.
End RawData.

Module Analyzer.

(** *** The metrics dict

    [analyze] builds one flat dict by four [update]s whose key sets are
    disjoint; the four records below are those four groups of keys. *)

Record ProfileMetrics : Type := {
  username : string;
  account_age_days : Q;
  account_age_years : Q;
  public_repos : Z;
  followers : Z;
  following : Z;
  has_blog : bool;
  has_bio : bool;
  hireable : bool
}.

Record RepoMetrics : Type := {
  total_repos : Z;
  total_stars : Z;
  total_forks_received : Z;
  total_watchers : Z;
  avg_repo_age_days : Q;
  languages : list string;
  top_languages : string;
  has_license_ratio : Q;
  forked_ratio : Q;
  original_repo_count : Z;
  language_count : Z
}.

Record EventMetrics : Type := {
  total_events : Z;
  push_events : Z;
  pr_events : Z;
  issue_events : Z;
  fork_events : Z;
  watch_events : Z;
  commit_count_90d : Z;
  active_days_90d : Z;
  events_last_30d : Z;
  events_30_90d : Z;
  most_active_period : string;
  event_type_diversity : Z
}.

Record DerivedMetrics : Type := {
  collaboration_raw : Z;
  momentum_ratio : Q
}.

Record Metrics : Type := {
  of_profile : ProfileMetrics;
  of_repos : RepoMetrics;
  of_events : EventMetrics;
  derived : DerivedMetrics
}.

(** *** Built-ins and collections.Counter *)

(** [sum(xs)] on ints. *)
Definition zsum (xs : list Z) : Z := fold_left Z.add xs 0.

(** [counter[k] += 1]: a key already present keeps its place, a new key goes
    last (a dict keeps insertion order). *)
Fixpoint counter_add (k : string) (c : list (string * Z)) : list (string * Z) :=
  match c with
  | [] => [(k, 1)]
  | (k', n) :: c' =>
      if String.eqb k k' then (k', n + 1) :: c'
      else (k', n) :: counter_add k c'
  end.

(** [Counter(iterable)]: the items, in insertion order. *)
Definition Counter (xs : list string) : list (string * Z) :=
  fold_left (fun c k => counter_add k c) xs [].

(** Insertion of one item in a list sorted by descending count, in front of
    the first item whose count is not larger. *)
Fixpoint insert_by_count (x : string * Z) (l : list (string * Z)) : list (string * Z) :=
  match l with
  | [] => [x]
  | y :: l' => if x.2 <? y.2 then y :: insert_by_count x l' else x :: l
  end.

(** [Counter.most_common()], which is
    [sorted(items, key=itemgetter(1), reverse=True)]: a stable sort by
    descending count.  The result of a stable sort does not depend on the
    algorithm; this one inserts the items from the last to the first. *)
Definition most_common (c : list (string * Z)) : list (string * Z) :=
  foldr insert_by_count [] c.

(** [sep.join(xs)]. *)
Definition join (sep : string) (xs : list string) : string := String.concat sep xs.

(** [x if x else None] on an optional string: the values a comprehension
    with the filter [if r.get(k)] lets through. *)
Definition if_truthy (s : option string) : option string :=
  if truthy_str s then s else None.

Section WithHost.
Context `{Host}.

(** *** Profile signals *)

Definition _profile_metrics (profile : RawProfile.t) : result ProfileMetrics :=
  days ← days_since (RawProfile.created_at profile);
  years ← years_since (RawProfile.created_at profile);
  Ok {| username := default "unknown"%string (RawProfile.login profile);
        account_age_days := days;
        account_age_years := years;
        public_repos := default 0 (RawProfile.public_repos profile);
        followers := default 0 (RawProfile.followers profile);
        following := default 0 (RawProfile.following profile);
        has_blog := truthy_str (RawProfile.blog profile);
        has_bio := truthy_str (RawProfile.bio profile);
        hireable := truthy_bool (RawProfile.hireable profile) |}.

(** *** Repository signals *)

(** The language values the [Counter] is fed: those of the repositories
    whose [language] is truthy, in the order of the list. *)
Definition language_values (repos : list RawRepository.t) : list string :=
  omap (fun r => if_truthy (RawRepository.language r)) repos.

(** The repositories whose [created_at] is truthy. *)
Definition dated (repos : list RawRepository.t) : list RawRepository.t :=
  filter (fun r => truthy_str (RawRepository.created_at r) = true) repos.

Definition _repo_metrics (repos : list RawRepository.t) : result RepoMetrics :=
  match repos with
  | [] =>
      Ok {| total_repos := 0;
            total_stars := 0;
            total_forks_received := 0;
            total_watchers := 0;
            avg_repo_age_days := 0%Q;
            languages := [];
            top_languages := "N/A";
            has_license_ratio := 0%Q;
            forked_ratio := 0%Q;
            original_repo_count := 0;
            language_count := 0 |}
  | _ :: _ =>
      let total_stars' :=
        zsum (map (fun r => default 0 (RawRepository.stargazers_count r)) repos) in
      let total_forks_received' :=
        zsum (map (fun r => default 0 (RawRepository.forks_count r)) repos) in
      let total_watchers' :=
        zsum (map (fun r => default 0 (RawRepository.watchers_count r)) repos) in
      let lang_counter := Counter (language_values repos) in
      let languages' := map fst (most_common lang_counter) in
      let top_languages' :=
        match languages' with
        | [] => "N/A"%string
        | _ :: _ => join ", " (take 5 languages')
        end in
      ages ← mapM (fun r => days_since (RawRepository.created_at r)) (dated repos);
      let avg_repo_age_days' :=
        match ages with
        | [] => 0%Q
        | _ :: _ => (qsum ages / inject_Z (len ages))%Q
        end in
      let licensed_count :=
        zsum (map (fun _ => 1)
                  (filter (fun r => truthy_obj (RawRepository.license r) = true) repos)) in
      let has_license_ratio' :=
        safe_divide (inject_Z licensed_count) (inject_Z (len repos)) 0%Q in
      let forked_repos :=
        filter (fun r => truthy_bool (RawRepository.fork r) = true) repos in
      let forked_ratio' :=
        safe_divide (inject_Z (len forked_repos)) (inject_Z (len repos)) 0%Q in
      let original_repo_count' := len repos - len forked_repos in
      Ok {| total_repos := len repos;
            total_stars := total_stars';
            total_forks_received := total_forks_received';
            total_watchers := total_watchers';
            avg_repo_age_days := avg_repo_age_days';
            languages := languages';
            top_languages := top_languages';
            has_license_ratio := has_license_ratio';
            forked_ratio := forked_ratio';
            original_repo_count := original_repo_count';
            language_count := len lang_counter |}
  end.

(** *** Event signals *)

(** [e.get("type") == name]. *)
Definition type_is (name : string) (e : RawEvent.t) : bool :=
  bool_decide (RawEvent.type e = Some name).

(** The four counters the loop over the events updates. *)
Record LoopState : Type := {
  commit_count : Z;
  active_days_set : gset Z;
  last_30d : Z;
  from_30_to_90d : Z
}.

(** One turn of the loop [for event in events].  A date that does not
    parse skips the event ([continue]); the subtraction is outside the
    [try]. *)
Definition loop_body (st : LoopState) (event : RawEvent.t) : result LoopState :=
  let created_at := default ""%string (RawEvent.created_at event) in
  match fromisoformat (replace_Z created_at) with
  | None => Ok st
  | Some dt =>
      td ← datetime_sub now dt;
      let age_days := (total_seconds td / 86400)%Q in
      let st1 :=
        if Qle_bool age_days 90 then
          if type_is "PushEvent" event then
            let commits :=
              default [] (p ← RawEvent.payload event; RawEvent.commits p) in
            {| commit_count := commit_count st + len commits;
               active_days_set := active_days_set st ∪ {[ date dt ]};
               last_30d := last_30d st;
               from_30_to_90d := from_30_to_90d st |}
          else st
        else st in
      if Qle_bool age_days 30 then
        Ok {| commit_count := commit_count st1;
              active_days_set := active_days_set st1;
              last_30d := last_30d st1 + 1;
              from_30_to_90d := from_30_to_90d st1 |}
      else if Qle_bool age_days 90 then
        Ok {| commit_count := commit_count st1;
              active_days_set := active_days_set st1;
              last_30d := last_30d st1;
              from_30_to_90d := from_30_to_90d st1 + 1 |}
      else Ok st1
  end.

Definition _event_metrics (events : list RawEvent.t) : result EventMetrics :=
  match events with
  | [] =>
      Ok {| total_events := 0;
            push_events := 0;
            pr_events := 0;
            issue_events := 0;
            fork_events := 0;
            watch_events := 0;
            commit_count_90d := 0;
            active_days_90d := 0;
            events_last_30d := 0;
            events_30_90d := 0;
            most_active_period := "N/A";
            event_type_diversity := 0 |}
  | _ :: _ =>
      let push_events' := filter (fun e => type_is "PushEvent" e = true) events in
      let pr_events' :=
        filter (fun e => type_is "PullRequestEvent" e
                         || type_is "PullRequestReviewEvent" e = true) events in
      let issue_events' :=
        filter (fun e => type_is "IssuesEvent" e
                         || type_is "IssueCommentEvent" e = true) events in
      let fork_events' := filter (fun e => type_is "ForkEvent" e = true) events in
      let watch_events' := filter (fun e => type_is "WatchEvent" e = true) events in
      st ← foldlM loop_body
             {| commit_count := 0; active_days_set := ∅;
                last_30d := 0; from_30_to_90d := 0 |}
             events;
      let most_active_period' :=
        if last_30d st >? from_30_to_90d st then "Last 30 days (currently active)"
        else if from_30_to_90d st >? 0 then "30–90 days ago"
        else "More than 90 days ago" in
      let event_types : gset string :=
        list_to_set (omap (fun e => if_truthy (RawEvent.type e)) events) in
      Ok {| total_events := len events;
            push_events := len push_events';
            pr_events := len pr_events';
            issue_events := len issue_events';
            fork_events := len fork_events';
            watch_events := len watch_events';
            commit_count_90d := commit_count st;
            active_days_90d := Z.of_nat (size (active_days_set st));
            events_last_30d := last_30d st;
            events_30_90d := from_30_to_90d st;
            most_active_period := most_active_period';
            event_type_diversity := Z.of_nat (size event_types) |}
  end.

(** *** Derived signals *)

(** [_derived_metrics(m)].  It reads five keys with [m.get(k, 0)]; in
    [analyze] the dict already holds what [_event_metrics] returned, so the
    values read are those of [m]. *)
Definition _derived_metrics (m : EventMetrics) : DerivedMetrics :=
  let collaboration_raw' := pr_events m * 3 + issue_events m * 2 + fork_events m in
  let recent_rate := inject_Z (events_last_30d m) in
  let historic_rate := safe_divide (inject_Z (events_30_90d m)) 2%Q 0%Q in
  let momentum_ratio' := safe_divide recent_rate (qmax historic_rate 1) 0%Q in
  {| collaboration_raw := collaboration_raw';
     momentum_ratio := momentum_ratio' |}.

(** *** The entry point *)

(** The empty dict [{}] as a profile. *)
Definition empty_profile : RawProfile.t :=
  {| RawProfile.login := None; RawProfile.created_at := None;
     RawProfile.public_repos := None; RawProfile.followers := None;
     RawProfile.following := None; RawProfile.blog := None;
     RawProfile.bio := None; RawProfile.hireable := None |}.

Definition analyze (raw_data : RawData.t) : result Metrics :=
  let profile := default empty_profile (RawData.profile raw_data) in
  let repos := default [] (RawData.repos raw_data) in
  let events := default [] (RawData.events raw_data) in
  pm ← _profile_metrics profile;
  rm ← _repo_metrics repos;
  em ← _event_metrics events;
  Ok {| of_profile := pm; of_repos := rm; of_events := em;
        derived := _derived_metrics em |}.

End WithHost.

End Analyzer.

(** ** src/core/scorer.py *)

Module Scorer.

Open Scope R_scope.

(** The metrics dict as the scorer reads it: the twenty keys it looks up
    with [m.get], each one present or absent.  Numbers are reals, whether
    the dict holds an [int] or a [float]. *)
Record Metrics : Type := {
  active_days_90d : option R;
  commit_count_90d : option R;
  account_age_days : option R;
  pr_events : option R;
  issue_events : option R;
  fork_events : option R;
  followers : option R;
  total_stars : option R;
  total_forks_received : option R;
  avg_repo_age_days : option R;
  original_repo_count : option R;
  language_count : option R;
  event_type_diversity : option R;
  total_repos : option R;
  momentum_ratio : option R;
  events_last_30d : option R;
  has_license_ratio : option R;
  forked_ratio : option R;
  has_blog : option bool;
  has_bio : option bool
}.

(** The score report. *)
Record ScoreReport : Type := {
  dimensions : dimension -> R;
  overall_score : R;
  tendency : string;
  weights : list (dimension * R)
}.

(** *** Dimension scorers *)

Definition _score_consistency (m : Metrics) : result R :=
  let active_days := default 0 (active_days_90d m) in
  let commit_count := default 0 (commit_count_90d m) in
  let account_age := default 1 (account_age_days m) in
  let active_ratio := clamp (safe_divide active_days 90 0 * 100) 0 100 in
  commit_score ← log_scale commit_count 50;
  longevity ← log_scale (account_age / 365) 5;
  let longevity_bonus := clamp (longevity * 0.2) 0 100 in
  Ok (clamp (active_ratio * 0.5 + commit_score * 0.4 + longevity_bonus * 0.1) 0 100).

Definition _score_collaboration (m : Metrics) : result R :=
  pr_score ← log_scale (default 0 (pr_events m)) 20;
  issue_score ← log_scale (default 0 (issue_events m)) 30;
  fork_score ← log_scale (default 0 (fork_events m)) 10;
  follower_score ← log_scale (default 0 (followers m)) 100;
  Ok (clamp (pr_score * 0.40 + issue_score * 0.30 + fork_score * 0.15
             + follower_score * 0.15) 0 100).

Definition _score_depth (m : Metrics) : result R :=
  star_score ← log_scale (default 0 (total_stars m)) 200;
  fork_score ← log_scale (default 0 (total_forks_received m)) 50;
  age_score ← log_scale (default 0 (avg_repo_age_days m) / 30) 24;
  repo_score ← log_scale (default 0 (original_repo_count m)) 30;
  Ok (clamp (star_score * 0.35 + fork_score * 0.25 + age_score * 0.20
             + repo_score * 0.20) 0 100).

Definition _score_breadth (m : Metrics) : result R :=
  lang_score ← log_scale (default 0 (language_count m)) 10;
  diversity_score ← log_scale (default 0 (event_type_diversity m)) 8;
  repo_breadth ← log_scale (default 0 (total_repos m)) 50;
  Ok (clamp (lang_score * 0.50 + diversity_score * 0.30 + repo_breadth * 0.20) 0 100).

Definition _score_momentum (m : Metrics) : result R :=
  let momentum_ratio' := default 0 (momentum_ratio m) in
  recent_activity ← log_scale (default 0 (events_last_30d m)) 60;
  let ratio_score := clamp (Rmin momentum_ratio' 3.0 / 3.0 * 100) 0 100 in
  Ok (clamp (ratio_score * 0.60 + recent_activity * 0.40) 0 100).

Definition _score_openness (m : Metrics) : result R :=
  let license_score := default 0 (has_license_ratio m) * 100 in
  let fork_openness := default 0 (forked_ratio m) * 50 in
  let profile_score :=
    (if truthy_bool (has_blog m) then 25 else 0)
    + (if truthy_bool (has_bio m) then 25 else 0) in
  Ok (clamp (license_score * 0.40 + fork_openness * 0.30 + profile_score * 0.30) 0 100).

(** *** Tendency classification *)

Definition _classify_tendency (overall_score : R) : string :=
  if Rge_dec overall_score UTOPIA_THRESHOLD then "Utopia"
  else if Rle_dec overall_score DYSTOPIA_THRESHOLD then "Dystopia"
  else "Unexpected".

(** *** The entry point *)

(** The dict [dimensions], built key by key. *)
Definition dimensions_dict (c co d b mo o : R) (k : dimension) : R :=
  match k with
  | consistency => c
  | collaboration => co
  | depth => d
  | breadth => b
  | momentum => mo
  | openness => o
  end.

(** [sum(dimensions[dim] * weight for dim, weight in SCORE_WEIGHTS.items())]. *)
Definition weighted_sum (dims : dimension -> R) (ws : list (dimension * R)) : R :=
  fold_left (fun acc dw => acc + dims dw.1 * dw.2) ws 0.

Definition score (metrics : Metrics) : result ScoreReport :=
  c ← _score_consistency metrics;
  co ← _score_collaboration metrics;
  d ← _score_depth metrics;
  b ← _score_breadth metrics;
  mo ← _score_momentum metrics;
  o ← _score_openness metrics;
  let dims := dimensions_dict c co d b mo o in
  let overall := clamp (weighted_sum dims SCORE_WEIGHTS) 0 100 in
  Ok {| dimensions := dims;
        overall_score := overall;
        tendency := _classify_tendency overall;
        weights := SCORE_WEIGHTS |}.

(** *** From the analyzer to the scorer *)

(** The dict [analyze] returns, as the scorer reads it: every key is
    present, an [int] and a [float] are read as the real they denote. *)
Definition metrics_dict (m : Analyzer.Metrics) : Metrics :=
  let pm := Analyzer.of_profile m in
  let rm := Analyzer.of_repos m in
  let em := Analyzer.of_events m in
  {| active_days_90d := Some (IZR (Analyzer.active_days_90d em));
     commit_count_90d := Some (IZR (Analyzer.commit_count_90d em));
     account_age_days := Some (Q2R (Analyzer.account_age_days pm));
     pr_events := Some (IZR (Analyzer.pr_events em));
     issue_events := Some (IZR (Analyzer.issue_events em));
     fork_events := Some (IZR (Analyzer.fork_events em));
     followers := Some (IZR (Analyzer.followers pm));
     total_stars := Some (IZR (Analyzer.total_stars rm));
     total_forks_received := Some (IZR (Analyzer.total_forks_received rm));
     avg_repo_age_days := Some (Q2R (Analyzer.avg_repo_age_days rm));
     original_repo_count := Some (IZR (Analyzer.original_repo_count rm));
     language_count := Some (IZR (Analyzer.language_count rm));
     event_type_diversity := Some (IZR (Analyzer.event_type_diversity em));
     total_repos := Some (IZR (Analyzer.total_repos rm));
     momentum_ratio := Some (Q2R (Analyzer.momentum_ratio (Analyzer.derived m)));
     events_last_30d := Some (IZR (Analyzer.events_last_30d em));
     has_license_ratio := Some (Q2R (Analyzer.has_license_ratio rm));
     forked_ratio := Some (Q2R (Analyzer.forked_ratio rm));
     has_blog := Some (Analyzer.has_blog pm);
     has_bio := Some (Analyzer.has_bio pm) |}.

End Scorer.

(** ** A concrete host

    A host to run the code on: the clock stands at 2026-02-15T12:00:00Z, and
    the parser reads the layout GitHub writes its timestamps in,
    [YYYY-MM-DDTHH:MM:SS], followed by nothing (a naive datetime, as
    [datetime.fromisoformat] returns for it) or by an offset [+HH:MM] or
    [-HH:MM].  Anything else is rejected. *)

Module GitHubHost.

Definition digit (c : ascii) : option Z :=
  let n := Z.of_nat (nat_of_ascii c) in
  if (48 <=? n) && (n <=? 57) then Some (n - 48) else None.

(** The number the first [n] characters spell, and the rest. *)
Fixpoint digits (n : nat) (acc : Z) (cs : list ascii) : option (Z * list ascii) :=
  match n with
  | O => Some (acc, cs)
  | S n' =>
      match cs with
      | [] => None
      | c :: cs' => d ← digit c; digits n' (10 * acc + d) cs'
      end
  end.

(** The rest after the character [c]. *)
Definition expect (c : ascii) (cs : list ascii) : option (list ascii) :=
  match cs with
  | c' :: cs' => if Ascii.eqb c c' then Some cs' else None
  | [] => None
  end.

Definition is_leap (y : Z) : bool :=
  ((y mod 4 =? 0) && negb (y mod 100 =? 0)) || (y mod 400 =? 0).

Definition days_in_month (y m : Z) : Z :=
  if m =? 2 then (if is_leap y then 29 else 28)
  else if (m =? 4) || (m =? 6) || (m =? 9) || (m =? 11) then 30
  else 31.

(** The days from 1970-01-01 to the civil date [y]-[m]-[d]. *)
Definition days_from_civil (y m d : Z) : Z :=
  let y' := if m <=? 2 then y - 1 else y in
  let era := y' / 400 in
  let yoe := y' - era * 400 in
  let mp := (m + 9) mod 12 in
  let doy := (153 * mp + 2) / 5 + d - 1 in
  let doe := yoe * 365 + yoe / 4 - yoe / 100 + doy in
  era * 146097 + doe - 719468.

(** The offset, in microseconds, that [sign HH:MM] spells. *)
Definition parse_offset (cs : list ascii) : option Z :=
  match cs with
  | [] => None
  | s :: cs1 =>
      sign ← (if Ascii.eqb s "+" then Some 1
              else if Ascii.eqb s "-" then Some (-1) else None);
      '(hh, cs2) ← digits 2 0 cs1;
      cs3 ← expect ":" cs2;
      '(mm, cs4) ← digits 2 0 cs3;
      match cs4 with
      | [] =>
          if (hh <? 24) && (mm <? 60)
          then Some (sign * (hh * 3600 + mm * 60) * 1000000)
          else None
      | _ :: _ => None
      end
  end.

Definition parse_iso (s : string) : option datetime :=
  let cs0 := list_ascii_of_string s in
  '(y, cs1) ← digits 4 0 cs0;
  cs2 ← expect "-" cs1;
  '(m, cs3) ← digits 2 0 cs2;
  cs4 ← expect "-" cs3;
  '(d, cs5) ← digits 2 0 cs4;
  cs6 ← expect "T" cs5;
  '(hh, cs7) ← digits 2 0 cs6;
  cs8 ← expect ":" cs7;
  '(mi, cs9) ← digits 2 0 cs8;
  cs10 ← expect ":" cs9;
  '(ss, cs11) ← digits 2 0 cs10;
  if (1 <=? y) && (1 <=? m) && (m <=? 12) && (1 <=? d) && (d <=? days_in_month y m)
     && (hh <? 24) && (mi <? 60) && (ss <? 60)
  then
    let w := ((days_from_civil y m d * 86400) + hh * 3600 + mi * 60 + ss) * 1000000 in
    match cs11 with
    | [] => Some {| wall := w; utcoffset := None |}
    | _ :: _ => off ← parse_offset cs11; Some {| wall := w; utcoffset := Some off |}
    end
  else None.

(** 2026-02-15T12:00:00Z, in microseconds since the epoch. *)
Definition clock : Z := 1771156800000000.

#[global] Instance host : Host := {
  now := clock;
  fromisoformat := parse_iso;
  fromisoformat_empty := eq_refl
}.

End GitHubHost.


(** ** The specification's formulas

    The definitions of this module follow the words of the specification,
    not the code; the theorems compare the code with them. *)

Module Spec.

(** "if eventsLast30d > events30to90d then "Last 30 days (currently
    active)"; else if events30to90d > 0 then "30–90 days ago"; else "More
    than 90 days ago"". *)
Definition mostActivePeriod (eventsLast30d events30to90d : Z) : string :=
  if eventsLast30d >? events30to90d then "Last 30 days (currently active)"
  else if events30to90d >? 0 then "30–90 days ago"
  else "More than 90 days ago".

(** "safeDivide(numerator, denominator, default=0.0): returns default when
    denominator == 0, else the quotient." *)
Definition safeDivide (numerator denominator default : Q) : Q :=
  if Qeq_bool denominator 0 then default else (numerator / denominator)%Q.

(** "momentumRatio = safeDivide(eventsLast30d,
    max(safeDivide(events30to90d, 2), 1))". *)
Definition momentumRatio (eventsLast30d events30to90d : Z) : Q :=
  safeDivide (inject_Z eventsLast30d)
             (Qmax (safeDivide (inject_Z events30to90d) 2%Q 0%Q) 1%Q) 0%Q.

(** "recent-30-day event count divided by the 90-day bucket normalized to
    an equivalent 30-day rate, with the denominator floored at 1": the
    quotient itself, without [safeDivide]. *)
Definition momentumQuotient (eventsLast30d events30to90d : Z) : Q :=
  (inject_Z eventsLast30d / Qmax (inject_Z events30to90d / 2) 1)%Q.

(** The mean of a list of floats, [0.0] for the empty list. *)
Definition mean (xs : list Q) : Q :=
  match xs with
  | [] => 0%Q
  | _ :: _ => (qsum xs / inject_Z (len xs))%Q
  end.

Section WithHost.
Context `{Host}.

(** "avgRepoAgeDays = mean of per-repo days-since-creation over repos with a
    parsable created_at (0.0 if none)". *)
Definition avgRepoAgeDays (repos : list RawRepository.t) : result Q :=
  ages ← mapM (fun r => days_since (RawRepository.created_at r))
              (filter (fun r => is_Some (parse_github_date (RawRepository.created_at r)))
                      repos);
  Ok (mean ages).

End WithHost.

(** How often [k] occurs in [xs]. *)
Definition occurrences (k : string) (xs : list string) : Z :=
  len (filter (fun x => x = k) xs).

(** Where [k] occurs first in [xs] (the length of [xs] if nowhere). *)
Fixpoint first_index (k : string) (xs : list string) : nat :=
  match xs with
  | [] => O
  | x :: xs' => if decide (x = k) then O else S (first_index k xs')
  end.

(** "rank descending by count (ties broken by first-encountered order)":
    among the values [xs], [a] is ranked before [b]. *)
Definition ranks_before (xs : list string) (a b : string) : Prop :=
  occurrences b xs < occurrences a xs \/
  (occurrences a xs = occurrences b xs /\ (first_index a xs < first_index b xs)%nat).

(** "build a frequency count of non-null language values, rank descending
    by count (ties broken by first-encountered order), take top 5 joined by
    ", " as topLanguages string (or "N/A" if none)". *)
Definition topLanguages (repos : list RawRepository.t) : string :=
  let values := omap RawRepository.language repos in
  match values with
  | [] => "N/A"
  | _ :: _ =>
      Analyzer.join ", " (take 5 (map fst (Analyzer.most_common (Analyzer.Counter values))))
  end.

End Spec.

(** ** Test data

    The inputs of src/tests/test_analyzer.py and the inputs the theorems
    below are run on. *)

Module TestData.

Definition event (type created_at : option string) (commits : option (list string))
  : RawEvent.t :=
  {| RawEvent.type := type;
     RawEvent.created_at := created_at;
     RawEvent.payload :=
       Some {| RawEvent.commits := map (fun s => {| RawEvent.sha := s |}) <$> commits |} |}.

(** An event without a payload key. *)
Definition bare_event (type created_at : option string) : RawEvent.t :=
  {| RawEvent.type := type; RawEvent.created_at := created_at;
     RawEvent.payload := None |}.

Definition MOCK_PROFILE : RawProfile.t :=
  {| RawProfile.login := Some "testuser"%string;
     RawProfile.created_at := Some "2020-01-01T00:00:00Z"%string;
     RawProfile.public_repos := Some 15;
     RawProfile.followers := Some 42;
     RawProfile.following := Some 20;
     RawProfile.blog := Some "https://testuser.dev"%string;
     RawProfile.bio := Some "I write code."%string;
     RawProfile.hireable := Some true |}.

(** The repository the comprehension of [MOCK_REPOS] builds for [i]. *)
Definition mock_repo (i : Z) : RawRepository.t :=
  {| RawRepository.language :=
       nth_error ["Python"; "JavaScript"; "Go"; "Rust"]%string (Z.to_nat (i mod 4));
     RawRepository.stargazers_count := Some (i * 5);
     RawRepository.forks_count := Some (i * 2);
     RawRepository.watchers_count := Some (i * 3);
     RawRepository.created_at := Some "2021-06-01T00:00:00Z"%string;
     RawRepository.fork := Some (i mod 5 =? 0);
     RawRepository.license :=
       if i mod 2 =? 0 then Some [("key", "mit")]%string else None |}.

Definition MOCK_REPOS : list RawRepository.t :=
  map mock_repo [0; 1; 2; 3; 4; 5; 6; 7; 8; 9].

Definition MOCK_EVENTS : list RawEvent.t :=
  [ event (Some "PushEvent") (Some "2026-02-10T12:00:00Z") (Some ["abc"; "def"]);
    event (Some "PullRequestEvent") (Some "2026-02-08T12:00:00Z") None;
    event (Some "IssuesEvent") (Some "2026-01-20T12:00:00Z") None;
    event (Some "ForkEvent") (Some "2026-01-15T12:00:00Z") None ]%string.

Definition MOCK_RAW : RawData.t :=
  {| RawData.profile := Some MOCK_PROFILE;
     RawData.repos := Some MOCK_REPOS;
     RawData.events := Some MOCK_EVENTS |}.

(** [{**raw, "repos": repos}] and the like. *)
Definition with_repos (raw : RawData.t) (repos : list RawRepository.t) : RawData.t :=
  {| RawData.profile := RawData.profile raw;
     RawData.repos := Some repos;
     RawData.events := RawData.events raw |}.

Definition with_events (raw : RawData.t) (events : list RawEvent.t) : RawData.t :=
  {| RawData.profile := RawData.profile raw;
     RawData.repos := RawData.repos raw;
     RawData.events := Some events |}.

(** The raw input of [test_empty_profile]. *)
Definition EMPTY_RAW : RawData.t :=
  {| RawData.profile := Some Analyzer.empty_profile;
     RawData.repos := Some [];
     RawData.events := Some [] |}.

(** The events of [test_no_crash_on_malformed_events]. *)
Definition bad_events : list RawEvent.t :=
  [ bare_event (Some "PushEvent") None;
    bare_event None (Some "2026-02-01T00:00:00Z");
    bare_event None None ]%string.

(** A push event whose timestamp carries no UTC offset. *)
Definition naive_events : list RawEvent.t :=
  [ bare_event (Some "PushEvent") (Some "2026-02-01T00:00:00") ]%string.

(** A repository of which only [language] and [created_at] are set. *)
Definition repo (language created_at : option string) : RawRepository.t :=
  {| RawRepository.language := language;
     RawRepository.stargazers_count := None;
     RawRepository.forks_count := None;
     RawRepository.watchers_count := None;
     RawRepository.created_at := created_at;
     RawRepository.fork := None;
     RawRepository.license := None |}.

(** One repository created a day before the clock of [GitHubHost], and one
    whose date does not parse. *)
Definition half_dated_repos : list RawRepository.t :=
  [ repo (Some "Go") (Some "2026-02-14T12:00:00Z");
    repo (Some "Go") (Some "not a date") ]%string.

(** One repository whose language is the empty string. *)
Definition unnamed_language_repos : list RawRepository.t :=
  [ repo (Some ""%string) None ].

(** A metrics dict that holds only the four keys the openness score
    reads. *)
Definition openness_metrics (has_license_ratio forked_ratio : R)
    (has_blog has_bio : bool) : Scorer.Metrics :=
  {| Scorer.active_days_90d := None; Scorer.commit_count_90d := None;
     Scorer.account_age_days := None; Scorer.pr_events := None;
     Scorer.issue_events := None; Scorer.fork_events := None;
     Scorer.followers := None; Scorer.total_stars := None;
     Scorer.total_forks_received := None; Scorer.avg_repo_age_days := None;
     Scorer.original_repo_count := None; Scorer.language_count := None;
     Scorer.event_type_diversity := None; Scorer.total_repos := None;
     Scorer.momentum_ratio := None; Scorer.events_last_30d := None;
     Scorer.has_license_ratio := Some has_license_ratio;
     Scorer.forked_ratio := Some forked_ratio;
     Scorer.has_blog := Some has_blog; Scorer.has_bio := Some has_bio |}.

End TestData.

(** ** Auxiliary notions

    The predicates the theorems are stated and proved with. *)

(** The one way the analyzer can raise is the subtraction [now - dt] on a
    datetime that carries no UTC offset.  The predicates of this section say
    that a date string does not lead there. *)

Section Zoned.
Context `{Host}.

(** A parse result [now - dt] accepts: no datetime, or an aware one. *)
Definition subtractable (parsed : option datetime) : bool :=
  match parsed with
  | Some dt => bool_decide (is_Some (utcoffset dt))
  | None => true
  end.

(** A date string as [days_since] receives it. *)
Definition zoned_date (date_str : option string) : bool :=
  subtractable (parse_github_date date_str).

(** An event, whose [created_at] the loop parses itself. *)
Definition zoned_event (event : RawEvent.t) : bool :=
  subtractable
    (fromisoformat (replace_Z (default ""%string (RawEvent.created_at event)))).

(** A raw input none of whose timestamps parses to a naive datetime. *)
Definition zoned (raw_data : RawData.t) : Prop :=
  zoned_date
    (RawProfile.created_at
       (default Analyzer.empty_profile (RawData.profile raw_data))) = true /\
  Forall (fun r => zoned_date (RawRepository.created_at r) = true)
         (default [] (RawData.repos raw_data)) /\
  Forall (fun e => zoned_event e = true) (default [] (RawData.events raw_data)).

(** The same, as a test that runs. *)
Definition zoned_check (raw_data : RawData.t) : bool :=
  zoned_date
    (RawProfile.created_at
       (default Analyzer.empty_profile (RawData.profile raw_data)))
  && forallb (fun r => zoned_date (RawRepository.created_at r))
             (default [] (RawData.repos raw_data))
  && forallb zoned_event (default [] (RawData.events raw_data)).

End Zoned.

Section Ranking.

(** What a [Counter] fed the values [p] holds: each distinct value once, in
    the order of first occurrence, with the number of its occurrences. *)
Definition counts (p : list string) (c : list (string * Z)) : Prop :=
  NoDup (map fst c) /\
  (forall k, k ∈ map fst c <-> k ∈ p) /\
  Forall (fun kn => kn.2 = Spec.occurrences kn.1 p) c /\
  StronglySorted (fun a b => (Spec.first_index a p < Spec.first_index b p)%nat)
                 (map fst c).

(** The order a stable sort by descending count produces, [before] being
    the order of the items in the list that is sorted. *)
Definition stably_before (before : string * Z -> string * Z -> Prop)
    (a b : string * Z) : Prop :=
  b.2 < a.2 \/ (a.2 = b.2 /\ before a b).

End Ranking.

(** ** Test data of the scorer

    The fixtures of src/tests/test_scorer.py, as the scorer reads them. *)

Module ScorerTestData.

Local Open Scope R_scope.

(** [make_metrics()]: the baseline dict. *)
Definition baseline : Scorer.Metrics :=
  {| Scorer.active_days_90d := Some 30; Scorer.commit_count_90d := Some 40;
     Scorer.account_age_days := Some 730; Scorer.pr_events := Some 15;
     Scorer.issue_events := Some 20; Scorer.fork_events := Some 10;
     Scorer.followers := Some 50; Scorer.total_stars := Some 100;
     Scorer.total_forks_received := Some 20; Scorer.avg_repo_age_days := Some 400;
     Scorer.original_repo_count := Some 16; Scorer.language_count := Some 3;
     Scorer.event_type_diversity := Some 5; Scorer.total_repos := Some 20;
     Scorer.momentum_ratio := Some 1.2; Scorer.events_last_30d := Some 50;
     Scorer.has_license_ratio := Some 0.6; Scorer.forked_ratio := Some 0.2;
     Scorer.has_blog := Some true; Scorer.has_bio := Some true |}.

(** The dict of [test_superstar_profile]. *)
Definition superstar : Scorer.Metrics :=
  {| Scorer.active_days_90d := Some 85; Scorer.commit_count_90d := Some 300;
     Scorer.account_age_days := Some 730; Scorer.pr_events := Some 80;
     Scorer.issue_events := Some 100; Scorer.fork_events := Some 50;
     Scorer.followers := Some 5000; Scorer.total_stars := Some 5000;
     Scorer.total_forks_received := Some 1000; Scorer.avg_repo_age_days := Some 800;
     Scorer.original_repo_count := Some 70; Scorer.language_count := Some 12;
     Scorer.event_type_diversity := Some 8; Scorer.total_repos := Some 100;
     Scorer.momentum_ratio := Some 2.5; Scorer.events_last_30d := Some 200;
     Scorer.has_license_ratio := Some 1.0; Scorer.forked_ratio := Some 0.3;
     Scorer.has_blog := Some true; Scorer.has_bio := Some true |}.

End ScorerTestData.

(** ** The time windows of the event loop

    What the loop of [_event_metrics] counts, said without the loop: the
    age of an event is a whole number of microseconds, and the windows are
    bounds on it. *)

Section Windows.
Context `{Host}.

(** The datetime the loop parses out of an event. *)
Definition event_datetime (event : RawEvent.t) : option datetime :=
  fromisoformat (replace_Z (default ""%string (RawEvent.created_at event))).

(** [now - dt] in microseconds, for an event whose date parses to an aware
    datetime. *)
Definition event_age (event : RawEvent.t) : option Z :=
  dt ← event_datetime event;
  off ← utcoffset dt;
  Some (now - (wall dt - off)).

(** The event is at most [n] days old.  An event dated after [now] has a
    negative age, and so is at most [n] days old. *)
Definition aged_at_most (n : Z) (event : RawEvent.t) : bool :=
  match event_age event with
  | Some age => age <=? n * 86400000000
  | None => false
  end.

(** More than 30 and at most 90 days old. *)
Definition aged_30_to_90 (event : RawEvent.t) : bool :=
  aged_at_most 90 event && negb (aged_at_most 30 event).

(** A push event at most 90 days old. *)
Definition recent_push (event : RawEvent.t) : bool :=
  aged_at_most 90 event && Analyzer.type_is "PushEvent" event.

(** [len(event.get("payload", {}).get("commits", []))]. *)
Definition commits_of (event : RawEvent.t) : Z :=
  len (default [] (p ← RawEvent.payload event; RawEvent.commits p)).

(** The calendar day of an event whose date parses. *)
Definition event_date (event : RawEvent.t) : option Z :=
  date <$> event_datetime event.

(** The dict [_event_metrics] returns on a non-empty list, said without
    the loop. *)
Definition event_summary (events : list RawEvent.t) : Analyzer.EventMetrics :=
  let recent := filter (fun e => aged_at_most 30 e = true) events in
  let older := filter (fun e => aged_30_to_90 e = true) events in
  let pushes := filter (fun e => recent_push e = true) events in
  {| Analyzer.total_events := len events;
     Analyzer.push_events :=
       len (filter (fun e => Analyzer.type_is "PushEvent" e = true) events);
     Analyzer.pr_events :=
       len (filter (fun e => Analyzer.type_is "PullRequestEvent" e
                             || Analyzer.type_is "PullRequestReviewEvent" e = true)
                   events);
     Analyzer.issue_events :=
       len (filter (fun e => Analyzer.type_is "IssuesEvent" e
                             || Analyzer.type_is "IssueCommentEvent" e = true) events);
     Analyzer.fork_events :=
       len (filter (fun e => Analyzer.type_is "ForkEvent" e = true) events);
     Analyzer.watch_events :=
       len (filter (fun e => Analyzer.type_is "WatchEvent" e = true) events);
     Analyzer.commit_count_90d := Analyzer.zsum (map commits_of pushes);
     Analyzer.active_days_90d :=
       Z.of_nat (size (list_to_set (omap event_date pushes) : gset Z));
     Analyzer.events_last_30d := len recent;
     Analyzer.events_30_90d := len older;
     Analyzer.most_active_period := Spec.mostActivePeriod (len recent) (len older);
     Analyzer.event_type_diversity :=
       Z.of_nat
         (size (list_to_set
                  (omap (fun e => Analyzer.if_truthy (RawEvent.type e)) events)
                : gset string)) |}.

(** The state the loop of [_event_metrics] starts from. *)
Definition loop_start : Analyzer.LoopState :=
  {| Analyzer.commit_count := 0; Analyzer.active_days_set := ∅;
     Analyzer.last_30d := 0; Analyzer.from_30_to_90d := 0 |}.

End Windows.

(** A dict without activity: no active day, commit, event, star, fork
    received, repository, language or licence.  What is left to score is the
    age of the account, its followers, its blog and its bio. *)
Definition quiet (m : Scorer.Metrics) : Prop :=
  (default 0 (Scorer.active_days_90d m) = 0 /\
   default 0 (Scorer.commit_count_90d m) = 0 /\
   default 0 (Scorer.pr_events m) = 0 /\
   default 0 (Scorer.issue_events m) = 0 /\
   default 0 (Scorer.fork_events m) = 0 /\
   default 0 (Scorer.total_stars m) = 0 /\
   default 0 (Scorer.total_forks_received m) = 0 /\
   default 0 (Scorer.avg_repo_age_days m) = 0 /\
   default 0 (Scorer.original_repo_count m) = 0 /\
   default 0 (Scorer.language_count m) = 0 /\
   default 0 (Scorer.event_type_diversity m) = 0 /\
   default 0 (Scorer.total_repos m) = 0 /\
   default 0 (Scorer.momentum_ratio m) = 0 /\
   default 0 (Scorer.events_last_30d m) = 0 /\
   default 0 (Scorer.has_license_ratio m) = 0 /\
   default 0 (Scorer.forked_ratio m) = 0)%R.

(** ** src/app.py: the pipeline *)

Module App.

Section WithHost.
Context `{Host}.

(** Steps 3 and 4 of [run_analysis]: [metrics = analyze(raw_data)], then
    [score_report = score(metrics)].  Neither call is inside a [try]: what
    [analyze] raises, [run_analysis] raises. *)
Definition analyze_and_score (raw_data : RawData.t)
  : result (Analyzer.Metrics * Scorer.ScoreReport) :=
  metrics ← Analyzer.analyze raw_data;
  score_report ← Scorer.score (Scorer.metrics_dict metrics);
  Ok (metrics, score_report).

End WithHost.

End App.

(** ** src/utils/utils.py: input validation

    [validate_github_username] looks at the code points of its argument:
    [str.strip] removes the Unicode whitespace, the pattern names ranges of
    ASCII letters and digits.  So a username is the list of its code
    points here. *)

Module Username.

(** [str.isspace] on one code point: the characters [str.strip()]
    removes. *)
Definition isspace (c : Z) : bool :=
  (9 <=? c) && (c <=? 13) || (28 <=? c) && (c <=? 32) || (c =? 133) || (c =? 160)
  || (c =? 5760) || (8192 <=? c) && (c <=? 8202) || (c =? 8232) || (c =? 8233)
  || (c =? 8239) || (c =? 8287) || (c =? 12288).

Fixpoint lstrip (s : list Z) : list Z :=
  match s with
  | c :: s' => if isspace c then lstrip s' else s
  | [] => []
  end.

Definition rstrip (s : list Z) : list Z := reverse (lstrip (reverse s)).

(** [s.strip()]. *)
Definition strip (s : list Z) : list Z := rstrip (lstrip s).

(** The class [[a-zA-Z0-9\-]] of [GITHUB_USERNAME_REGEX]. *)
Definition in_class (c : Z) : bool :=
  (97 <=? c) && (c <=? 122) || (65 <=? c) && (c <=? 90) || (48 <=? c) && (c <=? 57)
  || (c =? 45).

(** [$] without [re.MULTILINE]: the end of the string, or the place before
    a newline that ends the string. *)
Definition at_dollar (rest : list Z) : bool :=
  match rest with
  | [] | [10] => true
  | _ => false
  end.

(** [re.match(GITHUB_USERNAME_REGEX, s)] is not [None], for the pattern
    [^[a-zA-Z0-9\-]{1,39}$]: some [k] between 1 and 39 characters of the
    class, from the start of [s], lead to a place where [$] matches. *)
Definition GITHUB_USERNAME_REGEX_match (s : list Z) : bool :=
  existsb (fun k => bool_decide (length (take k s) = k)
                    && forallb in_class (take k s)
                    && at_dollar (drop k s))
          (seq 1 39).

(** [s.startswith("-")] and [s.endswith("-")]. *)
Definition startswith_hyphen (s : list Z) : bool := bool_decide (head s = Some 45).
Definition endswith_hyphen (s : list Z) : bool := bool_decide (last s = Some 45).

(** The tuple [(is_valid, error_message)]; the messages are the literals of
    the source. *)
Definition validate_github_username (username : list Z) : bool * string :=
  let username := strip username in
  if bool_decide (username = []) then
    (false, "Username cannot be empty."%string)
  else if negb (GITHUB_USERNAME_REGEX_match username) then
    (false,
     "Invalid GitHub username. Must be 1–39 characters, letters, numbers, or hyphens only."%string)
  else if startswith_hyphen username || endswith_hyphen username then
    (false, "GitHub username cannot start or end with a hyphen."%string)
  else (true, ""%string).

(** What the messages of the validator speak of: 1 to 39 characters, all
    of them letters, digits or hyphens; a hyphen first or last. *)
Definition well_formed (s : list Z) : Prop :=
  (1 <= length s <= 39)%nat /\ forallb in_class s = true.

Definition hyphenated (s : list Z) : Prop := head s = Some 45 \/ last s = Some 45.

(** The code points of an ASCII literal. *)
Definition codes (s : string) : list Z :=
  map (fun a => Z.of_N (N_of_ascii a)) (list_ascii_of_string s).

End Username.

(** * Properties *)

(** ** The numeric primitives *)

Section Primitives.
Import Scorer.
Local Open Scope R_scope.

Lemma clamp_bounds (value lo hi : R) :
  lo <= hi -> lo <= clamp value lo hi <= hi.
Proof.
  intros Hle. unfold clamp. split.
  - apply Rmax_l.
  - apply Rmax_lub; [exact Hle | apply Rmin_l].
Qed.

Lemma clamp_id (value lo hi : R) :
  lo <= value <= hi -> clamp value lo hi = value.
Proof.
  intros [Hlo Hhi]. unfold clamp.
  rewrite Rmin_right by exact Hhi. apply Rmax_right. exact Hlo.
Qed.

Lemma log1p_positive (x : R) : 0 < x -> log1p x = Ok (ln (1 + x)) /\ 0 < ln (1 + x).
Proof.
  intros Hx. unfold log1p. destruct (Rle_dec x (-1)) as [Hle | _]; [lra |].
  split; [reflexivity |]. rewrite <- ln_1. apply ln_increasing; lra.
Qed.

(** On a positive scale [log_scale] takes its second branch without raising. *)
Lemma log_scale_positive (value scale : R) :
  0 < value -> 0 < scale ->
  log_scale value scale = Ok (clamp (ln (1 + value) / ln (1 + scale) * 100) 0 100).
Proof.
  intros Hv Hs. unfold log_scale.
  destruct (Rle_dec value 0) as [Hle | _]; [lra |].
  destruct (log1p_positive value Hv) as [-> _].
  destruct (log1p_positive scale Hs) as [-> Hpos]. cbn.
  unfold truediv. destruct (Req_dec_T (ln (1 + scale)) 0) as [Hz | _]; [lra |].
  reflexivity.
Qed.

Lemma log_scale_nonpositive (value scale : R) :
  value <= 0 -> log_scale value scale = Ok 0.
Proof.
  intros Hv. unfold log_scale. destruct (Rle_dec value 0); [reflexivity | lra].
Qed.

(** What every call of the scorers relies on: a score in [[0, 100]]. *)
Lemma log_scale_returns (value scale : R) :
  0 < scale -> exists v, log_scale value scale = Ok v /\ 0 <= v <= 100.
Proof.
  intros Hs. destruct (Rle_dec value 0) as [Hle | Hgt].
  - exists 0. split; [apply log_scale_nonpositive; exact Hle | lra].
  - eexists. split; [apply log_scale_positive; lra |].
    apply clamp_bounds. lra.
Qed.

End Primitives.

(** ** The scorer *)

Section ScorerFacts.
Import Scorer.
Local Open Scope R_scope.

(** Runs the calls of [log_scale] in the goal: each returns a score in
    [[0, 100]], which is all the scorers use of it. *)
Ltac run_log_scale :=
  repeat match goal with
  | |- context [log_scale ?v ?s] =>
      let x := fresh "x" in
      let Hx := fresh "Hx" in
      let Hb := fresh "Hb" in
      destruct (log_scale_returns v s ltac:(lra)) as (x & Hx & Hb);
      rewrite Hx; cbn [mbind result_bind]
  end.

Ltac scorer_in_range f :=
  unfold f; run_log_scale; eexists; split;
  [reflexivity | apply clamp_bounds; lra].

Lemma _score_consistency_range (m : Metrics) :
  exists v, _score_consistency m = Ok v /\ 0 <= v <= 100.
Proof. scorer_in_range _score_consistency. Qed.

Lemma _score_collaboration_range (m : Metrics) :
  exists v, _score_collaboration m = Ok v /\ 0 <= v <= 100.
Proof. scorer_in_range _score_collaboration. Qed.

Lemma _score_depth_range (m : Metrics) :
  exists v, _score_depth m = Ok v /\ 0 <= v <= 100.
Proof. scorer_in_range _score_depth. Qed.

Lemma _score_breadth_range (m : Metrics) :
  exists v, _score_breadth m = Ok v /\ 0 <= v <= 100.
Proof. scorer_in_range _score_breadth. Qed.

Lemma _score_momentum_range (m : Metrics) :
  exists v, _score_momentum m = Ok v /\ 0 <= v <= 100.
Proof. scorer_in_range _score_momentum. Qed.

Lemma _score_openness_range (m : Metrics) :
  exists v, _score_openness m = Ok v /\ 0 <= v <= 100.
Proof.
  unfold _score_openness. eexists. split; [reflexivity |].
  apply clamp_bounds. lra.
Qed.

(** [score] never raises, and its report is built from what the six scorers
    return. *)
Lemma score_returns (m : Metrics) :
  exists c co d b mo o,
    _score_consistency m = Ok c /\ _score_collaboration m = Ok co /\
    _score_depth m = Ok d /\ _score_breadth m = Ok b /\
    _score_momentum m = Ok mo /\ _score_openness m = Ok o /\
    score m =
      Ok {| dimensions := dimensions_dict c co d b mo o;
            overall_score :=
              clamp (weighted_sum (dimensions_dict c co d b mo o) SCORE_WEIGHTS) 0 100;
            tendency :=
              _classify_tendency
                (clamp (weighted_sum (dimensions_dict c co d b mo o) SCORE_WEIGHTS) 0 100);
            weights := SCORE_WEIGHTS |}.
Proof.
  destruct (_score_consistency_range m) as (c & Hc & _).
  destruct (_score_collaboration_range m) as (co & Hco & _).
  destruct (_score_depth_range m) as (d & Hd & _).
  destruct (_score_breadth_range m) as (b & Hb & _).
  destruct (_score_momentum_range m) as (mo & Hmo & _).
  destruct (_score_openness_range m) as (o & Ho & _).
  exists c, co, d, b, mo, o. repeat (split; [assumption |]).
  unfold score. rewrite Hc, Hco, Hd, Hb, Hmo, Ho. reflexivity.
Qed.

(** C1.  For every metrics dict (whatever its numbers, and so for finite
    non-negative ones), [score] returns a report in which each of the six
    dimension scores lies in [[0, 100]] and the overall score lies in
    [[0, 100]]. *)
Theorem score_in_range (m : Metrics) :
  exists report,
    score m = Ok report /\
    (forall dim, 0 <= dimensions report dim <= 100) /\
    0 <= overall_score report <= 100.
Proof.
  destruct (score_returns m) as (c & co & d & b & mo & o & Hc & Hco & Hd & Hb & Hmo & Ho & Hs).
  eexists. split; [exact Hs |]. cbn [dimensions overall_score]. split.
  - intros dim.
    destruct (_score_consistency_range m) as (c' & Hc' & Rc).
    destruct (_score_collaboration_range m) as (co' & Hco' & Rco).
    destruct (_score_depth_range m) as (d' & Hd' & Rd).
    destruct (_score_breadth_range m) as (b' & Hb' & Rb).
    destruct (_score_momentum_range m) as (mo' & Hmo' & Rmo).
    destruct (_score_openness_range m) as (o' & Ho' & Ro).
    assert (c' = c) as -> by congruence. assert (co' = co) as -> by congruence.
    assert (d' = d) as -> by congruence. assert (b' = b) as -> by congruence.
    assert (mo' = mo) as -> by congruence. assert (o' = o) as -> by congruence.
    destruct dim; cbn [dimensions_dict]; assumption.
  - apply clamp_bounds. lra.
Qed.

(** The three branches of [_classify_tendency]. *)
Lemma _classify_tendency_cases (s : R) :
  (70 <= s -> _classify_tendency s = "Utopia"%string) /\
  (s <= 40 -> _classify_tendency s = "Dystopia"%string) /\
  (40 < s < 70 -> _classify_tendency s = "Unexpected"%string).
Proof.
  unfold _classify_tendency, UTOPIA_THRESHOLD, DYSTOPIA_THRESHOLD.
  destruct (Rge_dec s 70) as [Hu | Hu]; destruct (Rle_dec s 40) as [Hd | Hd];
    repeat split; intros; first [reflexivity | lra].
Qed.

(** C3.  For every metrics dict the tendency of the report is decided by
    the overall score alone, the first matching test winning: at 70 and above
    it is Utopia, at 40 and below Dystopia, strictly between the two
    Unexpected.  In particular 70 itself is Utopia and 40 itself Dystopia. *)
Theorem tendency_thresholds (m : Metrics) :
  exists report,
    score m = Ok report /\
    tendency report = _classify_tendency (overall_score report) /\
    (70 <= overall_score report -> tendency report = "Utopia"%string) /\
    (overall_score report <= 40 -> tendency report = "Dystopia"%string) /\
    (40 < overall_score report < 70 -> tendency report = "Unexpected"%string) /\
    (forall s : R,
       (70 <= s -> _classify_tendency s = "Utopia"%string) /\
       (s <= 40 -> _classify_tendency s = "Dystopia"%string) /\
       (40 < s < 70 -> _classify_tendency s = "Unexpected"%string)) /\
    _classify_tendency 70 = "Utopia"%string /\
    _classify_tendency 40 = "Dystopia"%string.
Proof.
  destruct (score_returns m) as (c & co & d & b & mo & o & _ & _ & _ & _ & _ & _ & Hs).
  eexists. split; [exact Hs |]. cbn [tendency overall_score].
  set (overall := clamp _ 0 100).
  pose proof (_classify_tendency_cases overall) as (Hu & Hd & Hm).
  pose proof (_classify_tendency_cases 70) as (Hu70 & _ & _).
  pose proof (_classify_tendency_cases 40) as (_ & Hd40 & _).
  split; [reflexivity |].
  split; [exact Hu |]. split; [exact Hd |]. split; [exact Hm |].
  split; [exact _classify_tendency_cases |].
  split; [apply Hu70 | apply Hd40]; lra.
Qed.

(** C7.  For every value and every scale above 0, [log_scale] returns 0.0
    when the value is at most 0 and [clamp(ln(1+value) / ln(1+scale) * 100)]
    otherwise; what it returns lies in [[0, 100]]. *)
Theorem log_scale_spec (value scale : R) :
  0 < scale ->
  (value <= 0 -> log_scale value scale = Ok 0) /\
  (0 < value ->
   log_scale value scale = Ok (clamp (ln (1 + value) / ln (1 + scale) * 100) 0 100)) /\
  (exists v, log_scale value scale = Ok v /\ 0 <= v <= 100).
Proof.
  intros Hs. split; [| split].
  - apply log_scale_nonpositive.
  - intros Hv. apply log_scale_positive; assumption.
  - apply log_scale_returns. exact Hs.
Qed.

(** The theorem at scale 50: the value 0 scores 0, the value 50 scores 100. *)
Lemma log_scale_spec_witness :
  0 < 50 /\
  log_scale 0 50 = Ok 0 /\
  log_scale 50 50 = Ok (clamp (ln (1 + 50) / ln (1 + 50) * 100) 0 100) /\
  log_scale 50 50 = Ok 100.
Proof.
  assert (Hscale : 0 < 50) by lra.
  destruct (log_scale_spec 0 50 Hscale) as (Hzero & _ & _).
  destruct (log_scale_spec 50 50 Hscale) as (_ & Hpos & _).
  split; [exact Hscale |]. split; [apply Hzero; lra |].
  split; [apply Hpos; lra |]. rewrite Hpos by lra. f_equal.
  assert (0 < ln (1 + 50)) by (rewrite <- ln_1; apply ln_increasing; lra).
  replace (ln (1 + 50) / ln (1 + 50) * 100) with 100 by (field; lra).
  apply clamp_id. lra.
Defined.

End ScorerFacts.

(** ** The analyzer: when it returns *)

(** [analyze] returns exactly on the [zoned] inputs ([analyze_returns]).
    The theorems about what it returns are therefore stated for the zoned
    inputs: on each of them [analyze] returns a metrics dict, and that dict
    is as the theorem says. *)

Section AnalyzerFacts.
Context `{Host}.
Import Analyzer.

Lemma datetime_sub_returns (t : Z) (dt : datetime) :
  (exists td, datetime_sub t dt = Ok td) <-> subtractable (Some dt) = true.
Proof.
  unfold datetime_sub, subtractable. rewrite bool_decide_eq_true.
  destruct (utcoffset dt) as [off |]; split.
  - intros _. eexists. reflexivity.
  - intros _. eexists. reflexivity.
  - intros [td Htd]. discriminate.
  - intros [off Hoff]. discriminate.
Qed.

Lemma qmax_0_nonneg (q : Q) : (0 <= qmax q 0)%Q.
Proof.
  unfold qmax. destruct (Qle_bool 0 q) eqn:Hq.
  - apply Qle_bool_iff. exact Hq.
  - apply Qle_refl.
Qed.

Lemma days_since_unparsable (date_str : option string) :
  parse_github_date date_str = None -> days_since date_str = Ok 0%Q.
Proof. intros Hp. unfold days_since. rewrite Hp. reflexivity. Qed.

Lemma days_since_returns (date_str : option string) :
  (exists d, days_since date_str = Ok d) <-> zoned_date date_str = true.
Proof.
  unfold days_since, zoned_date.
  destruct (parse_github_date date_str) as [dt |].
  - rewrite <- (datetime_sub_returns now dt). split.
    + intros [d Hd]. destruct (datetime_sub now dt) as [td | e]; [eauto | discriminate].
    + intros [td ->]. eexists. reflexivity.
  - split; [reflexivity | intros _; eexists; reflexivity].
Qed.

Lemma days_since_nonneg (date_str : option string) (d : Q) :
  days_since date_str = Ok d -> (0 <= d)%Q.
Proof.
  unfold days_since. destruct (parse_github_date date_str) as [dt |].
  - destruct (datetime_sub now dt) as [td | e]; cbn; [| discriminate].
    intros [= <-]. apply qmax_0_nonneg.
  - intros [= <-]. apply Qle_refl.
Qed.

Lemma years_since_returns (date_str : option string) :
  (exists y, years_since date_str = Ok y) <-> zoned_date date_str = true.
Proof.
  rewrite <- days_since_returns. unfold years_since. split.
  - intros [y Hy]. destruct (days_since date_str) as [d | e]; [eauto | discriminate].
  - intros [d ->]. eexists. reflexivity.
Qed.

(** [mapM] in the [result] monad returns exactly when every call does. *)
Lemma mapM_result_inv {A B : Type} (f : A -> result B) (xs : list A) (ys : list B) :
  mapM f xs = Ok ys -> Forall2 (fun x y => f x = Ok y) xs ys.
Proof.
  revert ys. induction xs as [| x xs IH]; intros ys; cbn.
  - intros [= <-]. constructor.
  - destruct (f x) as [y | e] eqn:Hfx; cbn; [| discriminate].
    destruct (mapM f xs) as [ys' | e]; cbn; [| discriminate].
    intros [= <-]. constructor; [exact Hfx | apply IH; reflexivity].
Qed.

Lemma mapM_result_returns {A B : Type} (f : A -> result B) (xs : list A) :
  (exists ys, mapM f xs = Ok ys) <-> Forall (fun x => exists y, f x = Ok y) xs.
Proof.
  induction xs as [| x xs IH]; cbn.
  - split; [constructor | intros _; eexists; reflexivity].
  - rewrite Forall_cons, <- IH. split.
    + intros [ys Hys]. destruct (f x) as [y | e]; cbn in Hys; [| discriminate].
      destruct (mapM f xs) as [ys' | e]; cbn in Hys; [| discriminate]. eauto.
    + intros [[y ->] [ys ->]]. eexists. reflexivity.
Qed.

(** The same for the loop. *)
Lemma foldlM_returns {S A : Type} (body : S -> A -> result S) (P : A -> Prop) :
  (forall st x, (exists st', body st x = Ok st') <-> P x) ->
  forall xs st, (exists st', foldlM body st xs = Ok st') <-> Forall P xs.
Proof.
  intros Hbody. induction xs as [| x xs IH]; intros st; cbn.
  - split; [constructor | intros _; eexists; reflexivity].
  - rewrite Forall_cons, <- (Hbody st x). split.
    + intros [st' Hst']. destruct (body st x) as [st1 | e]; cbn in Hst'; [| discriminate].
      split; [eauto |]. apply (IH st1). eauto.
    + intros [[st1 ->] Hxs]. cbn. apply IH. exact Hxs.
Qed.

Lemma _profile_metrics_returns (profile : RawProfile.t) :
  (exists pm, _profile_metrics profile = Ok pm) <->
  zoned_date (RawProfile.created_at profile) = true.
Proof.
  rewrite <- days_since_returns. unfold _profile_metrics, years_since. split.
  - intros [pm Hpm].
    destruct (days_since (RawProfile.created_at profile)) as [d | e]; [eauto | discriminate].
  - intros [d ->]. eexists. reflexivity.
Qed.

Lemma dated_zoned (repos : list RawRepository.t) :
  Forall (fun r => zoned_date (RawRepository.created_at r) = true) (dated repos) <->
  Forall (fun r => zoned_date (RawRepository.created_at r) = true) repos.
Proof.
  unfold dated. rewrite !Forall_forall. split.
  - intros Hd r Hr.
    destruct (truthy_str (RawRepository.created_at r)) eqn:Ht.
    + apply Hd. apply list_elem_of_filter. split; assumption.
    + unfold zoned_date, parse_github_date.
      destruct (RawRepository.created_at r) as [[| c s] |]; cbn in *;
        first [reflexivity | discriminate].
  - intros Ha r Hr. apply Ha. apply list_elem_of_filter in Hr. apply Hr.
Qed.

Lemma _repo_metrics_returns (repos : list RawRepository.t) :
  (exists rm, _repo_metrics repos = Ok rm) <->
  Forall (fun r => zoned_date (RawRepository.created_at r) = true) repos.
Proof.
  destruct repos as [| r0 repos'] eqn:Hrepos.
  - split; [constructor | intros _; eexists; reflexivity].
  - rewrite <- Hrepos. rewrite <- dated_zoned.
    assert (Hages :
      (exists ages, mapM (fun r => days_since (RawRepository.created_at r)) (dated repos)
                    = Ok ages) <->
      Forall (fun r => zoned_date (RawRepository.created_at r) = true) (dated repos)).
    { rewrite mapM_result_returns. apply Forall_iff. intros r. apply days_since_returns. }
    rewrite <- Hages. subst repos. unfold _repo_metrics.
    set (rs := r0 :: repos'). split.
    + intros [rm Hrm].
      destruct (mapM _ (dated rs)) as [ages | e]; [eauto | discriminate].
    + intros [ages ->]. eexists. reflexivity.
Qed.

Lemma loop_body_returns (st : LoopState) (event : RawEvent.t) :
  (exists st', loop_body st event = Ok st') <-> zoned_event event = true.
Proof.
  unfold loop_body, zoned_event.
  destruct (fromisoformat _) as [dt |].
  - rewrite <- (datetime_sub_returns now dt). split.
    + intros [st' Hst']. destruct (datetime_sub now dt) as [td | e]; [eauto | discriminate].
    + intros [td ->]. cbn.
      destruct (Qle_bool _ 30); [eexists; reflexivity |].
      destruct (Qle_bool _ 90); eexists; reflexivity.
  - split; [reflexivity | intros _; eexists; reflexivity].
Qed.

Lemma _event_metrics_returns (events : list RawEvent.t) :
  (exists em, _event_metrics events = Ok em) <->
  Forall (fun e => zoned_event e = true) events.
Proof.
  destruct events as [| e0 events'] eqn:Hevents.
  - split; [constructor | intros _; eexists; reflexivity].
  - rewrite <- Hevents.
    rewrite <- (foldlM_returns loop_body _ loop_body_returns events
                  {| commit_count := 0; active_days_set := ∅;
                     last_30d := 0; from_30_to_90d := 0 |}).
    subst events. unfold _event_metrics. set (es := e0 :: events'). split.
    + intros [em Hem].
      destruct (foldlM loop_body _ es) as [st | e]; [eauto | discriminate].
    + intros [st ->]. eexists. reflexivity.
Qed.

(** [analyze] returns a metrics dict exactly on the inputs none of whose
    timestamps parses to a naive datetime, and raises on the others. *)
Lemma analyze_returns (raw_data : RawData.t) :
  (exists m, analyze raw_data = Ok m) <-> zoned raw_data.
Proof.
  unfold zoned, analyze.
  rewrite <- _profile_metrics_returns, <- _repo_metrics_returns, <- _event_metrics_returns.
  split.
  - intros [m Hm].
    destruct (_profile_metrics _) as [pm | e]; cbn in Hm; [| discriminate].
    destruct (_repo_metrics _) as [rm | e]; cbn in Hm; [| discriminate].
    destruct (_event_metrics _) as [em | e]; cbn in Hm; [| discriminate].
    repeat split; eexists; reflexivity.
  - intros ([pm ->] & [rm ->] & [em ->]). eexists. reflexivity.
Qed.

(** What [analyze] returns is made of what its four parts return. *)
Lemma analyze_parts (raw_data : RawData.t) (m : Metrics) :
  analyze raw_data = Ok m ->
  _profile_metrics (default empty_profile (RawData.profile raw_data)) = Ok (of_profile m) /\
  _repo_metrics (default [] (RawData.repos raw_data)) = Ok (of_repos m) /\
  _event_metrics (default [] (RawData.events raw_data)) = Ok (of_events m) /\
  derived m = _derived_metrics (of_events m).
Proof.
  unfold analyze.
  destruct (_profile_metrics _) as [pm | e]; cbn; [| discriminate].
  destruct (_repo_metrics _) as [rm | e]; cbn; [| discriminate].
  destruct (_event_metrics _) as [em | e]; cbn; [| discriminate].
  intros [= <-]. cbn. auto.
Qed.

Lemma zoned_check_true (raw_data : RawData.t) :
  zoned_check raw_data = true -> zoned raw_data.
Proof.
  unfold zoned_check, zoned. rewrite !andb_true_iff, !forallb_forall, !Forall_forall.
  intros [[Hp Hr] He]. split; [exact Hp |].
  split; intros x Hx; [apply Hr | apply He]; apply list_elem_of_In, Hx.
Qed.

End AnalyzerFacts.

(** ** The analyzer: its signals *)

Section AnalyzerTheorems.
Context `{Host}.
Import Analyzer.

Lemma _profile_metrics_empty :
  _profile_metrics empty_profile
  = Ok {| username := "unknown"; account_age_days := 0%Q;
          account_age_years := (0 / 365.25)%Q; public_repos := 0;
          followers := 0; following := 0; has_blog := false;
          has_bio := false; hireable := false |}.
Proof. reflexivity. Qed.

Lemma _repo_metrics_empty :
  _repo_metrics []
  = Ok {| total_repos := 0; total_stars := 0; total_forks_received := 0;
          total_watchers := 0; avg_repo_age_days := 0%Q; languages := [];
          top_languages := "N/A"; has_license_ratio := 0%Q;
          forked_ratio := 0%Q; original_repo_count := 0;
          language_count := 0 |}.
Proof. reflexivity. Qed.

(** C9.  The empty repository list is not an error: [_repo_metrics]
    returns [total_repos = 0], [total_stars = 0], [language_count = 0] and
    [top_languages = "N/A"] for it, and so does [analyze] on every input
    whose repository list is empty.  [_profile_metrics] returns
    [username = "unknown"] and [account_age_days = 0.0] for the empty
    mapping, and so does [analyze] on every input whose profile is the empty
    mapping.  (The premise [zoned] is what makes [analyze] return on the rest
    of the input.) *)
Theorem analyze_empty_inputs :
  (exists rm,
     _repo_metrics [] = Ok rm /\
     total_repos rm = 0 /\ total_stars rm = 0 /\ language_count rm = 0 /\
     top_languages rm = "N/A"%string) /\
  (exists pm,
     _profile_metrics empty_profile = Ok pm /\
     username pm = "unknown"%string /\ account_age_days pm = 0%Q) /\
  (forall raw_data,
     zoned raw_data ->
     default [] (RawData.repos raw_data) = [] ->
     exists m,
       analyze raw_data = Ok m /\
       total_repos (of_repos m) = 0 /\
       total_stars (of_repos m) = 0 /\
       language_count (of_repos m) = 0 /\
       top_languages (of_repos m) = "N/A"%string) /\
  (forall raw_data,
     zoned raw_data ->
     default empty_profile (RawData.profile raw_data) = empty_profile ->
     exists m,
       analyze raw_data = Ok m /\
       username (of_profile m) = "unknown"%string /\
       account_age_days (of_profile m) = 0%Q).
Proof.
  split; [eexists; split; [apply _repo_metrics_empty | cbn; auto] |].
  split; [eexists; split; [apply _profile_metrics_empty | cbn; auto] |].
  split; intros raw_data Hz Hempty; apply analyze_returns in Hz as [m Hm];
    exists m; (split; [exact Hm |]);
    apply analyze_parts in Hm as (Hpm & Hrm & _ & _); rewrite Hempty in *.
  - rewrite _repo_metrics_empty in Hrm. injection Hrm as <-. cbn. auto.
  - rewrite _profile_metrics_empty in Hpm. injection Hpm as <-. cbn. auto.
Qed.

(** The period string [_event_metrics] returns. *)
Lemma _event_metrics_period (events : list RawEvent.t) (em : EventMetrics) :
  _event_metrics events = Ok em ->
  most_active_period em =
    match events with
    | [] => "N/A"%string
    | _ :: _ => Spec.mostActivePeriod (events_last_30d em) (events_30_90d em)
    end.
Proof.
  destruct events as [| e0 events']; cbn -[foldlM].
  - intros [= <-]. reflexivity.
  - destruct (foldlM _ _ _) as [st | e]; cbn; [| discriminate].
    intros [= <-]. reflexivity.
Qed.

(** C5, amended.  For every non-empty events list the most active period
    is "Last 30 days (currently active)" if [events_last_30d > events_30_90d],
    else "30–90 days ago" if [events_30_90d > 0], else "More than 90 days
    ago"; for the empty events list it is "N/A". *)
Theorem most_active_period_derivation (raw_data : RawData.t) :
  zoned raw_data ->
  exists m,
    analyze raw_data = Ok m /\
    most_active_period (of_events m) =
      match default [] (RawData.events raw_data) with
      | [] => "N/A"%string
      | _ :: _ =>
          Spec.mostActivePeriod (events_last_30d (of_events m))
                                (events_30_90d (of_events m))
      end.
Proof.
  intros Hz. apply analyze_returns in Hz as [m Hm]. exists m.
  split; [exact Hm |].
  apply analyze_parts in Hm as (_ & _ & Hem & _).
  apply _event_metrics_period. exact Hem.
Qed.

(** The [max] of the code and the [Qmax] of the library are one function. *)
Lemma qmax_Qmax (a b : Q) : qmax a b = Qmax a b.
Proof.
  unfold qmax, Qmax, GenericMinMax.gmax.
  unfold Qle_bool, Qcompare. rewrite Z.leb_compare, (Z.compare_antisym (Qnum a * _)).
  destruct (Qnum a * QDen b ?= Qnum b * QDen a); reflexivity.
Qed.

(** A divisor floored at 1 is not zero. *)
Lemma Qmax_1_nonzero (q : Q) : Qeq_bool (Qmax q 1) 0 = false.
Proof.
  destruct (Qeq_bool (Qmax q 1) 0) eqn:Hz; [| reflexivity].
  apply Qeq_bool_iff in Hz. pose proof (Q.le_max_r q 1) as Hle.
  rewrite Hz in Hle. unfold Qle in Hle. cbn in Hle. lia.
Qed.

(** The ratio [_derived_metrics] computes is the specification's. *)
Lemma _derived_metrics_momentum (em : EventMetrics) :
  momentum_ratio (_derived_metrics em)
  = Spec.momentumRatio (events_last_30d em) (events_30_90d em).
Proof.
  unfold _derived_metrics, Spec.momentumRatio, Spec.safeDivide, safe_divide.
  cbn [momentum_ratio is_zero divide Q_number]. rewrite qmax_Qmax. reflexivity.
Qed.

(** The specification's formula is the quotient it describes: neither
    [safeDivide] meets a zero denominator. *)
Lemma momentumRatio_quotient (recent older : Z) :
  Spec.momentumRatio recent older = Spec.momentumQuotient recent older.
Proof.
  unfold Spec.momentumRatio, Spec.momentumQuotient, Spec.safeDivide.
  change (Qeq_bool 2 0) with false. cbv iota. rewrite Qmax_1_nonzero. reflexivity.
Qed.

(** With no event in the 30-to-90-day bucket the ratio is the count of the
    last 30 days itself. *)
Lemma momentum_undamped (n : Z) : Spec.momentumRatio n 0 = inject_Z n.
Proof.
  rewrite momentumRatio_quotient. unfold Spec.momentumQuotient.
  replace (Qmax (inject_Z 0 / 2) 1%Q) with 1%Q by reflexivity.
  unfold inject_Z, Qdiv, Qmult, Qinv. cbn [Qnum Qden].
  rewrite Z.mul_1_r. reflexivity.
Qed.

(** C6.  [momentum_ratio] is
    [safeDivide(events_last_30d, max(safeDivide(events_30_90d, 2), 1))],
    whatever the event counts, with [safeDivide] as the specification words
    it; that is the quotient [events_last_30d / max(events_30_90d / 2, 1)],
    5 for 10 recent and 4 older events; when [events_30_90d = 0] and
    [events_last_30d = n > 0] it is [n] exactly.  So it is in the dict
    [analyze] returns. *)
Theorem momentum_ratio_formula :
  (forall em : EventMetrics,
     momentum_ratio (_derived_metrics em)
     = Spec.momentumRatio (events_last_30d em) (events_30_90d em)) /\
  (forall em : EventMetrics,
     momentum_ratio (_derived_metrics em)
     = (inject_Z (events_last_30d em) / Qmax (inject_Z (events_30_90d em) / 2) 1)%Q) /\
  (forall em : EventMetrics,
     events_last_30d em = 10 -> events_30_90d em = 4 ->
     (momentum_ratio (_derived_metrics em) == 5)%Q) /\
  (forall (em : EventMetrics) (n : Z),
     events_30_90d em = 0 -> events_last_30d em = n -> 0 < n ->
     momentum_ratio (_derived_metrics em) = inject_Z n) /\
  (forall raw_data,
     zoned raw_data ->
     exists m,
       analyze raw_data = Ok m /\
       momentum_ratio (derived m)
       = Spec.momentumRatio (events_last_30d (of_events m)) (events_30_90d (of_events m)) /\
       momentum_ratio (derived m)
       = (inject_Z (events_last_30d (of_events m))
          / Qmax (inject_Z (events_30_90d (of_events m)) / 2) 1)%Q /\
       (forall n : Z,
          events_30_90d (of_events m) = 0 -> events_last_30d (of_events m) = n -> 0 < n ->
          momentum_ratio (derived m) = inject_Z n)).
Proof.
  assert (Hq : forall em : EventMetrics,
             momentum_ratio (_derived_metrics em)
             = (inject_Z (events_last_30d em)
                / Qmax (inject_Z (events_30_90d em) / 2) 1)%Q).
  { intros em. rewrite _derived_metrics_momentum. apply momentumRatio_quotient. }
  assert (Hn : forall (em : EventMetrics) (n : Z),
             events_30_90d em = 0 -> events_last_30d em = n -> 0 < n ->
             momentum_ratio (_derived_metrics em) = inject_Z n).
  { intros em n H0 Hn _. rewrite _derived_metrics_momentum, H0, Hn.
    apply momentum_undamped. }
  split; [exact _derived_metrics_momentum |]. split; [exact Hq |].
  split; [intros em H10 H4; rewrite Hq, H10, H4; reflexivity |].
  split; [exact Hn |].
  intros raw_data Hz. apply analyze_returns in Hz as [m Hm]. exists m.
  split; [exact Hm |].
  apply analyze_parts in Hm as (_ & _ & _ & ->).
  split; [apply _derived_metrics_momentum |]. split; [apply Hq | apply Hn].
Qed.

(** The average [_repo_metrics] returns is the mean of the ages of the
    repositories whose [created_at] is truthy. *)
Lemma _repo_metrics_avg (repos : list RawRepository.t) (rm : RepoMetrics) :
  _repo_metrics repos = Ok rm ->
  exists ages,
    mapM (fun r => days_since (RawRepository.created_at r)) (dated repos) = Ok ages /\
    avg_repo_age_days rm = Spec.mean ages.
Proof.
  destruct repos as [| r0 repos'].
  - intros [= <-]. exists []. split; reflexivity.
  - unfold _repo_metrics. set (rs := r0 :: repos').
    destruct (mapM _ (dated rs)) as [ages | e]; cbn -[rs]; [| discriminate].
    intros [= <-]. exists ages. split; [reflexivity |].
    cbn [avg_repo_age_days]. destruct ages; reflexivity.
Qed.

Lemma qsum_zeros (xs : list Q) :
  Forall (fun x => x = 0%Q) xs -> (qsum xs == 0)%Q.
Proof.
  intros Hxs. unfold qsum.
  assert (Hacc : forall acc, (fold_left Qplus xs acc == acc)%Q).
  { induction Hxs as [| x xs -> _ IH]; intros acc; cbn.
    - reflexivity.
    - rewrite IH. apply Qplus_0_r. }
  apply Hacc.
Qed.

Lemma mean_zeros (xs : list Q) :
  Forall (fun x => x = 0%Q) xs -> (Spec.mean xs == 0)%Q.
Proof.
  intros Hxs. destruct xs as [| x xs]; [reflexivity |].
  unfold Spec.mean. rewrite (qsum_zeros _ Hxs). reflexivity.
Qed.

(** C4, amended.  [avg_repo_age_days] is the mean of [days_since] over the
    repositories whose [created_at] is non-empty, where a date that does not
    parse counts as 0.0 days; it is 0.0 when no repository has a non-empty
    [created_at], and when none has a parsable one. *)
Theorem avg_repo_age_days_mean (raw_data : RawData.t) :
  zoned raw_data ->
  let repos := default [] (RawData.repos raw_data) in
  exists m ages,
    analyze raw_data = Ok m /\
    Forall2
      (fun r age =>
         days_since (RawRepository.created_at r) = Ok age /\
         (parse_github_date (RawRepository.created_at r) = None -> age = 0%Q))
      (filter (fun r => truthy_str (RawRepository.created_at r) = true) repos) ages /\
    avg_repo_age_days (of_repos m) = Spec.mean ages /\
    (Forall (fun r => truthy_str (RawRepository.created_at r) = false) repos ->
     avg_repo_age_days (of_repos m) = 0%Q) /\
    (Forall (fun r => parse_github_date (RawRepository.created_at r) = None) repos ->
     (avg_repo_age_days (of_repos m) == 0)%Q).
Proof.
  intros Hz repos. apply analyze_returns in Hz as [m Hm].
  pose proof (analyze_parts _ _ Hm) as (_ & Hrm & _ & _). fold repos in Hrm.
  apply _repo_metrics_avg in Hrm as (ages & Hages & Havg).
  apply mapM_result_inv in Hages.
  assert (Hages' :
    Forall2
      (fun r age =>
         days_since (RawRepository.created_at r) = Ok age /\
         (parse_github_date (RawRepository.created_at r) = None -> age = 0%Q))
      (dated repos) ages).
  { eapply Forall2_impl; [exact Hages |]. cbn. intros r age Hr.
    split; [exact Hr |]. intros Hp. rewrite (days_since_unparsable _ Hp) in Hr.
    congruence. }
  exists m, ages. split; [exact Hm |]. split; [exact Hages' |].
  split; [exact Havg |]. rewrite Havg. split.
  - intros Hnone.
    assert (dated repos = []) as Hd.
    { unfold dated. clear - Hnone.
      induction Hnone as [| r rs Hr _ IH]; [reflexivity |].
      rewrite filter_cons, decide_False by congruence. exact IH. }
    rewrite Hd in Hages. inversion Hages. reflexivity.
  - intros Hnone. apply mean_zeros.
    assert (Hall : Forall (fun r => parse_github_date (RawRepository.created_at r) = None)
                          (dated repos)).
    { unfold dated. rewrite Forall_forall in Hnone. apply Forall_forall.
      intros r Hr. apply list_elem_of_filter in Hr as [_ Hr]. apply Hnone, Hr. }
    clear - Hages' Hall. induction Hages' as [| r age rs ages' [_ Hr] _ IH].
    + constructor.
    + inversion Hall; subst. constructor; [auto | apply IH; assumption].
Qed.

End AnalyzerTheorems.

(** ** The openness score *)

Section Openness.
Context `{Host}.
Local Open Scope R_scope.

Lemma zsum_ones {A : Type} (xs : list A) :
  Analyzer.zsum (map (fun _ => 1%Z) xs) = len xs.
Proof.
  unfold Analyzer.zsum, len.
  assert (Hacc : forall acc : Z,
             fold_left Z.add (map (fun _ => 1%Z) xs) acc
             = (acc + Z.of_nat (length xs))%Z).
  { induction xs as [| x xs IH]; intros acc; cbn [map fold_left length].
    - lia.
    - rewrite IH. lia. }
  apply Hacc.
Qed.

Lemma len_filter_bounds {A : Type} (P : A -> Prop) `{!forall x, Decision (P x)}
    (xs : list A) :
  (0 <= len (filter P xs) <= len xs)%Z.
Proof. unfold len. pose proof (length_filter P xs). lia. Qed.

(** A part of a whole, divided by the whole, is a fraction. *)
Lemma safe_divide_fraction (part whole : Z) :
  (0 <= part <= whole)%Z ->
  (0 <= safe_divide (inject_Z part) (inject_Z whole) 0 <= 1)%Q.
Proof.
  intros [Hpart Hwhole]. unfold safe_divide. cbn [is_zero divide Q_number].
  destruct (Qeq_bool (inject_Z whole) 0) eqn:Hz.
  - split; discriminate.
  - apply Qeq_bool_neq in Hz.
    assert (0 < inject_Z whole)%Q as Hpos.
    { change 0%Q with (inject_Z 0). rewrite <- (Zlt_Qlt 0%Z whole).
      destruct (Z.eq_dec whole 0%Z) as [-> | Hne]; [| lia].
      exfalso. apply Hz. reflexivity. }
    split.
    + apply Qle_shift_div_l; [exact Hpos |]. rewrite Qmult_0_l.
      change 0%Q with (inject_Z 0). rewrite <- (Zle_Qle 0%Z part). exact Hpart.
    + apply Qle_shift_div_r; [exact Hpos |]. rewrite Qmult_1_l.
      rewrite <- Zle_Qle. exact Hwhole.
Qed.

(** The two ratios [_repo_metrics] returns are fractions. *)
Lemma _repo_metrics_ratios (repos : list RawRepository.t) (rm : Analyzer.RepoMetrics) :
  Analyzer._repo_metrics repos = Ok rm ->
  (0 <= Analyzer.has_license_ratio rm <= 1)%Q /\
  (0 <= Analyzer.forked_ratio rm <= 1)%Q.
Proof.
  destruct repos as [| r0 repos'].
  - intros [= <-]. cbn. repeat split; discriminate.
  - unfold Analyzer._repo_metrics. set (rs := r0 :: repos').
    destruct (mapM _ (Analyzer.dated rs)) as [ages | e]; cbn -[rs]; [| discriminate].
    intros [= <-]. cbn [Analyzer.has_license_ratio Analyzer.forked_ratio].
    rewrite zsum_ones. split; apply safe_divide_fraction, len_filter_bounds.
Qed.

Lemma Q2R_fraction (q : Q) : (0 <= q <= 1)%Q -> 0 <= Q2R q <= 1.
Proof.
  intros [Hlo Hhi]. apply Qle_Rle in Hlo, Hhi.
  replace (Q2R 0) with 0 in Hlo by (unfold Q2R; cbn; lra).
  replace (Q2R 1) with 1 in Hhi by (unfold Q2R; cbn; lra).
  lra.
Qed.

Lemma clamp_le (value bound : R) :
  value <= bound -> 0 <= bound -> clamp value 0 100 <= bound.
Proof.
  intros Hv Hb. unfold clamp. apply Rmax_lub; [exact Hb |].
  apply Rle_trans with value; [apply Rmin_r | exact Hv].
Qed.

(** C10, amended.  For every metrics dict whose [has_license_ratio] and
    [forked_ratio] are at most 1 the openness score is at most 70; the dicts
    [analyze] returns are such dicts. *)
Theorem openness_at_most_70 :
  (forall m : Scorer.Metrics,
     default 0 (Scorer.has_license_ratio m) <= 1 ->
     default 0 (Scorer.forked_ratio m) <= 1 ->
     exists v, Scorer._score_openness m = Ok v /\ 0 <= v <= 70) /\
  (forall raw_data m,
     Analyzer.analyze raw_data = Ok m ->
     exists v, Scorer._score_openness (Scorer.metrics_dict m) = Ok v /\ 0 <= v <= 70).
Proof.
  assert (Hgeneral : forall m : Scorer.Metrics,
     default 0 (Scorer.has_license_ratio m) <= 1 ->
     default 0 (Scorer.forked_ratio m) <= 1 ->
     exists v, Scorer._score_openness m = Ok v /\ 0 <= v <= 70).
  { intros m Hl Hf. unfold Scorer._score_openness. eexists. split; [reflexivity |].
    split; [apply clamp_bounds; lra |]. apply clamp_le; [| lra].
    destruct (truthy_bool (Scorer.has_blog m)), (truthy_bool (Scorer.has_bio m)); lra. }
  split; [exact Hgeneral |].
  intros raw_data m Hm.
  apply analyze_parts in Hm as (_ & Hrm & _ & _).
  apply _repo_metrics_ratios in Hrm as [Hl Hf].
  apply Q2R_fraction in Hl. apply Q2R_fraction in Hf.
  apply Hgeneral; unfold Scorer.metrics_dict, default; cbn; lra.
Qed.

End Openness.

(** ** The language ranking *)

Section Counting.

Lemma occurrences_snoc (k x : string) (p : list string) :
  Spec.occurrences k (p ++ [x])
  = Spec.occurrences k p + (if decide (x = k) then 1 else 0).
Proof.
  unfold Spec.occurrences, len. rewrite filter_app, length_app.
  rewrite filter_cons, filter_nil. destruct (decide (x = k)); cbn; lia.
Qed.

Lemma occurrences_absent (k : string) (p : list string) :
  k ∉ p -> Spec.occurrences k p = 0.
Proof.
  intros Hk. unfold Spec.occurrences, len.
  induction p as [| x p IH]; [reflexivity |].
  apply not_elem_of_cons in Hk as [Hne Hk].
  rewrite filter_cons, decide_False by congruence. apply IH, Hk.
Qed.

Lemma first_index_lt (k : string) (p : list string) :
  k ∈ p -> (Spec.first_index k p < length p)%nat.
Proof.
  induction p as [| x p IH]; intros Hk; [inversion Hk |].
  cbn. destruct (decide (x = k)) as [_ | Hne]; [lia |].
  apply elem_of_cons in Hk as [-> | Hk]; [congruence |].
  specialize (IH Hk). lia.
Qed.

Lemma first_index_snoc_old (k x : string) (p : list string) :
  k ∈ p -> Spec.first_index k (p ++ [x]) = Spec.first_index k p.
Proof.
  induction p as [| y p IH]; intros Hk; [inversion Hk |].
  cbn. destruct (decide (y = k)) as [_ | Hne]; [reflexivity |].
  apply elem_of_cons in Hk as [-> | Hk]; [congruence |].
  rewrite IH by exact Hk. reflexivity.
Qed.

Lemma first_index_snoc_new (k : string) (p : list string) :
  k ∉ p -> Spec.first_index k (p ++ [k]) = length p.
Proof.
  induction p as [| y p IH]; intros Hk; cbn.
  - rewrite decide_True by reflexivity. reflexivity.
  - apply not_elem_of_cons in Hk as [Hne Hk].
    rewrite decide_False by congruence. rewrite IH by exact Hk. reflexivity.
Qed.

End Counting.

Section Sorting.
Context {A : Type}.

Lemma StronglySorted_weaken (R R' : A -> A -> Prop) (l : list A) :
  (forall a b, a ∈ l -> b ∈ l -> R a b -> R' a b) ->
  StronglySorted R l -> StronglySorted R' l.
Proof.
  intros Himpl Hs. induction Hs as [| a l Hs IH Ha]; constructor.
  - apply IH. intros x y Hx Hy. apply Himpl; apply elem_of_cons; right; assumption.
  - rewrite Forall_forall in Ha |- *. intros b Hb.
    apply Himpl; [apply elem_of_cons; left; reflexivity
                 | apply elem_of_cons; right; exact Hb
                 | apply Ha, Hb].
Qed.

Lemma StronglySorted_snoc (R : A -> A -> Prop) (l : list A) (x : A) :
  StronglySorted R l -> Forall (fun a => R a x) l -> StronglySorted R (l ++ [x]).
Proof.
  intros Hs. induction Hs as [| a l Hs IH Ha]; intros Hx; cbn.
  - repeat constructor.
  - inversion Hx as [| ? ? Hax Hlx]; subst. constructor.
    + apply IH, Hlx.
    + apply Forall_app. split; [exact Ha | repeat constructor; exact Hax].
Qed.

Lemma StronglySorted_map {B : Type} (f : A -> B) (R : B -> B -> Prop) (l : list A) :
  StronglySorted (fun a b => R (f a) (f b)) l <-> StronglySorted R (map f l).
Proof.
  induction l as [| a l IH]; cbn.
  - split; constructor.
  - split; intros Hs; inversion Hs as [| ? ? Hl Ha]; subst; constructor;
      try (apply IH; exact Hl).
    + apply Forall_forall. intros b Hb. apply list_elem_of_In, in_map_iff in Hb as (x & <- & Hx).
      rewrite Forall_forall in Ha. apply Ha, list_elem_of_In, Hx.
    + apply Forall_forall. intros x Hx. rewrite Forall_forall in Ha.
      apply Ha, list_elem_of_In, in_map, list_elem_of_In, Hx.
Qed.

End Sorting.

Section CounterFacts.
Import Analyzer.

Lemma counter_add_new (x : string) (c : list (string * Z)) :
  x ∉ map fst c -> counter_add x c = c ++ [(x, 1)].
Proof.
  induction c as [| [k n] c IH]; intros Hx; cbn.
  - reflexivity.
  - cbn in Hx. apply not_elem_of_cons in Hx as [Hne Hx].
    destruct (String.eqb_spec x k) as [-> | _]; [congruence |].
    rewrite IH by exact Hx. reflexivity.
Qed.

Lemma counter_add_old_keys (x : string) (c : list (string * Z)) :
  map fst (counter_add x c) = map fst c \/ x ∉ map fst c.
Proof.
  induction c as [| [k n] c IH]; cbn.
  - right. apply not_elem_of_nil.
  - destruct (String.eqb_spec x k) as [-> | Hne]; [left; reflexivity |].
    destruct IH as [IH | IH]; [left; cbn; rewrite IH; reflexivity |].
    right. apply not_elem_of_cons. split; assumption.
Qed.

Lemma counter_add_old_counts (x : string) (p : list string) (c : list (string * Z)) :
  NoDup (map fst c) -> x ∈ map fst c ->
  Forall (fun kn => kn.2 = Spec.occurrences kn.1 p) c ->
  Forall (fun kn => kn.2 = Spec.occurrences kn.1 (p ++ [x])) (counter_add x c).
Proof.
  induction c as [| [k n] c IH]; intros Hnd Hx Hc; cbn in *.
  - inversion Hx.
  - apply NoDup_cons in Hnd as [Hk Hnd].
    inversion Hc as [| ? ? Hn Hc']; subst. cbn in Hn.
    destruct (String.eqb_spec x k) as [-> | Hne].
    + constructor.
      * cbn. rewrite occurrences_snoc, decide_True by reflexivity. lia.
      * rewrite Forall_forall in Hc' |- *. intros [k' n'] Hin. cbn.
        rewrite occurrences_snoc, decide_False.
        -- pose proof (Hc' _ Hin) as Hn'. cbn in Hn'. lia.
        -- intros ->. apply Hk. apply list_elem_of_In, in_map_iff.
           exists (k', n'). split; [reflexivity | apply list_elem_of_In, Hin].
    + constructor.
      * cbn. rewrite occurrences_snoc, decide_False by congruence. lia.
      * apply IH; [exact Hnd | | exact Hc'].
        apply elem_of_cons in Hx as [-> | Hx]; [congruence | exact Hx].
Qed.

Lemma counts_snoc (x : string) (p : list string) (c : list (string * Z)) :
  counts p c -> counts (p ++ [x]) (counter_add x c).
Proof.
  intros (Hnd & Hkeys & Hocc & Hord).
  destruct (decide (x ∈ map fst c)) as [Hold | Hnew].
  - destruct (counter_add_old_keys x c) as [Hk | Hk]; [| contradiction].
    unfold counts. rewrite Hk. split; [exact Hnd |]. split; [| split].
    + intros k. rewrite Hkeys, elem_of_app, list_elem_of_singleton.
      split; [auto |]. intros [Hp | ->]; [exact Hp | apply Hkeys, Hold].
    + apply counter_add_old_counts; assumption.
    + eapply StronglySorted_weaken; [| exact Hord]. cbn.
      intros a b Ha Hb. apply Hkeys in Ha, Hb.
      rewrite !first_index_snoc_old by assumption. auto.
  - assert (x ∉ p) as Hxp by (rewrite <- Hkeys; exact Hnew).
    unfold counts. rewrite (counter_add_new x c Hnew), map_app. cbn [map fst].
    split; [| split; [| split]].
    + apply NoDup_app. split; [exact Hnd |]. split.
      * intros k Hk ->%list_elem_of_singleton. contradiction.
      * apply NoDup_singleton.
    + intros k. rewrite !elem_of_app, Hkeys. reflexivity.
    + apply Forall_app. split.
      * rewrite Forall_forall in Hocc |- *. intros [k n] Hin. cbn.
        rewrite occurrences_snoc, decide_False.
        -- pose proof (Hocc _ Hin) as Hn. cbn in Hn. lia.
        -- intros ->. apply Hnew. apply list_elem_of_In, in_map_iff.
           exists (k, n). split; [reflexivity | apply list_elem_of_In, Hin].
      * repeat constructor. cbn.
        rewrite occurrences_snoc, decide_True, occurrences_absent by auto. lia.
    + apply StronglySorted_snoc.
      * eapply StronglySorted_weaken; [| exact Hord]. cbn.
        intros a b Ha Hb. apply Hkeys in Ha, Hb.
        rewrite !first_index_snoc_old by assumption. auto.
      * apply Forall_forall. intros a Ha. apply Hkeys in Ha.
        rewrite first_index_snoc_old, first_index_snoc_new by assumption.
        apply first_index_lt, Ha.
Qed.

Lemma Counter_counts (xs : list string) : counts xs (Counter xs).
Proof.
  induction xs as [| x p IH] using rev_ind.
  - unfold counts, Counter. cbn. split; [constructor |]. split; [reflexivity |].
    split; constructor.
  - unfold Counter in *. rewrite fold_left_app. cbn. apply counts_snoc, IH.
Qed.

End CounterFacts.

Section MostCommon.
Import Analyzer.

Lemma insert_by_count_perm (x : string * Z) (l : list (string * Z)) :
  insert_by_count x l ≡ₚ x :: l.
Proof.
  induction l as [| y l IH]; cbn; [reflexivity |].
  destruct (x.2 <? y.2); [| reflexivity].
  rewrite IH. apply Permutation_swap.
Qed.

Lemma most_common_perm (c : list (string * Z)) : most_common c ≡ₚ c.
Proof.
  unfold most_common. induction c as [| x c IH]; cbn; [reflexivity |].
  rewrite insert_by_count_perm, IH. reflexivity.
Qed.

Lemma insert_by_count_sorted (before : string * Z -> string * Z -> Prop)
    (x : string * Z) (l : list (string * Z)) :
  StronglySorted (stably_before before) l ->
  Forall (before x) l ->
  StronglySorted (stably_before before) (insert_by_count x l).
Proof.
  intros Hs. induction Hs as [| y l Hs IH Hy]; intros Hx; cbn.
  - repeat constructor.
  - inversion Hx as [| ? ? Hxy Hxl]; subst.
    destruct (Z.ltb_spec x.2 y.2) as [Hlt | Hge].
    + constructor; [apply IH, Hxl |].
      rewrite insert_by_count_perm. constructor; [left; exact Hlt | exact Hy].
    + constructor; [constructor; assumption |].
      constructor.
      * destruct (Z.eq_dec x.2 y.2) as [Heq | Hne]; [right; auto | left; lia].
      * rewrite Forall_forall in Hy, Hxl |- *. intros z Hz.
        assert (z.2 <= y.2) as Hzy.
        { destruct (Hy z Hz) as [Hlt | [Heq _]]; lia. }
        destruct (Z.eq_dec x.2 z.2) as [Heq | Hne]; [right; auto | left; lia].
Qed.

Lemma most_common_sorted (before : string * Z -> string * Z -> Prop)
    (c : list (string * Z)) :
  StronglySorted before c -> StronglySorted (stably_before before) (most_common c).
Proof.
  unfold most_common. intros Hc. induction Hc as [| x c Hc IH Hx]; cbn.
  - constructor.
  - apply insert_by_count_sorted; [exact IH |].
    fold (most_common c). rewrite most_common_perm. exact Hx.
Qed.

(** The ranked languages of the values [xs]: the distinct values, by
    descending number of occurrences, the first-encountered first among
    those that occur equally often. *)
Lemma most_common_Counter (xs : list string) :
  let ranked := map fst (most_common (Counter xs)) in
  NoDup ranked /\
  (forall k, k ∈ ranked <-> k ∈ xs) /\
  StronglySorted (Spec.ranks_before xs) ranked /\
  length ranked = length (Counter xs).
Proof.
  destruct (Counter_counts xs) as (Hnd & Hkeys & Hocc & Hord).
  pose proof (most_common_perm (Counter xs)) as Hperm.
  assert (Hkperm : map fst (most_common (Counter xs)) ≡ₚ map fst (Counter xs))
    by (apply Permutation_map, Hperm).
  cbn zeta. split; [| split; [| split]].
  - rewrite Hkperm. exact Hnd.
  - intros k. rewrite Hkperm. apply Hkeys.
  - apply (StronglySorted_map fst (Spec.ranks_before xs)).
    apply (StronglySorted_map fst) in Hord.
    apply most_common_sorted in Hord.
    eapply StronglySorted_weaken; [| exact Hord]. cbn.
    rewrite <- Hperm in Hocc. rewrite Forall_forall in Hocc.
    intros a b Ha Hb.
    unfold Spec.ranks_before, stably_before. rewrite <- (Hocc a Ha), <- (Hocc b Hb). auto.
  - rewrite !length_map. apply Permutation_length, Hperm.
Qed.

End MostCommon.

Section TopLanguages.
Context `{Host}.
Import Analyzer.

Lemma _repo_metrics_languages (repos : list RawRepository.t) (rm : RepoMetrics) :
  _repo_metrics repos = Ok rm ->
  languages rm = map fst (most_common (Counter (language_values repos))) /\
  language_count rm = len (Counter (language_values repos)) /\
  top_languages rm =
    match languages rm with
    | [] => "N/A"%string
    | _ :: _ => join ", " (take 5 (languages rm))
    end.
Proof.
  destruct repos as [| r0 repos'].
  - intros [= <-]. cbn. auto.
  - unfold _repo_metrics. set (rs := r0 :: repos').
    destruct (mapM _ (dated rs)) as [ages | e]; cbn -[rs]; [| discriminate].
    intros [= <-]. cbn [languages language_count top_languages]. auto.
Qed.

(** The values the code counts are the non-null ones that are not the
    empty string. *)
Lemma language_values_nonempty (repos : list RawRepository.t) :
  language_values repos
  = filter (fun s => s <> ""%string) (omap RawRepository.language repos).
Proof.
  unfold language_values. induction repos as [| r repos IH]; [reflexivity |].
  cbn. unfold if_truthy at 1.
  destruct (RawRepository.language r) as [[| c s] |]; cbn.
  - rewrite decide_False by auto. exact IH.
  - rewrite decide_True by discriminate. f_equal. exact IH.
  - exact IH.
Qed.

Lemma language_values_all (repos : list RawRepository.t) :
  Forall (fun r => RawRepository.language r <> Some ""%string) repos ->
  language_values repos = omap RawRepository.language repos.
Proof.
  intros Hne. unfold language_values.
  induction Hne as [| r repos Hr _ IH]; [reflexivity |].
  cbn. rewrite IH. unfold if_truthy.
  destruct (RawRepository.language r) as [[| c s] |]; cbn; congruence.
Qed.

(** C8, amended.  [top_languages] is built by counting the language values
    that are neither null nor the empty string, ranking the distinct ones by
    descending count with ties broken by first-encountered order, and joining
    the first five with ", "; it is "N/A" when no repository has such a
    language.  Where no repository has the empty string for its language it
    is the string the specification describes. *)
Theorem top_languages_ranking (raw_data : RawData.t) :
  zoned raw_data ->
  let repos := default [] (RawData.repos raw_data) in
  let values :=
    filter (fun s => s <> ""%string) (omap RawRepository.language repos) in
  exists m,
    analyze raw_data = Ok m /\
    let ranked := languages (of_repos m) in
    NoDup ranked /\
    (forall k, k ∈ ranked <-> k ∈ values) /\
    StronglySorted (Spec.ranks_before values) ranked /\
    language_count (of_repos m) = len ranked /\
    top_languages (of_repos m) =
      match ranked with
      | [] => "N/A"%string
      | _ :: _ => join ", " (take 5 ranked)
      end /\
    (values = [] -> top_languages (of_repos m) = "N/A"%string) /\
    (Forall (fun r => RawRepository.language r <> Some ""%string) repos ->
     top_languages (of_repos m) = Spec.topLanguages repos).
Proof.
  intros Hz repos values. apply analyze_returns in Hz as [m Hm]. exists m.
  split; [exact Hm |].
  apply analyze_parts in Hm as (_ & Hrm & _ & _). fold repos in Hrm.
  apply _repo_metrics_languages in Hrm as (Hl & Hc & Ht).
  pose proof (language_values_nonempty repos) as Hv. fold values in Hv.
  rewrite Hv in Hl, Hc.
  destruct (most_common_Counter values) as (Hnd & Hin & Hs & Hlen).
  cbn zeta. rewrite <- Hl in Hnd, Hin, Hs, Hlen.
  split; [exact Hnd |]. split; [exact Hin |]. split; [exact Hs |].
  split; [rewrite Hc; unfold len; rewrite Hlen; reflexivity |].
  split; [exact Ht |]. split.
  - intros Hnil. rewrite Ht, Hl, Hnil. reflexivity.
  - intros Hne. rewrite Ht. unfold Spec.topLanguages.
    pose proof (language_values_all repos Hne) as Hall. rewrite Hv in Hall.
    fold repos. rewrite <- Hall, <- Hl.
    destruct values as [| v values'].
    + rewrite Hl. reflexivity.
    + destruct (languages (of_repos m)) as [| l ls]; [| reflexivity].
      exfalso. apply (not_elem_of_nil v). apply Hin. apply elem_of_cons. left. reflexivity.
Qed.

End TopLanguages.

(** ** The code run on concrete inputs

    Below, the host is [GitHubHost.host]: its clock stands at
    2026-02-15T12:00:00Z. *)

Section Runs.
Import Analyzer TestData.

(** [test_no_crash_on_malformed_events]: a push event without [created_at],
    an event without [type] and an empty event do not make [analyze] raise;
    the first and the last are skipped by the loop, the second counts as an
    event of the last 30 days. *)
Lemma analyze_bad_events :
  exists m,
    analyze (with_events MOCK_RAW bad_events) = Ok m /\
    total_events (of_events m) = 3 /\
    push_events (of_events m) = 1 /\
    events_last_30d (of_events m) = 1 /\
    events_30_90d (of_events m) = 0 /\
    commit_count_90d (of_events m) = 0.
Proof. eexists. split; [vm_compute; reflexivity |]. cbn. auto. Qed.

(** C2: the failing input.  A push event whose [created_at] is a timestamp
    without a UTC offset parses to a naive datetime; the subtraction
    [now - dt], which no [except] clause covers, raises [TypeError], and
    [analyze] raises it in turn. *)
Theorem analyze_raises_on_naive_timestamp :
  fromisoformat (replace_Z "2026-02-01T00:00:00")
  = Some {| wall := 1769904000000000; utcoffset := None |} /\
  _event_metrics naive_events = Raise TypeError /\
  analyze (with_events MOCK_RAW naive_events) = Raise TypeError.
Proof. repeat split; vm_compute; reflexivity. Qed.

(** [test_empty_repos] and [test_empty_profile]: the theorem on the mock
    input with no repositories and on the all-empty input. *)
Lemma analyze_empty_inputs_witness :
  (exists m,
     analyze (with_repos MOCK_RAW []) = Ok m /\
     total_repos (of_repos m) = 0 /\
     total_stars (of_repos m) = 0 /\
     language_count (of_repos m) = 0 /\
     top_languages (of_repos m) = "N/A"%string) /\
  (exists m,
     analyze EMPTY_RAW = Ok m /\
     username (of_profile m) = "unknown"%string /\
     account_age_days (of_profile m) = 0%Q).
Proof.
  split.
  - apply (proj1 (proj2 (proj2 analyze_empty_inputs)) (with_repos MOCK_RAW [])).
    + apply zoned_check_true. vm_compute. reflexivity.
    + reflexivity.
  - apply (proj2 (proj2 (proj2 analyze_empty_inputs)) EMPTY_RAW).
    + apply zoned_check_true. vm_compute. reflexivity.
    + reflexivity.
Defined.

(** C5: the counterexample.  On the empty events list the period is "N/A",
    not the "More than 90 days ago" the derivation gives for the counts
    0 and 0. *)
Lemma most_active_period_counterexample :
  exists m,
    analyze EMPTY_RAW = Ok m /\
    most_active_period (of_events m) = "N/A"%string /\
    Spec.mostActivePeriod (events_last_30d (of_events m)) (events_30_90d (of_events m))
    = "More than 90 days ago"%string.
Proof. eexists. split; [vm_compute; reflexivity |]. split; reflexivity. Qed.

(** The theorem on the mock input, whose four events are parsed and
    counted. *)
Lemma most_active_period_derivation_witness :
  zoned MOCK_RAW /\
  exists m,
    analyze MOCK_RAW = Ok m /\
    most_active_period (of_events m) =
      Spec.mostActivePeriod (events_last_30d (of_events m)) (events_30_90d (of_events m)).
Proof.
  assert (Hz : zoned MOCK_RAW) by (apply zoned_check_true; vm_compute; reflexivity).
  split; [exact Hz |]. exact (most_active_period_derivation MOCK_RAW Hz).
Defined.

(** The theorem on the malformed events: one event in the last 30 days,
    none before, and a ratio of exactly 1. *)
Lemma momentum_ratio_formula_witness :
  zoned (with_events MOCK_RAW bad_events) /\
  exists m,
    analyze (with_events MOCK_RAW bad_events) = Ok m /\
    events_30_90d (of_events m) = 0 /\
    events_last_30d (of_events m) = 1 /\
    momentum_ratio (derived m) = 1%Q.
Proof.
  assert (Hz : zoned (with_events MOCK_RAW bad_events))
    by (apply zoned_check_true; vm_compute; reflexivity).
  split; [exact Hz |].
  destruct (proj2 (proj2 (proj2 (proj2 momentum_ratio_formula))) _ Hz)
    as (m & Hm & _ & _ & Hn).
  exists m. split; [exact Hm |].
  assert (Hrun : analyze (with_events MOCK_RAW bad_events) = Ok m) by exact Hm.
  vm_compute in Hrun. injection Hrun as <-.
  split; [reflexivity |]. split; [reflexivity |].
  apply (Hn 1); reflexivity.
Defined.

(** C4: the counterexample.  Of two repositories, one a day old and one
    whose [created_at] does not parse, the code averages over both and
    returns half a day; the mean over the repositories with a parsable
    [created_at] is one day. *)
Lemma avg_repo_age_days_counterexample :
  (exists m,
     analyze (with_repos MOCK_RAW half_dated_repos) = Ok m /\
     (avg_repo_age_days (of_repos m) == 1 # 2)%Q) /\
  (exists mean, Spec.avgRepoAgeDays half_dated_repos = Ok mean /\ (mean == 1)%Q).
Proof.
  split; eexists; (split; [vm_compute; reflexivity | reflexivity]).
Qed.

(** The theorem on the same two repositories: both ages enter the mean. *)
Lemma avg_repo_age_days_mean_witness :
  zoned (with_repos MOCK_RAW half_dated_repos) /\
  exists m ages,
    analyze (with_repos MOCK_RAW half_dated_repos) = Ok m /\
    length ages = 2%nat /\
    avg_repo_age_days (of_repos m) = Spec.mean ages.
Proof.
  assert (Hz : zoned (with_repos MOCK_RAW half_dated_repos))
    by (apply zoned_check_true; vm_compute; reflexivity).
  split; [exact Hz |].
  destruct (avg_repo_age_days_mean _ Hz) as (m & ages & Hm & Hages & Havg & _).
  exists m, ages. split; [exact Hm |]. split; [| exact Havg].
  apply Forall2_length in Hages. rewrite <- Hages. reflexivity.
Defined.

(** C8: the counterexample.  A repository whose language is the empty
    string has a non-null language, which the code does not count. *)
Lemma top_languages_counterexample :
  (exists m,
     analyze (with_repos MOCK_RAW unnamed_language_repos) = Ok m /\
     top_languages (of_repos m) = "N/A"%string) /\
  Spec.topLanguages unnamed_language_repos = ""%string.
Proof.
  split; [eexists; split; [vm_compute; reflexivity | reflexivity] | reflexivity].
Qed.

(** The theorem on the mock input: ten repositories over four languages,
    Python and JavaScript three times each, Go and Rust twice. *)
Lemma top_languages_ranking_witness :
  zoned MOCK_RAW /\
  exists m,
    analyze MOCK_RAW = Ok m /\
    languages (of_repos m) = ["Python"; "JavaScript"; "Go"; "Rust"]%string /\
    top_languages (of_repos m) = "Python, JavaScript, Go, Rust"%string /\
    top_languages (of_repos m) = Spec.topLanguages MOCK_REPOS.
Proof.
  assert (Hz : zoned MOCK_RAW) by (apply zoned_check_true; vm_compute; reflexivity).
  split; [exact Hz |].
  destruct (top_languages_ranking _ Hz) as (m & Hm & _ & _ & _ & _ & _ & _ & Hspec).
  exists m. split; [exact Hm |].
  assert (Hsame : top_languages (of_repos m) = Spec.topLanguages MOCK_REPOS).
  { apply Hspec. cbn. repeat constructor; discriminate. }
  assert (Hrun : analyze MOCK_RAW = Ok m) by exact Hm.
  vm_compute in Hrun. injection Hrun as <-.
  split; [reflexivity |]. split; [reflexivity | exact Hsame].
Defined.

End Runs.

Section OpennessRuns.
Import Scorer TestData.
Local Open Scope R_scope.

(** C10: the counterexample.  [score] takes any dict; on one whose
    [has_license_ratio] is 2.0 the openness score is 80. *)
Lemma openness_counterexample :
  _score_openness (openness_metrics 2 0 false false) = Ok 80 /\ 70 < 80.
Proof.
  split; [| lra]. unfold _score_openness. cbn. f_equal.
  rewrite clamp_id; lra.
Qed.

(** The bound 70 is reached. *)
Lemma openness_witness :
  (1 <= 1) /\
  (exists v, _score_openness (openness_metrics 1 1 true true) = Ok v /\ 0 <= v <= 70) /\
  _score_openness (openness_metrics 1 1 true true) = Ok 70.
Proof.
  split; [lra |]. split.
  - apply (proj1 (openness_at_most_70 (H := GitHubHost.host))); cbn; lra.
  - unfold _score_openness. cbn. f_equal. rewrite clamp_id; lra.
Defined.

End OpennessRuns.

(** * Further properties *)

(** ** log_scale *)

Section LogScaleMore.
Local Open Scope R_scope.

Lemma clamp_monotone (a b lo hi : R) :
  a <= b -> clamp a lo hi <= clamp b lo hi.
Proof.
  intros Hab. unfold clamp.
  apply Rle_max_compat_l. apply Rle_min_compat_l. exact Hab.
Qed.

Lemma ln_1p_le (a b : R) : 0 < a -> a <= b -> ln (1 + a) <= ln (1 + b).
Proof.
  intros Ha [Hlt | ->]; [| apply Rle_refl].
  left. apply ln_increasing; lra.
Qed.

(** A larger value never scores lower. *)
Lemma log_scale_le (v1 v2 scale : R) :
  0 < scale -> v1 <= v2 ->
  exists r1 r2,
    log_scale v1 scale = Ok r1 /\ log_scale v2 scale = Ok r2 /\
    0 <= r1 /\ r1 <= r2 /\ r2 <= 100.
Proof.
  intros Hs Hv.
  destruct (log_scale_returns v2 scale Hs) as (r2 & Hr2 & Hb2).
  destruct (Rle_dec v1 0) as [Hneg | Hpos].
  - exists 0, r2. rewrite log_scale_nonpositive by exact Hneg.
    repeat split; [exact Hr2 | lra | lra | lra].
  - assert (0 < v1) as Hv1 by lra. assert (0 < v2) as Hv2 by lra.
    clear r2 Hr2 Hb2.
    eexists _, _. split; [apply log_scale_positive; assumption |].
    split; [apply log_scale_positive; assumption |].
    destruct (log1p_positive scale Hs) as [_ Hln].
    split; [apply clamp_bounds; lra |]. split; [| apply clamp_bounds; lra].
    apply clamp_monotone. apply Rmult_le_compat_r; [lra |].
    apply Rmult_le_compat_r; [left; apply Rinv_0_lt_compat; exact Hln |].
    apply ln_1p_le; assumption.
Qed.

(** X1.  On a positive scale [log_scale] is monotone in the value: a larger
    count never scores lower.  It is antitone in the scale: the same count
    never scores higher on a larger scale. *)
Theorem log_scale_monotone :
  (forall v1 v2 scale,
     0 < scale -> v1 <= v2 ->
     exists r1 r2,
       log_scale v1 scale = Ok r1 /\ log_scale v2 scale = Ok r2 /\ r1 <= r2) /\
  (forall value s1 s2,
     0 < s1 -> s1 <= s2 ->
     exists r1 r2,
       log_scale value s1 = Ok r1 /\ log_scale value s2 = Ok r2 /\ r2 <= r1).
Proof.
  split.
  - intros v1 v2 scale Hs Hv.
    destruct (log_scale_le v1 v2 scale Hs Hv) as (r1 & r2 & H1 & H2 & _ & Hle & _).
    exists r1, r2. auto.
  - intros value s1 s2 Hs1 Hs.
    destruct (Rle_dec value 0) as [Hneg | Hpos].
    + exists 0, 0. rewrite !log_scale_nonpositive by exact Hneg. repeat split. lra.
    + assert (0 < value) as Hv by lra. assert (0 < s2) as Hs2 by lra.
      eexists _, _. split; [apply log_scale_positive; assumption |].
      split; [apply log_scale_positive; assumption |].
      destruct (log1p_positive value Hv) as [_ Hlv].
      destruct (log1p_positive s1 Hs1) as [_ Hl1].
      destruct (log1p_positive s2 Hs2) as [_ Hl2].
      apply clamp_monotone. apply Rmult_le_compat_r; [lra |].
      apply Rmult_le_compat_l; [lra |].
      apply Rinv_le_contravar; [exact Hl1 | apply ln_1p_le; assumption].
Qed.

Lemma log_scale_monotone_witness :
  (0 < 50) /\ (3 <= 40) /\
  exists r1 r2, log_scale 3 50 = Ok r1 /\ log_scale 40 50 = Ok r2 /\ r1 <= r2.
Proof.
  split; [lra |]. split; [lra |].
  apply (proj1 log_scale_monotone); lra.
Defined.

(** A score of 100 is reached exactly from the scale upwards. *)
Lemma log_scale_full (value scale : R) :
  0 < scale ->
  exists r, log_scale value scale = Ok r /\ 0 <= r <= 100 /\ (r = 100 <-> scale <= value).
Proof.
  intros Hs. destruct (log1p_positive scale Hs) as [_ Hln].
  destruct (Rle_dec value 0) as [Hneg | Hpos].
  - exists 0. rewrite log_scale_nonpositive by exact Hneg.
    split; [reflexivity |]. split; [lra |]. split; intros; lra.
  - assert (0 < value) as Hv by lra.
    destruct (log1p_positive value Hv) as [_ Hlv].
    eexists. split; [apply log_scale_positive; assumption |].
    split; [apply clamp_bounds; lra |].
    set (q := ln (1 + value) / ln (1 + scale)).
    destruct (Rle_dec scale value) as [Hge | Hlt].
    + assert (1 <= q) as Hq.
      { unfold q. apply Rmult_le_reg_r with (ln (1 + scale)); [exact Hln |].
        unfold Rdiv. rewrite Rmult_assoc, Rinv_l by lra.
        rewrite Rmult_1_l, Rmult_1_r. apply ln_1p_le; assumption. }
      split; [intros _; exact Hge | intros _].
      unfold clamp. rewrite Rmin_left by lra. apply Rmax_right. lra.
    + assert (0 < q < 1) as Hq.
      { unfold q. split; [apply Rdiv_lt_0_compat; assumption |].
        apply Rmult_lt_reg_r with (ln (1 + scale)); [exact Hln |].
        unfold Rdiv. rewrite Rmult_assoc, Rinv_l by lra.
        rewrite Rmult_1_l, Rmult_1_r. apply ln_increasing; lra. }
      rewrite clamp_id by lra. split; intros; lra.
Qed.

(** X2.  On a positive scale [log_scale] returns a score between 0 and
    100, and gives 100 exactly from the scale upwards: [scale] is the
    smallest count that scores 100. *)
Theorem log_scale_saturates (value scale : R) :
  0 < scale ->
  exists r,
    log_scale value scale = Ok r /\ 0 <= r <= 100 /\ (r = 100 <-> scale <= value).
Proof.
  intros Hs. destruct (log_scale_full value scale Hs) as (r & Hr & Hrange & Hiff).
  exists r. split; [exact Hr |]. split; [exact Hrange | exact Hiff].
Qed.

Lemma log_scale_saturates_witness :
  (0 < 50) /\
  exists r, log_scale 50 50 = Ok r /\ 0 <= r <= 100 /\ (r = 100 <-> 50 <= 50).
Proof. split; [lra |]. apply log_scale_saturates. lra. Defined.

(** X3.  What [log_scale] does off the positive scales.  A value at or
    below 0 scores 0.0 whatever the scale, without looking at it.  For a
    value above 0: the scale 0 raises [ZeroDivisionError], a scale at or below
    -1 raises [ValueError], and a scale strictly between -1 and 0 scores
    0.0. *)
Theorem log_scale_off_scale (value scale : R) :
  (value <= 0 -> log_scale value scale = Ok 0) /\
  (0 < value -> scale = 0 -> log_scale value scale = Raise ZeroDivisionError) /\
  (0 < value -> scale <= -1 -> log_scale value scale = Raise ValueError) /\
  (0 < value -> -1 < scale < 0 -> log_scale value scale = Ok 0).
Proof.
  split; [apply log_scale_nonpositive |].
  split; [| split]; intros Hv Hs; unfold log_scale;
    (destruct (Rle_dec value 0) as [Hle | _]; [lra |]);
    destruct (log1p_positive value Hv) as [-> Hlv]; cbn; unfold log1p.
  - destruct (Rle_dec scale (-1)) as [Hle | _]; [lra |]. cbn. unfold truediv.
    destruct (Req_dec_T (ln (1 + scale)) 0) as [_ | Hne]; [reflexivity |].
    exfalso. apply Hne. subst scale. rewrite Rplus_0_r. apply ln_1.
  - destruct (Rle_dec scale (-1)) as [_ | Hgt]; [reflexivity | lra].
  - destruct (Rle_dec scale (-1)) as [Hle | _]; [lra |]. cbn. unfold truediv.
    assert (ln (1 + scale) < 0) as Hneg.
    { rewrite <- ln_1. apply ln_increasing; lra. }
    destruct (Req_dec_T (ln (1 + scale)) 0) as [Hz | _]; [lra |].
    cbn. f_equal. unfold clamp. apply Rmax_left.
    apply Rle_trans with (ln (1 + value) / ln (1 + scale) * 100); [apply Rmin_r |].
    assert (ln (1 + value) / ln (1 + scale) < 0); [| lra].
    unfold Rdiv. apply Rmult_pos_neg; [exact Hlv |].
    apply Rinv_lt_0_compat. exact Hneg.
Qed.

End LogScaleMore.

(** ** The scorer, further *)

Section ScorerMore.
Import Scorer.
Local Open Scope R_scope.

(** As [run_log_scale] of the scorer section, keeping the bounds. *)
Ltac run_log_scales :=
  repeat match goal with
  | |- context [log_scale ?v ?s] =>
      let x := fresh "x" in
      let Hx := fresh "Hx" in
      let Hb := fresh "Hb" in
      destruct (log_scale_returns v s ltac:(lra)) as (x & Hx & Hb);
      rewrite Hx; cbn [mbind result_bind]
  end.

(** The consistency score of any dict stays at or below 92: the longevity
    bonus is a fifth of a score, and it weighs a tenth. *)
Lemma _score_consistency_le_92 (m : Metrics) :
  exists v, _score_consistency m = Ok v /\ 0 <= v <= 92.
Proof.
  unfold _score_consistency. run_log_scales. eexists. split; [reflexivity |].
  split; [apply clamp_bounds; lra |]. apply clamp_le; [| lra].
  pose proof (clamp_bounds (safe_divide (default 0 (active_days_90d m)) 90 0 * 100)
                0 100 ltac:(lra)) as Hactive.
  assert (clamp (x * 0.2) 0 100 <= 20) as Hbonus by (apply clamp_le; lra).
  lra.
Qed.

(** The weights of [SCORE_WEIGHTS] add up to one, so the weighted sum is a
    weighted mean. *)
Lemma weighted_sum_SCORE_WEIGHTS (dims : dimension -> R) :
  weighted_sum dims SCORE_WEIGHTS
  = dims consistency * 0.20 + dims collaboration * 0.20 + dims depth * 0.20
    + dims breadth * 0.15 + dims momentum * 0.15 + dims openness * 0.10.
Proof. unfold weighted_sum, SCORE_WEIGHTS. cbn. lra. Qed.


(** X5.  No metrics dict scores a consistency above 92 or an overall score
    above 98.4: a perfect 100 is out of reach. *)
Theorem overall_score_below_100 (m : Metrics) :
  exists report,
    score m = Ok report /\
    dimensions report consistency <= 92 /\
    overall_score report <= 98.4.
Proof.
  destruct (score_returns m) as (c & co & d & b & mo & o & Hc & Hco & Hd & Hb & Hmo & Ho & Hs).
  destruct (_score_consistency_le_92 m) as (c' & Hc' & Rc).
  destruct (_score_collaboration_range m) as (co' & Hco' & Rco).
  destruct (_score_depth_range m) as (d' & Hd' & Rd).
  destruct (_score_breadth_range m) as (b' & Hb' & Rb).
  destruct (_score_momentum_range m) as (mo' & Hmo' & Rmo).
  destruct (_score_openness_range m) as (o' & Ho' & Ro).
  assert (c' = c) as -> by congruence. assert (co' = co) as -> by congruence.
  assert (d' = d) as -> by congruence. assert (b' = b) as -> by congruence.
  assert (mo' = mo) as -> by congruence. assert (o' = o) as -> by congruence.
  eexists. split; [exact Hs |]. cbn [overall_score dimensions dimensions_dict].
  split; [lra |]. rewrite weighted_sum_SCORE_WEIGHTS. cbn [dimensions_dict].
  apply clamp_le; lra.
Qed.

(** Two calls of [log_scale] on ordered values, run side by side. *)
Ltac run_log_scale_pairs :=
  repeat match goal with
  | Hle : ?v1 <= ?v2 |- context [log_scale ?v1 ?s] =>
      let r1 := fresh "r" in
      let r2 := fresh "r" in
      let H1 := fresh "H" in
      let H2 := fresh "H" in
      let Hlo := fresh "Hlo" in
      let Hmid := fresh "Hmid" in
      let Hhi := fresh "Hhi" in
      destruct (log_scale_le v1 v2 s ltac:(lra) Hle)
        as (r1 & r2 & H1 & H2 & Hlo & Hmid & Hhi);
      rewrite H1, ?H2; clear Hle H1 H2; cbn [mbind result_bind]
  end.

(** X6.  The collaboration, depth and breadth scores are monotone: a dict
    whose counts are all at least those of another never scores lower on
    these three dimensions. *)
Theorem count_scores_monotone (m m' : Metrics) :
  default 0 (pr_events m) <= default 0 (pr_events m') ->
  default 0 (issue_events m) <= default 0 (issue_events m') ->
  default 0 (fork_events m) <= default 0 (fork_events m') ->
  default 0 (followers m) <= default 0 (followers m') ->
  default 0 (total_stars m) <= default 0 (total_stars m') ->
  default 0 (total_forks_received m) <= default 0 (total_forks_received m') ->
  default 0 (avg_repo_age_days m) <= default 0 (avg_repo_age_days m') ->
  default 0 (original_repo_count m) <= default 0 (original_repo_count m') ->
  default 0 (language_count m) <= default 0 (language_count m') ->
  default 0 (event_type_diversity m) <= default 0 (event_type_diversity m') ->
  default 0 (total_repos m) <= default 0 (total_repos m') ->
  exists co co' d d' b b',
    _score_collaboration m = Ok co /\ _score_collaboration m' = Ok co' /\ co <= co' /\
    _score_depth m = Ok d /\ _score_depth m' = Ok d' /\ d <= d' /\
    _score_breadth m = Ok b /\ _score_breadth m' = Ok b' /\ b <= b'.
Proof.
  intros Hpr Hissue Hfork Hfol Hstar Hfr Hage Horig Hlang Hdiv Hrepos.
  assert (default 0 (avg_repo_age_days m) / 30 <= default 0 (avg_repo_age_days m') / 30)
    as Hage' by lra.
  clear Hage. unfold _score_collaboration, _score_depth, _score_breadth.
  run_log_scale_pairs.
  eexists _, _, _, _, _, _.
  repeat split; try reflexivity; apply clamp_monotone; lra.
Qed.

Lemma count_scores_monotone_witness :
  exists co co' d d' b b',
    _score_collaboration ScorerTestData.baseline = Ok co /\
    _score_collaboration ScorerTestData.superstar = Ok co' /\ co <= co' /\
    _score_depth ScorerTestData.baseline = Ok d /\
    _score_depth ScorerTestData.superstar = Ok d' /\ d <= d' /\
    _score_breadth ScorerTestData.baseline = Ok b /\
    _score_breadth ScorerTestData.superstar = Ok b' /\ b <= b'.
Proof.
  apply (count_scores_monotone ScorerTestData.baseline ScorerTestData.superstar);
    cbn; lra.
Defined.

(** X7.  Full marks.  The collaboration score is 100 exactly when each of
    its four counts reaches its scale (20 pull-request events, 30 issue
    events, 10 fork events, 100 followers); likewise the depth score (200
    stars, 50 forks received, an average repository age of 720 days, 30
    original repositories) and the breadth score (10 languages, 8 event
    types, 50 repositories). *)
Theorem full_marks (m : Metrics) :
  exists co d b,
    _score_collaboration m = Ok co /\ _score_depth m = Ok d /\ _score_breadth m = Ok b /\
    (co = 100 <->
       20 <= default 0 (pr_events m) /\ 30 <= default 0 (issue_events m) /\
       10 <= default 0 (fork_events m) /\ 100 <= default 0 (followers m)) /\
    (d = 100 <->
       200 <= default 0 (total_stars m) /\ 50 <= default 0 (total_forks_received m) /\
       720 <= default 0 (avg_repo_age_days m) /\
       30 <= default 0 (original_repo_count m)) /\
    (b = 100 <->
       10 <= default 0 (language_count m) /\ 8 <= default 0 (event_type_diversity m) /\
       50 <= default 0 (total_repos m)).
Proof.
  unfold _score_collaboration, _score_depth, _score_breadth.
  repeat match goal with
  | |- context [log_scale ?v ?s] =>
      let r := fresh "r" in
      let Hr := fresh "Hr" in
      let Hb := fresh "Hb" in
      let Hfull := fresh "Hfull" in
      destruct (log_scale_full v s ltac:(lra)) as (r & Hr & Hb & Hfull);
      rewrite Hr; clear Hr; cbn [mbind result_bind]
  end.
  eexists _, _, _. do 3 (split; [reflexivity |]).
  assert (Hage : 24 <= default 0 (avg_repo_age_days m) / 30
                 <-> 720 <= default 0 (avg_repo_age_days m)) by (split; intros; lra).
  rewrite <- Hage. clear Hage.
  repeat match goal with H : _ = 100 <-> _ |- _ => rewrite <- H; clear H end.
  rewrite !clamp_id by lra.
  repeat split; intros; lra.
Qed.

End ScorerMore.

(** ** The event loop *)

Section EventLoop.
Context `{Host}.
Import Analyzer.

(** The float test [age_days <= n] is a test on whole microseconds. *)
Lemma age_days_le (td n : Z) :
  Qle_bool (total_seconds td / 86400) (inject_Z n) = (td <=? n * 86400000000).
Proof.
  apply eq_true_iff_eq. rewrite Qle_bool_iff, Z.leb_le.
  unfold total_seconds, Qle, Qdiv, Qmult, Qinv, inject_Z. cbn. lia.
Qed.

(** One turn of the loop, on an event it does not raise on. *)
Lemma loop_body_step (st st' : LoopState) (event : RawEvent.t) :
  loop_body st event = Ok st' ->
  last_30d st' = last_30d st + (if aged_at_most 30 event then 1 else 0) /\
  from_30_to_90d st' = from_30_to_90d st + (if aged_30_to_90 event then 1 else 0) /\
  commit_count st' = commit_count st + (if recent_push event then commits_of event else 0) /\
  active_days_set st' =
    active_days_set st ∪ (if recent_push event then list_to_set (option_list (event_date event))
                          else ∅).
Proof.
  unfold loop_body, aged_30_to_90, recent_push, aged_at_most, event_age, event_date,
    event_datetime, commits_of.
  destruct (fromisoformat _) as [dt |]; cbn.
  - unfold datetime_sub. destruct (utcoffset dt) as [off |]; cbn; [| discriminate].
    change 30%Q with (inject_Z 30). change 90%Q with (inject_Z 90).
    rewrite !age_days_le.
    set (td := now - (wall dt - off)).
    destruct (Z.leb_spec td (30 * 86400000000)) as [H30 | H30];
      destruct (Z.leb_spec td (90 * 86400000000)) as [H90 | H90]; try lia;
      destruct (type_is "PushEvent" event); cbn; intros [= <-]; cbn;
      rewrite ?union_empty_r_L, ?list_to_set_nil, ?union_empty_r_L;
      repeat split; try lia;
      destruct (fromisoformat _); cbn; rewrite ?union_empty_r_L; reflexivity.
  - intros [= <-]. rewrite union_empty_r_L. repeat split; lia.
Qed.

Lemma zsum_cons (x : Z) (xs : list Z) : zsum (x :: xs) = x + zsum xs.
Proof.
  unfold zsum. cbn.
  assert (Hacc : forall acc, fold_left Z.add xs acc = acc + fold_left Z.add xs 0).
  { induction xs as [| y ys IH]; intros acc; cbn; [lia |].
    rewrite (IH (acc + y)), (IH (0 + y)). lia. }
  apply Hacc.
Qed.

(** The loop, from any state. *)
Lemma foldlM_loop_body (events : list RawEvent.t) (st st' : LoopState) :
  foldlM loop_body st events = Ok st' ->
  last_30d st' = last_30d st + len (filter (fun e => aged_at_most 30 e = true) events) /\
  from_30_to_90d st'
  = from_30_to_90d st + len (filter (fun e => aged_30_to_90 e = true) events) /\
  commit_count st'
  = commit_count st
    + zsum (map commits_of (filter (fun e => recent_push e = true) events)) /\
  active_days_set st'
  = active_days_set st
    ∪ list_to_set (omap event_date (filter (fun e => recent_push e = true) events)).
Proof.
  revert st. induction events as [| e events IH]; intros st; cbn [foldlM].
  - intros [= <-]. rewrite !filter_nil. unfold len, zsum. cbn.
    rewrite union_empty_r_L. repeat split; lia.
  - destruct (loop_body st e) as [st1 | ex] eqn:Hstep;
      cbn [mbind result_bind]; [| discriminate].
    intros Hrest. apply loop_body_step in Hstep as (H30 & H3090 & Hc & Hd).
    apply IH in Hrest as (-> & -> & -> & ->). rewrite H30, H3090, Hc, Hd.
    rewrite !filter_cons. unfold len.
    destruct (aged_at_most 30 e), (aged_30_to_90 e), (recent_push e);
      repeat case_decide; try congruence;
      cbn [length map omap list_omap]; rewrite ?zsum_cons, ?union_empty_r_L;
      (repeat split; try lia);
      destruct (event_date e) as [d |]; unfold option_list; cbn [option_rect];
      rewrite ?list_to_set_cons, ?list_to_set_nil, ?union_empty_r_L,
        <- ?(assoc_L (∪)); reflexivity.
Qed.

(** What [_event_metrics] returns on a non-empty list, in terms of the
    final state of the loop. *)
Lemma _event_metrics_nonempty (events : list RawEvent.t) (em : EventMetrics) :
  events <> [] ->
  _event_metrics events = Ok em ->
  exists st,
    foldlM loop_body loop_start events = Ok st /\
    total_events em = len events /\
    push_events em = len (filter (fun e => type_is "PushEvent" e = true) events) /\
    pr_events em
    = len (filter (fun e => type_is "PullRequestEvent" e
                            || type_is "PullRequestReviewEvent" e = true) events) /\
    issue_events em
    = len (filter (fun e => type_is "IssuesEvent" e
                            || type_is "IssueCommentEvent" e = true) events) /\
    fork_events em = len (filter (fun e => type_is "ForkEvent" e = true) events) /\
    watch_events em = len (filter (fun e => type_is "WatchEvent" e = true) events) /\
    commit_count_90d em = commit_count st /\
    active_days_90d em = Z.of_nat (size (active_days_set st)) /\
    events_last_30d em = last_30d st /\
    events_30_90d em = from_30_to_90d st /\
    most_active_period em = Spec.mostActivePeriod (last_30d st) (from_30_to_90d st) /\
    event_type_diversity em
    = Z.of_nat (size (list_to_set (omap (fun e => if_truthy (RawEvent.type e)) events)
                      : gset string)).
Proof.
  destruct events as [| e0 events']; [congruence |]. intros _.
  unfold _event_metrics. set (es := e0 :: events'). fold loop_start.
  destruct (foldlM loop_body loop_start es) as [st | ex];
    cbn [mbind result_bind]; [| discriminate].
  intros [= <-]. exists st. cbn. repeat split; reflexivity.
Qed.

(** The four counts of the loop, for any list. *)
Lemma _event_metrics_windows (events : list RawEvent.t) (em : EventMetrics) :
  _event_metrics events = Ok em ->
  events_last_30d em = len (filter (fun e => aged_at_most 30 e = true) events) /\
  events_30_90d em = len (filter (fun e => aged_30_to_90 e = true) events) /\
  commit_count_90d em
  = zsum (map commits_of (filter (fun e => recent_push e = true) events)) /\
  active_days_90d em
  = Z.of_nat (size (list_to_set
                      (omap event_date (filter (fun e => recent_push e = true) events))
                    : gset Z)).
Proof.
  destruct events as [| e0 events'] eqn:Hev.
  - intros [= <-]. cbn. auto.
  - rewrite <- Hev. intros Hem.
    apply _event_metrics_nonempty in Hem
      as (st & Hst & _ & _ & _ & _ & _ & _ & -> & -> & -> & -> & _); [| congruence].
    apply foldlM_loop_body in Hst as (-> & -> & -> & ->).
    cbn [loop_start last_30d from_30_to_90d commit_count active_days_set].
    rewrite union_empty_l_L. repeat split; lia.
Qed.

(** X8.  What the loop over the events counts.  [events_last_30d] is the
    number of events whose [created_at] parses and lies at most 30 days
    (2 592 000 seconds) before the clock, an event dated after the clock
    included; [events_30_90d] is the number of those more than 30 and at most
    90 days old; [commit_count_90d] adds up [len(payload.commits)] over the
    push events at most 90 days old, and [active_days_90d] counts the distinct
    calendar days of these push events. *)
Theorem event_windows (raw_data : RawData.t) (m : Metrics) :
  analyze raw_data = Ok m ->
  let events := default [] (RawData.events raw_data) in
  events_last_30d (of_events m)
  = len (filter (fun e => aged_at_most 30 e = true) events) /\
  events_30_90d (of_events m)
  = len (filter (fun e => aged_at_most 90 e = true /\ aged_at_most 30 e = false) events) /\
  commit_count_90d (of_events m)
  = zsum (map commits_of
              (filter (fun e => aged_at_most 90 e = true /\ type_is "PushEvent" e = true)
                      events)) /\
  active_days_90d (of_events m)
  = Z.of_nat
      (size (list_to_set
               (omap event_date
                  (filter (fun e => aged_at_most 90 e = true /\ type_is "PushEvent" e = true)
                          events))
             : gset Z)).
Proof.
  intros Hm events. apply analyze_parts in Hm as (_ & _ & Hem & _). fold events in Hem.
  apply _event_metrics_windows in Hem as (H30 & H3090 & Hc & Hd).
  assert (Hmid : filter (fun e => aged_at_most 90 e = true /\ aged_at_most 30 e = false) events
                 = filter (fun e => aged_30_to_90 e = true) events).
  { apply list_filter_iff. intros e. unfold aged_30_to_90.
    rewrite andb_true_iff, negb_true_iff. reflexivity. }
  assert (Hpush : filter (fun e => aged_at_most 90 e = true /\ type_is "PushEvent" e = true)
                         events
                  = filter (fun e => recent_push e = true) events).
  { apply list_filter_iff. intros e. unfold recent_push.
    rewrite andb_true_iff. reflexivity. }
  rewrite Hmid, Hpush. auto.
Qed.

Lemma size_list_to_set_le `{Countable A} (xs : list A) :
  (size (list_to_set xs : gset A) <= length xs)%nat.
Proof.
  induction xs as [| x xs IH]; cbn.
  - rewrite size_empty. lia.
  - destruct (decide (x ∈ (list_to_set xs : gset A))) as [Hin | Hout].
    + rewrite (subseteq_union_1_L {[x]}) by (apply singleton_subseteq_l, Hin). lia.
    + rewrite size_union by (apply disjoint_singleton_l, Hout).
      rewrite size_singleton. lia.
Qed.

Lemma length_omap_le {A B : Type} (f : A -> option B) (xs : list A) :
  (length (omap f xs) <= length xs)%nat.
Proof.
  induction xs as [| x xs IH]; cbn; [lia |]. destruct (f x); cbn; lia.
Qed.

Lemma type_is_inj (a b : string) (e : RawEvent.t) :
  type_is a e = true -> type_is b e = true -> a = b.
Proof.
  unfold type_is. rewrite !bool_decide_eq_true. congruence.
Qed.

(** The five buckets by type do not overlap. *)
Lemma type_buckets_le (events : list RawEvent.t) :
  len (filter (fun e => type_is "PushEvent" e = true) events)
  + len (filter (fun e => type_is "PullRequestEvent" e
                          || type_is "PullRequestReviewEvent" e = true) events)
  + len (filter (fun e => type_is "IssuesEvent" e
                          || type_is "IssueCommentEvent" e = true) events)
  + len (filter (fun e => type_is "ForkEvent" e = true) events)
  + len (filter (fun e => type_is "WatchEvent" e = true) events)
  <= len events.
Proof.
  unfold len. induction events as [| e events IH]; [cbn; lia |].
  rewrite !filter_cons. cbn [length].
  destruct (type_is "PushEvent" e) eqn:H1,
           (type_is "PullRequestEvent" e) eqn:H2,
           (type_is "PullRequestReviewEvent" e) eqn:H3,
           (type_is "IssuesEvent" e) eqn:H4,
           (type_is "IssueCommentEvent" e) eqn:H5,
           (type_is "ForkEvent" e) eqn:H6,
           (type_is "WatchEvent" e) eqn:H7;
    try (exfalso;
         match goal with
         | Ha : type_is ?a e = true, Hb : type_is ?b e = true |- _ =>
             discriminate (type_is_inj a b e Ha Hb)
         end);
    cbn [orb]; repeat case_decide; try congruence; cbn [length]; lia.
Qed.

Lemma windows_le (events : list RawEvent.t) :
  len (filter (fun e => aged_at_most 30 e = true) events)
  + len (filter (fun e => aged_30_to_90 e = true) events)
  <= len events.
Proof.
  unfold len. induction events as [| e events IH]; [cbn; lia |].
  rewrite !filter_cons. cbn [length].
  destruct (decide (aged_at_most 30 e = true)) as [H30 | H30];
    destruct (decide (aged_30_to_90 e = true)) as [Hmid | Hmid];
    cbn [length]; try lia.
  exfalso. unfold aged_30_to_90 in Hmid. rewrite H30, andb_false_r in Hmid.
  discriminate.
Qed.

Lemma recent_push_le (events : list RawEvent.t) :
  (length (filter (fun e => recent_push e = true) events)
   <= length (filter (fun e => type_is "PushEvent" e = true) events))%nat.
Proof.
  induction events as [| e events IH]; [cbn; lia |].
  rewrite !filter_cons.
  destruct (decide (recent_push e = true)) as [Hr | Hr];
    destruct (decide (type_is "PushEvent" e = true)) as [Hp | Hp];
    cbn [length]; try lia.
  exfalso. apply Hp. unfold recent_push in Hr. apply andb_true_iff in Hr. apply Hr.
Qed.

Lemma zsum_nonneg (xs : list Z) : Forall (fun x => 0 <= x) xs -> 0 <= zsum xs.
Proof.
  induction 1 as [| x xs Hx _ IH]; [unfold zsum; cbn; lia |].
  rewrite zsum_cons. lia.
Qed.

(** X9.  The event counts [analyze] returns are consistent with each other.
    [total_events] is the length of the list; the five counts by type are
    non-negative and add up to at most [total_events] (an event of another
    type, or of none, is counted in the total only); so do the two counts by
    age.  There are at most as many active days as push events, and at most
    as many event types as events; [commit_count_90d] and [collaboration_raw]
    are not negative. *)
Theorem event_counts_consistent (raw_data : RawData.t) (m : Metrics) :
  analyze raw_data = Ok m ->
  let em := of_events m in
  total_events em = len (default [] (RawData.events raw_data)) /\
  0 <= push_events em /\ 0 <= pr_events em /\ 0 <= issue_events em /\
  0 <= fork_events em /\ 0 <= watch_events em /\
  push_events em + pr_events em + issue_events em + fork_events em + watch_events em
  <= total_events em /\
  0 <= events_last_30d em /\ 0 <= events_30_90d em /\
  events_last_30d em + events_30_90d em <= total_events em /\
  0 <= active_days_90d em <= push_events em /\
  0 <= event_type_diversity em <= total_events em /\
  0 <= commit_count_90d em /\
  0 <= collaboration_raw (derived m).
Proof.
  intros Hm. cbv zeta. apply analyze_parts in Hm as (_ & _ & Hem & Hd).
  revert Hem Hd. generalize (of_events m) as em. intros em Hem Hd.
  assert (Hbounds :
    total_events em = len (default [] (RawData.events raw_data)) /\
    0 <= push_events em /\ 0 <= pr_events em /\ 0 <= issue_events em /\
    0 <= fork_events em /\ 0 <= watch_events em /\
    push_events em + pr_events em + issue_events em + fork_events em + watch_events em
    <= total_events em /\
    0 <= events_last_30d em /\ 0 <= events_30_90d em /\
    events_last_30d em + events_30_90d em <= total_events em /\
    0 <= active_days_90d em <= push_events em /\
    0 <= event_type_diversity em <= total_events em /\
    0 <= commit_count_90d em).
  { pose proof (_event_metrics_windows _ _ Hem) as (H30 & H3090 & Hc & Ha).
    destruct (default [] (RawData.events raw_data)) as [| e0 events'] eqn:Hev.
    - clear H30 H3090 Hc Ha. injection Hem as <-. unfold len. cbn. lia.
    - rewrite <- Hev in *.
      apply _event_metrics_nonempty in Hem
        as (st & _ & -> & -> & -> & -> & -> & -> & _ & _ & _ & _ & _ & ->);
        [| rewrite Hev; congruence].
      rewrite H30, H3090, Hc, Ha.
      pose proof (type_buckets_le (default [] (RawData.events raw_data))) as Hb.
      pose proof (windows_le (default [] (RawData.events raw_data))) as Hw.
      pose proof (recent_push_le (default [] (RawData.events raw_data))) as Hp.
      pose proof (size_list_to_set_le
        (omap event_date
           (filter (fun e => recent_push e = true)
                   (default [] (RawData.events raw_data))))) as Hs.
      pose proof (length_omap_le event_date
        (filter (fun e => recent_push e = true)
                (default [] (RawData.events raw_data)))) as Ho.
      pose proof (size_list_to_set_le
        (omap (fun e => if_truthy (RawEvent.type e))
              (default [] (RawData.events raw_data)))) as Hs'.
      pose proof (length_omap_le (fun e => if_truthy (RawEvent.type e))
        (default [] (RawData.events raw_data))) as Ho'.
      assert (0 <= zsum (map commits_of
                (filter (fun e => recent_push e = true)
                        (default [] (RawData.events raw_data))))) as Hcommits.
      { apply zsum_nonneg, Forall_forall. intros c Hin.
        apply list_elem_of_In, in_map_iff in Hin as (e & <- & _).
        unfold commits_of, len. lia. }
      unfold len in *. lia. }
  destruct Hbounds as (H1 & H2 & H3 & H4 & H5 & H6 & H7 & H8 & H9 & H10 & H11 & H12 & H13).
  repeat (split; [assumption |]).
  rewrite Hd. unfold _derived_metrics. cbn [collaboration_raw]. lia.
Qed.

End EventLoop.

(** ** The one exception, and the order of the events *)

Section OnlyTypeError.
Context `{Host}.
Import Analyzer.

Lemma days_since_raises (date_str : option string) (ex : exn) :
  days_since date_str = Raise ex -> ex = TypeError.
Proof.
  unfold days_since. destruct (parse_github_date date_str) as [dt |]; [| discriminate].
  unfold datetime_sub. destruct (utcoffset dt); cbn; [discriminate | congruence].
Qed.

Lemma mapM_result_raises {A B : Type} (f : A -> result B) (xs : list A) (ex : exn) :
  mapM f xs = Raise ex -> exists x, x ∈ xs /\ f x = Raise ex.
Proof.
  induction xs as [| x xs IH]; cbn; [discriminate |].
  destruct (f x) as [y | ex'] eqn:Hfx; cbn.
  - destruct (mapM f xs) as [ys | ex'']; cbn; [discriminate |].
    intros [= ->]. destruct IH as (x' & Hin & Hx'); [reflexivity |].
    exists x'. split; [apply elem_of_cons; right; exact Hin | exact Hx'].
  - intros [= ->]. exists x. split; [apply elem_of_cons; left; reflexivity | exact Hfx].
Qed.

Lemma foldlM_raises {S A : Type} (body : S -> A -> result S) (xs : list A) (st : S)
    (ex : exn) :
  foldlM body st xs = Raise ex -> exists st0 x, x ∈ xs /\ body st0 x = Raise ex.
Proof.
  revert st. induction xs as [| x xs IH]; intros st; cbn; [discriminate |].
  destruct (body st x) as [st1 | ex'] eqn:Hb; cbn.
  - intros Hrest. destruct (IH _ Hrest) as (st0 & x' & Hin & Hx').
    exists st0, x'. split; [apply elem_of_cons; right; exact Hin | exact Hx'].
  - intros [= ->]. exists st, x. split; [apply elem_of_cons; left; reflexivity | exact Hb].
Qed.

Lemma loop_body_raises (st : LoopState) (event : RawEvent.t) (ex : exn) :
  loop_body st event = Raise ex -> ex = TypeError.
Proof.
  unfold loop_body. destruct (fromisoformat _) as [dt |]; [| discriminate].
  unfold datetime_sub. destruct (utcoffset dt); cbn; [| congruence].
  destruct (Qle_bool _ 30); [discriminate |]. destruct (Qle_bool _ 90); discriminate.
Qed.

Lemma _profile_metrics_raises (profile : RawProfile.t) (ex : exn) :
  _profile_metrics profile = Raise ex -> ex = TypeError.
Proof.
  unfold _profile_metrics, years_since.
  destruct (days_since _) as [d | ex'] eqn:Hd; cbn; [discriminate |].
  intros [= <-]. apply days_since_raises in Hd. exact Hd.
Qed.

Lemma _repo_metrics_raises (repos : list RawRepository.t) (ex : exn) :
  _repo_metrics repos = Raise ex -> ex = TypeError.
Proof.
  destruct repos as [| r0 repos']; [discriminate |].
  unfold _repo_metrics. set (rs := r0 :: repos').
  destruct (mapM _ (dated rs)) as [ages | ex'] eqn:Hages; cbn -[rs]; [discriminate |].
  intros [= <-]. apply mapM_result_raises in Hages as (r & _ & Hr).
  apply days_since_raises in Hr. exact Hr.
Qed.

Lemma _event_metrics_raises (events : list RawEvent.t) (ex : exn) :
  _event_metrics events = Raise ex -> ex = TypeError.
Proof.
  destruct events as [| e0 events']; [discriminate |].
  unfold _event_metrics. set (es := e0 :: events').
  destruct (foldlM loop_body _ es) as [st | ex'] eqn:Hloop;
    cbn [mbind result_bind]; [discriminate |].
  intros [= <-]. apply foldlM_raises in Hloop as (st0 & e & _ & He).
  apply loop_body_raises in He. exact He.
Qed.

(** X10.  [analyze] has one way to fail.  On an input none of whose
    timestamps parses to a datetime without a UTC offset it returns a metrics
    dict; on every other input it raises [TypeError], and no other
    exception. *)
Theorem analyze_raises_only_TypeError (raw_data : RawData.t) :
  (zoned raw_data /\ exists m, analyze raw_data = Ok m) \/
  (~ zoned raw_data /\ analyze raw_data = Raise TypeError).
Proof.
  destruct (analyze raw_data) as [m | ex] eqn:Hrun.
  - left. split; [apply analyze_returns; eauto | eauto].
  - right. split.
    + intros Hz. apply analyze_returns in Hz as [m Hm]. congruence.
    + f_equal. revert Hrun. unfold analyze.
      destruct (_profile_metrics _) as [pm | ex1] eqn:Hp; cbn;
        [| intros [= <-]; eapply _profile_metrics_raises; eassumption].
      destruct (_repo_metrics _) as [rm | ex2] eqn:Hr; cbn;
        [| intros [= <-]; eapply _repo_metrics_raises; eassumption].
      destruct (_event_metrics _) as [em | ex3] eqn:He; cbn;
        [discriminate | intros [= <-]; eapply _event_metrics_raises; eassumption].
Qed.

(** The sum of a list of ints does not depend on its order. *)
Lemma zsum_Permutation (xs ys : list Z) : xs ≡ₚ ys -> zsum xs = zsum ys.
Proof.
  induction 1 as [| x xs ys _ IH | x y xs | xs ys zs _ IH1 _ IH2].
  - reflexivity.
  - rewrite !zsum_cons, IH. reflexivity.
  - rewrite !zsum_cons. lia.
  - congruence.
Qed.

(** On a non-empty list the loop and the filters agree. *)
Lemma _event_metrics_summary (events : list RawEvent.t) (em : EventMetrics) :
  events <> [] -> _event_metrics events = Ok em -> em = event_summary events.
Proof.
  intros Hne Hrun.
  pose proof (_event_metrics_windows _ _ Hrun) as (H30 & Hmid & Hc & Ha).
  apply _event_metrics_nonempty in Hrun
    as (st & _ & Ht & Hpu & Hpr & Hi & Hf & Hw & _ & _ & Hl & Hm & Hp & Hd);
    [| exact Hne].
  rewrite <- Hl, <- Hm, H30, Hmid in Hp.
  unfold event_summary. destruct em. cbn in *. congruence.
Qed.

Lemma event_summary_Permutation (events events' : list RawEvent.t) :
  events ≡ₚ events' -> event_summary events = event_summary events'.
Proof.
  intros Hperm. unfold event_summary, len.
  assert (Hlen : forall (P : RawEvent.t -> Prop) `{!forall e, Decision (P e)},
             length (filter P events) = length (filter P events')).
  { intros P ?. apply Permutation_length. rewrite Hperm. reflexivity. }
  rewrite !Hlen, (Permutation_length Hperm).
  rewrite (zsum_Permutation
             (map commits_of (filter (fun e => recent_push e = true) events))
             (map commits_of (filter (fun e => recent_push e = true) events')))
    by (rewrite Hperm; reflexivity).
  rewrite (list_to_set_perm_L
             (omap event_date (filter (fun e => recent_push e = true) events))
             (omap event_date (filter (fun e => recent_push e = true) events')))
    by (rewrite Hperm; reflexivity).
  rewrite (list_to_set_perm_L
             (omap (fun e => if_truthy (RawEvent.type e)) events)
             (omap (fun e => if_truthy (RawEvent.type e)) events'))
    by (rewrite Hperm; reflexivity).
  reflexivity.
Qed.

(** X11.  The order of the events does not matter: on two lists with the
    same events in any order [_event_metrics] returns the same dict, or raises
    [TypeError] on both. *)
Theorem _event_metrics_order_irrelevant (events events' : list RawEvent.t) :
  events ≡ₚ events' -> _event_metrics events = _event_metrics events'.
Proof.
  intros Hperm.
  destruct (decide (events = [])) as [-> | Hne].
  { apply Permutation_nil in Hperm. subst events'. reflexivity. }
  assert (events' <> []) as Hne'.
  { intros ->. apply Permutation_nil_r in Hperm. contradiction. }
  destruct (_event_metrics events) as [em | ex] eqn:Hrun;
    destruct (_event_metrics events') as [em' | ex'] eqn:Hrun'.
  - apply _event_metrics_summary in Hrun, Hrun'; try assumption.
    rewrite Hrun, Hrun'. f_equal. apply event_summary_Permutation, Hperm.
  - exfalso. assert (Hz : exists m, _event_metrics events = Ok m) by eauto.
    apply _event_metrics_returns in Hz. rewrite Hperm in Hz.
    apply _event_metrics_returns in Hz as [m Hm]. congruence.
  - exfalso. assert (Hz : exists m, _event_metrics events' = Ok m) by eauto.
    apply _event_metrics_returns in Hz. rewrite <- Hperm in Hz.
    apply _event_metrics_returns in Hz as [m Hm]. congruence.
  - apply _event_metrics_raises in Hrun, Hrun'. congruence.
Qed.

End OnlyTypeError.

(** ** The repository, profile and derived signals, further *)

Section ReposMore.
Context `{Host}.
Import Analyzer.

Lemma counter_add_length (x : string) (c : list (string * Z)) :
  (length (counter_add x c) <= S (length c))%nat.
Proof.
  induction c as [| [k n] c IH]; cbn; [lia |].
  destruct (String.eqb x k); cbn; lia.
Qed.

Lemma Counter_length (xs : list string) : (length (Counter xs) <= length xs)%nat.
Proof.
  unfold Counter. induction xs as [| x xs IH] using rev_ind; [cbn; lia |].
  rewrite fold_left_app, length_app. cbn [fold_left length].
  pose proof (counter_add_length x (fold_left (fun c k => counter_add k c) xs [])). lia.
Qed.

Lemma qsum_nonneg (xs : list Q) : Forall (fun x => (0 <= x)%Q) xs -> (0 <= qsum xs)%Q.
Proof.
  intros Hxs. unfold qsum.
  assert (Hacc : forall acc, (0 <= acc)%Q -> (0 <= fold_left Qplus xs acc)%Q).
  { induction Hxs as [| x xs Hx _ IH]; intros acc Hacc; cbn; [exact Hacc |].
    apply IH. change 0%Q with (0 + 0)%Q. apply Qplus_le_compat; assumption. }
  apply Hacc. apply Qle_refl.
Qed.

Lemma mean_nonneg (xs : list Q) : Forall (fun x => (0 <= x)%Q) xs -> (0 <= Spec.mean xs)%Q.
Proof.
  intros Hxs. destruct xs as [| x xs]; [apply Qle_refl |].
  unfold Spec.mean. apply Qle_shift_div_l.
  - change 0%Q with (inject_Z 0). rewrite <- Zlt_Qlt. unfold len. cbn [length]. lia.
  - rewrite Qmult_0_l. apply qsum_nonneg, Hxs.
Qed.

(** A part divided by a non-empty whole, times the whole, is the part. *)
(** On a count that is not zero [safe_divide] is the quotient. *)
Lemma safe_divide_quotient (part whole : Z) :
  whole <> 0%Z ->
  safe_divide (inject_Z part) (inject_Z whole) 0%Q = (inject_Z part / inject_Z whole)%Q.
Proof.
  intros Hne. unfold safe_divide. cbn [is_zero divide Q_number].
  destruct (Qeq_bool (inject_Z whole) 0) eqn:Hz; [| reflexivity].
  apply Qeq_bool_iff in Hz. exfalso. apply Hne.
  unfold Qeq, inject_Z in Hz. cbn in Hz. lia.
Qed.

(** What [_repo_metrics] returns on a non-empty list, field by field. *)
Lemma _repo_metrics_nonempty (repos : list RawRepository.t) (rm : RepoMetrics) :
  repos <> [] ->
  _repo_metrics repos = Ok rm ->
  total_repos rm = len repos /\
  total_stars rm
  = zsum (map (fun r => default 0%Z (RawRepository.stargazers_count r)) repos) /\
  total_forks_received rm
  = zsum (map (fun r => default 0%Z (RawRepository.forks_count r)) repos) /\
  total_watchers rm
  = zsum (map (fun r => default 0%Z (RawRepository.watchers_count r)) repos) /\
  has_license_ratio rm
  = safe_divide
      (inject_Z (len (filter (fun r => truthy_obj (RawRepository.license r) = true) repos)))
      (inject_Z (len repos)) 0%Q /\
  forked_ratio rm
  = safe_divide
      (inject_Z (len (filter (fun r => truthy_bool (RawRepository.fork r) = true) repos)))
      (inject_Z (len repos)) 0%Q /\
  original_repo_count rm
  = len repos - len (filter (fun r => truthy_bool (RawRepository.fork r) = true) repos).
Proof.
  destruct repos as [| r0 repos']; [congruence |]. intros _.
  unfold _repo_metrics. set (rs := r0 :: repos').
  destruct (mapM _ (dated rs)) as [ages | e]; cbn -[rs]; [| discriminate].
  intros [= <-]. cbn -[rs]. rewrite zsum_ones. repeat split; reflexivity.
Qed.

(** X12.  The repository signals [analyze] returns are consistent with
    each other.  [total_repos] is the length of the list;
    [original_repo_count] is the number of repositories that are not forks,
    between 0 and [total_repos]; [forked_ratio] and [has_license_ratio] are
    0.0 for the empty list and otherwise the quotients
    [forks / total_repos] and [licensed / total_repos], in [[0, 1]];
    [language_count] is the length of [languages] and at most [total_repos];
    [avg_repo_age_days] is not negative. *)
Theorem repo_signals_consistent (raw_data : RawData.t) (m : Metrics) :
  analyze raw_data = Ok m ->
  let repos := default [] (RawData.repos raw_data) in
  let rm := of_repos m in
  let forks := len (filter (fun r => truthy_bool (RawRepository.fork r) = true) repos) in
  let licensed := len (filter (fun r => truthy_obj (RawRepository.license r) = true) repos) in
  total_repos rm = len repos /\
  original_repo_count rm = total_repos rm - forks /\
  0 <= original_repo_count rm <= total_repos rm /\
  (repos = [] -> forked_ratio rm = 0%Q /\ has_license_ratio rm = 0%Q) /\
  (repos <> [] ->
   forked_ratio rm = (inject_Z forks / inject_Z (total_repos rm))%Q /\
   has_license_ratio rm = (inject_Z licensed / inject_Z (total_repos rm))%Q) /\
  (0 <= forked_ratio rm <= 1)%Q /\
  (0 <= has_license_ratio rm <= 1)%Q /\
  language_count rm = len (languages rm) /\
  0 <= language_count rm <= total_repos rm /\
  (0 <= avg_repo_age_days rm)%Q.
Proof.
  intros Hm. cbv zeta. apply analyze_parts in Hm as (_ & Hrm & _ & _).
  revert Hrm. generalize (of_repos m) as rm. intros rm Hrm.
  pose proof (_repo_metrics_ratios _ _ Hrm) as [Hl Hf].
  pose proof (_repo_metrics_languages _ _ Hrm) as (Hlang & Hcount & _).
  pose proof (_repo_metrics_avg _ _ Hrm) as (ages & Hages & Havg).
  assert (Havg' : (0 <= avg_repo_age_days rm)%Q).
  { rewrite Havg. apply mean_nonneg. apply mapM_result_inv in Hages.
    clear - Hages. induction Hages as [| r a rs ages' Hr _ IH]; constructor;
      [eapply days_since_nonneg; exact Hr | exact IH]. }
  assert (Hlen : language_count rm = len (languages rm) /\
                 0 <= language_count rm <= len (default [] (RawData.repos raw_data))).
  { rewrite Hcount, Hlang. unfold len. rewrite length_map.
    destruct (most_common_Counter (language_values (default [] (RawData.repos raw_data))))
      as (_ & _ & _ & Hsame).
    rewrite length_map in Hsame. rewrite Hsame. split; [reflexivity |].
    pose proof (Counter_length (language_values (default [] (RawData.repos raw_data)))).
    pose proof (length_omap_le (fun r => if_truthy (RawRepository.language r))
                  (default [] (RawData.repos raw_data))).
    unfold language_values in *. lia. }
  destruct (default [] (RawData.repos raw_data)) as [| r0 repos'] eqn:Hrepos.
  - injection Hrm as <-. cbn in *. unfold len. cbn.
    repeat split; try lia; try reflexivity; try discriminate.
  - rewrite <- Hrepos in *.
    apply _repo_metrics_nonempty in Hrm as (Ht & _ & _ & _ & Hlr & Hfr & Ho);
      [| rewrite Hrepos; discriminate].
    pose proof (len_filter_bounds (fun r => truthy_bool (RawRepository.fork r) = true)
                  (default [] (RawData.repos raw_data))) as Hforks.
    assert (len (default [] (RawData.repos raw_data)) <> 0) as Hne
      by (rewrite Hrepos; unfold len; cbn; lia).
    rewrite Ht. destruct Hlen as [Hlen1 Hlen2].
    split; [reflexivity |]. split; [exact Ho |]. split; [lia |].
    split; [intros Hnil; rewrite Hrepos in Hnil; discriminate Hnil |].
    split; [intros _; rewrite Hfr, Hlr; split; apply safe_divide_quotient, Hne |].
    repeat split; try apply Hf; try apply Hl; try assumption; lia.
Qed.

End ReposMore.

Section ProfileMore.
Context `{Host}.
Import Analyzer.




(** The ratio, by the number of events in the older window. *)
Lemma momentum_cases (em : EventMetrics) :
  0 <= events_last_30d em -> 0 <= events_30_90d em ->
  let recent := inject_Z (events_last_30d em) in
  let older := inject_Z (events_30_90d em) in
  let ratio := momentum_ratio (_derived_metrics em) in
  (0 <= ratio <= recent)%Q /\
  (events_30_90d em <= 2 -> (ratio == recent)%Q) /\
  (2 <= events_30_90d em -> (ratio == 2 * recent / older)%Q).
Proof.
  intros Hrecent Holder. cbv zeta.
  unfold _derived_metrics. cbn [momentum_ratio].
  set (r := inject_Z (events_last_30d em)). set (o := inject_Z (events_30_90d em)).
  assert (0 <= r)%Q as Hr by (unfold r; change 0%Q with (inject_Z 0); rewrite <- Zle_Qle; lia).
  assert (safe_divide o 2 0 = o / 2)%Q as -> by reflexivity.
  unfold qmax. destruct (Qle_bool 1 (o / 2)) eqn:Hbig.
  - apply Qle_bool_iff in Hbig.
    assert (2 <= events_30_90d em) as Ho2.
    { unfold o, Qle, Qdiv, Qmult, Qinv, inject_Z in Hbig. cbn in Hbig. lia. }
    assert (0 < o / 2)%Q as Hpos by (apply Qlt_le_trans with 1%Q; [reflexivity | exact Hbig]).
    assert (~ (o / 2 == 0)%Q) as Hnz by (intros Hz; rewrite Hz in Hpos; discriminate Hpos).
    assert (~ (o == 0)%Q) as Hnz'.
    { intros Hz. apply Hnz. rewrite Hz. reflexivity. }
    unfold safe_divide. cbn [is_zero divide Q_number].
    destruct (Qeq_bool (o / 2) 0) eqn:Hz; [apply Qeq_bool_iff in Hz; contradiction |].
    split; [split |]; [| | split].
    + apply Qle_shift_div_l; [exact Hpos |]. rewrite Qmult_0_l. exact Hr.
    + apply Qle_shift_div_r; [exact Hpos |].
      apply Qle_trans with (1 * r)%Q; [rewrite Qmult_1_l; apply Qle_refl |].
      rewrite (Qmult_comm r). apply Qmult_le_compat_r; assumption.
    + intros Hsmall. assert (events_30_90d em = 2) as Heq by lia.
      unfold o. rewrite Heq. field.
    + intros _. field. exact Hnz'.
  - assert (events_30_90d em < 2) as Ho2.
    { destruct (Z.lt_ge_cases (events_30_90d em) 2) as [Hlt | Hge]; [exact Hlt |].
      exfalso. assert (Qle_bool 1 (o / 2) = true); [| congruence].
      apply Qle_bool_iff. unfold o, Qle, Qdiv, Qmult, Qinv, inject_Z. cbn. lia. }
    unfold safe_divide. cbn [is_zero divide Q_number].
    change (Qeq_bool 1 0) with false. cbv iota.
    assert (r / 1 == r)%Q as Hr1 by field.
    rewrite Hr1. split; [split; [exact Hr | apply Qle_refl] |].
    split; [reflexivity | lia].
Qed.

(** X14.  The momentum ratio.  It lies between 0 and [events_last_30d].
    With at most two events in the 30-to-90-day window the divisor is floored
    at 1 and the ratio is [events_last_30d] itself; from two events on it is
    [2 * events_last_30d / events_30_90d]. *)
Theorem momentum_ratio_by_cases (raw_data : RawData.t) (m : Metrics) :
  analyze raw_data = Ok m ->
  let recent := inject_Z (events_last_30d (of_events m)) in
  let older := inject_Z (events_30_90d (of_events m)) in
  let ratio := momentum_ratio (derived m) in
  (0 <= ratio <= recent)%Q /\
  (events_30_90d (of_events m) <= 2 -> (ratio == recent)%Q) /\
  (2 <= events_30_90d (of_events m) -> (ratio == 2 * recent / older)%Q).
Proof.
  intros Hm. cbv zeta. apply analyze_parts in Hm as (_ & _ & Hem & ->).
  apply _event_metrics_windows in Hem as (H30 & Hmid & _ & _).
  apply momentum_cases; [rewrite H30 | rewrite Hmid]; unfold len; lia.
Qed.

End ProfileMore.

(** ** The pipeline: analyze, then score *)

Section Pipeline.
Context `{Host}.
Local Open Scope R_scope.

Lemma analyze_and_score_returns (raw_data : RawData.t) (m : Analyzer.Metrics) :
  Analyzer.analyze raw_data = Ok m ->
  exists report,
    Scorer.score (Scorer.metrics_dict m) = Ok report /\
    App.analyze_and_score raw_data = Ok (m, report).
Proof.
  intros Hm.
  destruct (score_returns (Scorer.metrics_dict m))
    as (c & co & d & b & mo & o & _ & _ & _ & _ & _ & _ & Hs).
  eexists. split; [exact Hs |].
  unfold App.analyze_and_score. rewrite Hm. cbn. rewrite Hs. reflexivity.
Qed.

Lemma safe_divide_0_l (d : R) : safe_divide 0 d 0 = 0.
Proof.
  unfold safe_divide. cbn [is_zero divide R_number].
  destruct (Req_dec_T d 0); [reflexivity | unfold Rdiv; apply Rmult_0_l].
Qed.

Lemma quiet_scores (m : Scorer.Metrics) :
  quiet m ->
  exists report,
    Scorer.score m = Ok report /\
    Scorer.dimensions report consistency <= 2 /\
    Scorer.dimensions report collaboration <= 15 /\
    Scorer.dimensions report depth = 0 /\
    Scorer.dimensions report breadth = 0 /\
    Scorer.dimensions report momentum = 0 /\
    Scorer.dimensions report openness <= 15 /\
    Scorer.overall_score report <= 4.9 /\
    Scorer.tendency report = "Dystopia"%string.
Proof.
  intros (Ha & Hc & Hpr & Hi & Hf & Hst & Hfr & Hage & Ho & Hl & Hd & Hr & Hmr & He & Hlr & Hfo).
  destruct (score_returns m)
    as (c & co & d & b & mo & o & Hsc & Hsco & Hsd & Hsb & Hsmo & Hso & Hs).
  assert (c <= 2) as Rc.
  { revert Hsc. unfold Scorer._score_consistency. rewrite Ha, Hc, safe_divide_0_l.
    rewrite (log_scale_nonpositive 0 50) by lra. cbn [mbind result_bind].
    destruct (log_scale_returns (default 1 (Scorer.account_age_days m) / 365) 5 ltac:(lra))
      as (l & -> & Hb). cbn [mbind result_bind]. intros [= <-].
    apply clamp_le; [| lra].
    assert (clamp (l * 0.2) 0 100 <= 20) by (apply clamp_le; lra).
    rewrite Rmult_0_l, (clamp_id 0) by lra. lra. }
  assert (co <= 15) as Rco.
  { revert Hsco. unfold Scorer._score_collaboration. rewrite Hpr, Hi, Hf.
    rewrite (log_scale_nonpositive 0 20), (log_scale_nonpositive 0 30),
      (log_scale_nonpositive 0 10) by lra. cbn [mbind result_bind].
    destruct (log_scale_returns (default 0 (Scorer.followers m)) 100 ltac:(lra))
      as (l & -> & Hb). cbn [mbind result_bind]. intros [= <-].
    apply clamp_le; lra. }
  assert (d = 0) as ->.
  { revert Hsd. unfold Scorer._score_depth. rewrite Hst, Hfr, Hage, Ho.
    replace (0 / 30) with 0 by lra.
    rewrite (log_scale_nonpositive 0 200), (log_scale_nonpositive 0 50),
      (log_scale_nonpositive 0 24), (log_scale_nonpositive 0 30) by lra.
    cbn [mbind result_bind]. intros [= <-]. rewrite clamp_id; lra. }
  assert (b = 0) as ->.
  { revert Hsb. unfold Scorer._score_breadth. rewrite Hl, Hd, Hr.
    rewrite (log_scale_nonpositive 0 10), (log_scale_nonpositive 0 8),
      (log_scale_nonpositive 0 50) by lra.
    cbn [mbind result_bind]. intros [= <-]. rewrite clamp_id; lra. }
  assert (mo = 0) as ->.
  { revert Hsmo. unfold Scorer._score_momentum. rewrite Hmr, He.
    rewrite (log_scale_nonpositive 0 60) by lra.
    cbn [mbind result_bind]. intros [= <-].
    rewrite Rmin_left by lra. replace (0 / 3.0 * 100) with 0 by lra.
    rewrite (clamp_id 0) by lra. rewrite clamp_id; lra. }
  assert (0 <= o <= 15) as Ro.
  { revert Hso. unfold Scorer._score_openness. rewrite Hlr, Hfo. intros [= <-].
    split; [apply clamp_bounds; lra |]. apply clamp_le; [| lra].
    destruct (truthy_bool (Scorer.has_blog m)), (truthy_bool (Scorer.has_bio m)); lra. }
  destruct (_score_consistency_range m) as (c' & Hc' & Rc').
  destruct (_score_collaboration_range m) as (co' & Hco' & Rco').
  assert (c' = c) as -> by congruence. assert (co' = co) as -> by congruence.
  eexists. split; [exact Hs |].
  cbn [Scorer.dimensions Scorer.overall_score Scorer.tendency Scorer.dimensions_dict].
  rewrite weighted_sum_SCORE_WEIGHTS. cbn [Scorer.dimensions_dict].
  repeat (split; [first [assumption | reflexivity | lra] |]).
  assert (clamp (c * 0.20 + co * 0.20 + 0 * 0.20 + 0 * 0.15 + 0 * 0.15 + o * 0.10) 0 100
          <= 4.9) as Hoverall by (apply clamp_le; lra).
  split; [exact Hoverall |].
  apply _classify_tendency_cases. lra.
Qed.

(** X15.  An account without repositories and without events is scored
    Dystopia.  Whatever its profile, the pipeline returns depth, breadth and
    momentum scores of 0, an overall score of at most 4.9 and the tendency
    "Dystopia". *)
Theorem empty_account_is_dystopia (raw_data : RawData.t) :
  zoned raw_data ->
  default [] (RawData.repos raw_data) = [] ->
  default [] (RawData.events raw_data) = [] ->
  exists m report,
    App.analyze_and_score raw_data = Ok (m, report) /\
    Scorer.dimensions report depth = 0 /\
    Scorer.dimensions report breadth = 0 /\
    Scorer.dimensions report momentum = 0 /\
    Scorer.overall_score report <= 4.9 /\
    Scorer.tendency report = "Dystopia"%string.
Proof.
  intros Hz Hrepos Hevents. apply analyze_returns in Hz as [m Hm].
  pose proof (analyze_parts _ _ Hm) as (_ & Hrm & Hem & Hd).
  rewrite Hrepos in Hrm. rewrite Hevents in Hem.
  injection Hrm as Hrm. injection Hem as Hem.
  assert (Hquiet : quiet (Scorer.metrics_dict m)).
  { unfold quiet, Scorer.metrics_dict. cbn. rewrite Hd, <- Hrm, <- Hem. cbn.
    unfold Q2R. repeat split; try (cbn; lra).
    match goal with
    | |- context [Qnum ?q] => let v := eval vm_compute in q in change q with v
    end.
    cbn. lra. }
  destruct (quiet_scores _ Hquiet)
    as (report & Hs & _ & _ & Hdepth & Hbreadth & Hmom & _ & Hoverall & Ht).
  destruct (analyze_and_score_returns _ _ Hm) as (report' & Hs' & Hrun).
  assert (report' = report) as -> by congruence.
  exists m, report. repeat split; assumption.
Qed.

Lemma clamp_positive (value : R) : 0 < value -> 0 < clamp value 0 100.
Proof.
  intros Hv. unfold clamp. apply Rlt_le_trans with (Rmin 100 value); [| apply Rmax_r].
  apply Rmin_glb_lt; lra.
Qed.

(** [log_scale] gives 0 to the values that are not positive, and to no
    other. *)
Lemma log_scale_zero (value scale : R) :
  0 < scale ->
  exists r, log_scale value scale = Ok r /\ 0 <= r /\ (r = 0 <-> value <= 0).
Proof.
  intros Hs. destruct (Rle_dec value 0) as [Hneg | Hpos].
  - exists 0. rewrite log_scale_nonpositive by exact Hneg.
    split; [reflexivity |]. split; [lra |]. split; intros _; [exact Hneg | reflexivity].
  - apply Rnot_le_lt in Hpos. eexists. split; [apply log_scale_positive; lra |].
    destruct (log1p_positive value Hpos) as [_ Hv].
    destruct (log1p_positive scale Hs) as [_ Hsc].
    assert (0 < ln (1 + value) / ln (1 + scale) * 100) as Hq.
    { apply Rmult_lt_0_compat; [| lra]. apply Rdiv_lt_0_compat; assumption. }
    apply clamp_positive in Hq. split; [lra |]. split; intros; lra.
Qed.

(** The momentum score of a dict is 0 exactly when neither the count of
    the last 30 days nor the ratio is positive. *)
Lemma _score_momentum_zero (m : Scorer.Metrics) :
  exists v,
    Scorer._score_momentum m = Ok v /\
    (v = 0 <->
     default 0 (Scorer.events_last_30d m) <= 0 /\ default 0 (Scorer.momentum_ratio m) <= 0).
Proof.
  unfold Scorer._score_momentum.
  destruct (log_scale_zero (default 0 (Scorer.events_last_30d m)) 60 ltac:(lra))
    as (r & -> & Hr & Hzero).
  cbn [mbind result_bind]. eexists. split; [reflexivity |].
  set (ratio := default 0 (Scorer.momentum_ratio m)).
  pose proof (clamp_bounds (Rmin ratio 3.0 / 3.0 * 100) 0 100 ltac:(lra)) as Hrs.
  split.
  - intros Hv.
    destruct (Rle_dec (clamp (Rmin ratio 3.0 / 3.0 * 100) 0 100 * 0.60 + r * 0.40) 0)
      as [Hle | Hgt].
    + assert (r = 0) as Hr0 by lra.
      split; [apply Hzero, Hr0 |].
      destruct (Rle_dec ratio 0) as [Hratio | Hratio]; [exact Hratio | exfalso].
      apply Rnot_le_lt in Hratio.
      assert (0 < Rmin ratio 3.0 / 3.0 * 100) as Hpos.
      { assert (0 < Rmin ratio 3.0) by (apply Rmin_glb_lt; lra). lra. }
      apply clamp_positive in Hpos. lra.
    + apply Rnot_le_lt, clamp_positive in Hgt. lra.
  - intros [Hevents Hratio]. apply Hzero in Hevents as ->.
    assert (Rmin ratio 3.0 = ratio) as -> by (apply Rmin_left; lra).
    assert (clamp (ratio / 3.0 * 100) 0 100 = 0) as ->.
    { unfold clamp. rewrite Rmin_right by lra. apply Rmax_left. lra. }
    rewrite clamp_id; lra.
Qed.

(** X16.  The momentum score is 0 exactly for the accounts without an event
    in the last 30 days.  For every input [analyze] accepts, the pipeline
    returns a momentum score of 0 if and only if [events_last_30d] is 0;
    with one event or more it is positive, whatever the 30-to-90-day bucket
    holds. *)
Theorem momentum_score_zero_iff_no_recent_event (raw_data : RawData.t) (m : Analyzer.Metrics) :
  Analyzer.analyze raw_data = Ok m ->
  exists report,
    App.analyze_and_score raw_data = Ok (m, report) /\
    0 <= Scorer.dimensions report momentum /\
    (Scorer.dimensions report momentum = 0
     <-> Analyzer.events_last_30d (Analyzer.of_events m) = 0%Z).
Proof.
  intros Hm.
  destruct (analyze_and_score_returns _ _ Hm) as (report & Hs & Hrun).
  exists report. split; [exact Hrun |].
  destruct (score_returns (Scorer.metrics_dict m))
    as (c & co & d & b & mo & o & _ & _ & _ & _ & Hmo & _ & Hs').
  rewrite Hs in Hs'. injection Hs' as ->. cbn [Scorer.dimensions Scorer.dimensions_dict].
  destruct (_score_momentum_range (Scorer.metrics_dict m)) as (mo' & Hmo' & Rmo).
  assert (mo' = mo) as -> by congruence.
  split; [lra |].
  destruct (_score_momentum_zero (Scorer.metrics_dict m)) as (mo' & Hmo'' & Hiff).
  assert (mo' = mo) as -> by congruence.
  pose proof (analyze_parts _ _ Hm) as (_ & _ & Hem & Hd).
  pose proof (_event_metrics_windows _ _ Hem) as (H30 & H3090 & _).
  assert (0 <= Analyzer.events_last_30d (Analyzer.of_events m))%Z as Hrecent
    by (rewrite H30; unfold len; lia).
  assert (0 <= Analyzer.events_30_90d (Analyzer.of_events m))%Z as Holder
    by (rewrite H3090; unfold len; lia).
  pose proof (momentum_cases _ Hrecent Holder) as ([Hlo Hhi] & _).
  rewrite <- Hd in Hlo, Hhi. apply Qle_Rle in Hlo, Hhi.
  replace (Q2R 0) with 0 in Hlo by (unfold Q2R; cbn; lra).
  unfold Q2R at 2 in Hhi. cbn [inject_Z Qnum Qden] in Hhi.
  replace (IZR (Analyzer.events_last_30d (Analyzer.of_events m)) * / IZR (Z.pos 1))
    with (IZR (Analyzer.events_last_30d (Analyzer.of_events m))) in Hhi by (cbn; lra).
  rewrite Hiff. unfold Scorer.metrics_dict, default. cbn.
  split.
  - intros [Hev _]. apply (le_IZR _ 0) in Hev. lia.
  - intros Hz. rewrite Hz in Hhi |- *. lra.
Qed.

(** X17.  No account scores above 95.4.  For every input [analyze] accepts
    the pipeline returns a report whose consistency score is at most 92 and
    whose openness score is at most 70, so that the overall score is at most
    [0.20 * 92 + 0.20 * 100 + 0.20 * 100 + 0.15 * 100 + 0.15 * 100 + 0.10 * 70].
    The tendency "Utopia" asks for 70 of these 95.4 points. *)
Theorem analyzed_overall_at_most_95 (raw_data : RawData.t) (m : Analyzer.Metrics) :
  Analyzer.analyze raw_data = Ok m ->
  exists report,
    App.analyze_and_score raw_data = Ok (m, report) /\
    Scorer.dimensions report consistency <= 92 /\
    Scorer.dimensions report openness <= 70 /\
    0 <= Scorer.overall_score report <= 95.4.
Proof.
  intros Hm.
  destruct (analyze_and_score_returns _ _ Hm) as (report & Hs & Hrun).
  exists report. split; [exact Hrun |].
  set (md := Scorer.metrics_dict m) in *.
  destruct (score_returns md)
    as (c & co & d & b & mo & o & Hc & Hco & Hdp & Hb & Hmo & Ho & Hs').
  rewrite Hs in Hs'. injection Hs' as ->.
  cbn [Scorer.dimensions Scorer.overall_score].
  rewrite weighted_sum_SCORE_WEIGHTS. cbn [Scorer.dimensions_dict].
  destruct (_score_consistency_le_92 md) as (c' & Hc' & Rc).
  destruct (_score_collaboration_range md) as (co' & Hco' & Rco).
  destruct (_score_depth_range md) as (d' & Hd' & Rd).
  destruct (_score_breadth_range md) as (b' & Hb' & Rb).
  destruct (_score_momentum_range md) as (mo' & Hmo' & Rmo).
  assert (c' = c) as -> by congruence. assert (co' = co) as -> by congruence.
  assert (d' = d) as -> by congruence. assert (b' = b) as -> by congruence.
  assert (mo' = mo) as -> by congruence.
  assert (0 <= o <= 70) as Ro.
  { pose proof (analyze_parts _ _ Hm) as (_ & Hrm & _ & _).
    apply _repo_metrics_ratios in Hrm as [Hl Hf].
    apply Q2R_fraction in Hl. apply Q2R_fraction in Hf.
    revert Ho. unfold Scorer._score_openness, md, Scorer.metrics_dict, default.
    cbn. intros [= <-].
    split; [apply clamp_bounds; lra |]. apply clamp_le; [| lra].
    destruct (Analyzer.has_blog _), (Analyzer.has_bio _); lra. }
  split; [lra |]. split; [lra |].
  split; [apply clamp_bounds; lra | apply clamp_le; lra].
Qed.

End Pipeline.

(** ** The validator of usernames *)

Section UsernameFacts.
Import Username.

Lemma lstrip_split (s : list Z) :
  exists p, s = p ++ lstrip s /\ forallb isspace p = true.
Proof.
  induction s as [| c s (p & Hs & Hp)]; [exists []; split; reflexivity |].
  cbn [lstrip]. destruct (isspace c) eqn:Hc.
  - exists (c :: p). split; [cbn; f_equal; exact Hs | cbn; rewrite Hc; exact Hp].
  - exists []. split; reflexivity.
Qed.

Lemma lstrip_head (s : list Z) (c : Z) : head (lstrip s) = Some c -> isspace c = false.
Proof.
  induction s as [| c' s IH]; [discriminate |].
  cbn [lstrip]. destruct (isspace c') eqn:Hc; [exact IH |].
  intros [= <-]. exact Hc.
Qed.

Lemma lstrip_id (s : list Z) :
  (forall c, head s = Some c -> isspace c = false) -> lstrip s = s.
Proof.
  destruct s as [| c s]; [reflexivity |]. intros Hhead.
  cbn [lstrip]. rewrite (Hhead c eq_refl). reflexivity.
Qed.

Lemma lstrip_spaces (ws s : list Z) :
  forallb isspace ws = true -> lstrip (ws ++ s) = lstrip s.
Proof.
  induction ws as [| c ws IH]; [reflexivity |].
  cbn [forallb app lstrip]. intros [Hc Hws]%andb_true_iff. rewrite Hc. apply IH, Hws.
Qed.

Lemma lstrip_app (s t : list Z) : lstrip s <> [] -> lstrip (s ++ t) = lstrip s ++ t.
Proof.
  induction s as [| c s IH]; [intros Hne; contradiction Hne; reflexivity |].
  cbn [lstrip app]. destruct (isspace c); [exact IH | reflexivity].
Qed.

Lemma lstrip_nil (s : list Z) : lstrip s = [] -> forallb isspace s = true.
Proof.
  induction s as [| c s IH]; [reflexivity |].
  cbn [lstrip forallb]. destruct (isspace c); [exact IH | discriminate].
Qed.

Lemma rstrip_spaces (s ws : list Z) :
  forallb isspace ws = true -> rstrip (s ++ ws) = rstrip s.
Proof.
  intros Hws. unfold rstrip. rewrite reverse_app, lstrip_spaces; [reflexivity |].
  rewrite forallb_forall in Hws |- *. intros c Hc. apply Hws.
  apply list_elem_of_In. apply list_elem_of_In in Hc. apply elem_of_reverse, Hc.
Qed.

(** What [strip] leaves neither starts nor ends with whitespace. *)
Lemma strip_ends (u : list Z) (c : Z) :
  head (strip u) = Some c \/ last (strip u) = Some c -> isspace c = false.
Proof.
  unfold strip, rstrip. intros [Hhead | Hlast].
  - rewrite head_reverse in Hhead.
    destruct (lstrip_split (reverse (lstrip u))) as (p & Hsplit & _).
    assert (last (reverse (lstrip u)) = Some c) as Hl.
    { rewrite Hsplit. destruct (lstrip (reverse (lstrip u))) as [| x xs] eqn:Hx;
        [discriminate |].
      rewrite last_app, Hhead. reflexivity. }
    rewrite last_reverse in Hl. apply lstrip_head in Hl. exact Hl.
  - rewrite last_reverse in Hlast. apply lstrip_head in Hlast. exact Hlast.
Qed.

Lemma strip_idempotent (u : list Z) : strip (strip u) = strip u.
Proof.
  unfold strip at 1. rewrite lstrip_id by (intros c Hc; apply (strip_ends u); auto).
  unfold rstrip. rewrite lstrip_id; [apply reverse_involutive |].
  intros c Hc. rewrite head_reverse in Hc. apply (strip_ends u). auto.
Qed.

Lemma strip_padding (ws u ws' : list Z) :
  forallb isspace ws = true -> forallb isspace ws' = true ->
  strip (ws ++ u ++ ws') = strip u.
Proof.
  intros Hws Hws'. unfold strip. rewrite lstrip_spaces by exact Hws.
  destruct (lstrip u) as [| c s] eqn:Hu.
  - apply lstrip_nil in Hu.
    rewrite <- (app_nil_r (u ++ ws')), lstrip_spaces; [reflexivity |].
    rewrite forallb_app, Hu, Hws'. reflexivity.
  - rewrite lstrip_app by (rewrite Hu; discriminate).
    rewrite Hu. apply rstrip_spaces, Hws'.
Qed.

Lemma at_dollar_inv (rest : list Z) : at_dollar rest = true -> rest = [] \/ rest = [10].
Proof.
  destruct rest as [| c rest]; [auto |]. intros Hd. right.
  destruct c as [| p | p]; try discriminate Hd.
  do 4 (destruct p as [p | p |]; try discriminate Hd).
  destruct rest; [reflexivity | discriminate Hd].
Qed.

(** On a string that does not end with a newline the pattern says what it
    seems to say: 1 to 39 characters, all of the class. *)
Lemma GITHUB_USERNAME_REGEX_match_spec (s : list Z) :
  last s <> Some 10 ->
  GITHUB_USERNAME_REGEX_match s = true
  <-> (1 <= length s <= 39)%nat /\ forallb in_class s = true.
Proof.
  intros Hlast. unfold GITHUB_USERNAME_REGEX_match. rewrite existsb_exists. split.
  - intros (k & Hk & Hmatch). apply in_seq in Hk.
    apply andb_true_iff in Hmatch as [[Hlen Hclass]%andb_true_iff Hend].
    apply bool_decide_eq_true in Hlen.
    assert (drop k s = []) as Hdrop.
    { apply at_dollar_inv in Hend as [Hd | Hd]; [exact Hd | exfalso].
      apply Hlast. rewrite <- (take_drop k s), Hd, last_app. reflexivity. }
    rewrite <- (take_drop k s), Hdrop, app_nil_r. rewrite Hlen. split; [lia | exact Hclass].
  - intros [Hlen Hclass]. exists (length s). split; [apply in_seq; lia |].
    rewrite firstn_all, drop_all, Hclass. cbn.
    rewrite bool_decide_eq_true_2 by reflexivity. reflexivity.
Qed.

(** X18.  What [validate_github_username] accepts, and which message it
    gives.  With [s] the username stripped of the whitespace around it: the
    answer is [(True, "")] exactly when [s] has 1 to 39 characters, all of
    them ASCII letters, digits or hyphens, and neither starts nor ends with a
    hyphen; an empty [s] gets "Username cannot be empty."; an [s] of 1 to 39
    such characters that starts or ends with a hyphen gets the hyphen
    message; every other [s] gets the "Invalid GitHub username" message.  The
    newline that the [$] of the pattern lets through never shows: [strip] has
    removed it. *)
Theorem validate_github_username_spec (username : list Z) :
  (validate_github_username username = (true, ""%string)
   <-> well_formed (strip username) /\ ~ hyphenated (strip username)) /\
  (validate_github_username username = (false, "Username cannot be empty."%string)
   <-> strip username = []) /\
  (validate_github_username username
   = (false, "GitHub username cannot start or end with a hyphen."%string)
   <-> well_formed (strip username) /\ hyphenated (strip username)) /\
  (validate_github_username username
   = (false,
      "Invalid GitHub username. Must be 1–39 characters, letters, numbers, or hyphens only."%string)
   <-> strip username <> [] /\ ~ well_formed (strip username)).
Proof.
  unfold validate_github_username, well_formed, hyphenated. cbv zeta.
  set (s := strip username).
  assert (last s <> Some 10) as Hlast.
  { intros Hl. pose proof (strip_ends username 10 (or_intror Hl)). discriminate. }
  pose proof (GITHUB_USERNAME_REGEX_match_spec s Hlast) as Hre.
  unfold startswith_hyphen, endswith_hyphen.
  destruct (decide (s = [])) as [Hs | Hs].
  - rewrite bool_decide_eq_true_2 by exact Hs. rewrite Hs. cbn.
    repeat split; try discriminate; try tauto; try (intros [[? _] _]; lia).
  - rewrite bool_decide_eq_false_2 by exact Hs.
    destruct (GITHUB_USERNAME_REGEX_match s) eqn:Hm; cbn [negb].
    + assert ((1 <= length s <= 39)%nat /\ forallb in_class s = true) as Hwf
        by (apply Hre; reflexivity).
      destruct (decide (head s = Some 45)) as [Hh | Hh];
        destruct (decide (last s = Some 45)) as [Hl | Hl];
        rewrite ?(bool_decide_eq_true_2 _ Hh), ?(bool_decide_eq_false_2 _ Hh),
          ?(bool_decide_eq_true_2 _ Hl), ?(bool_decide_eq_false_2 _ Hl); cbn [orb];
        repeat split; try discriminate; try tauto.
    + assert (~ ((1 <= length s <= 39)%nat /\ forallb in_class s = true)) as Hwf.
      { intros Hwf. apply Hre in Hwf. congruence. }
      repeat split; try discriminate; try tauto.
Qed.

(** X19.  Whitespace around a username does not count.  Adding whitespace
    (in the sense of [str.isspace]) before and after a username changes
    neither the verdict nor the message, and neither does stripping it first,
    as src/app.py does before the call. *)
Theorem validate_github_username_padding (ws username ws' : list Z) :
  forallb isspace ws = true -> forallb isspace ws' = true ->
  validate_github_username (ws ++ username ++ ws') = validate_github_username username /\
  validate_github_username (strip username) = validate_github_username username.
Proof.
  intros Hws Hws'. unfold validate_github_username.
  rewrite strip_padding by assumption. rewrite strip_idempotent. split; reflexivity.
Qed.

End UsernameFacts.

(** ** More runs on concrete inputs

    The host is [GitHubHost.host] again; the input is the mock input of
    src/tests/test_analyzer.py unless said otherwise. *)

Section MoreRuns.
Import Analyzer TestData.

(** The loop on the four events of the mock input. *)
Lemma event_windows_witness :
  exists m,
    analyze MOCK_RAW = Ok m /\
    events_last_30d (of_events m)
    = len (filter (fun e => aged_at_most 30 e = true) MOCK_EVENTS) /\
    events_30_90d (of_events m)
    = len (filter (fun e => aged_at_most 90 e = true /\ aged_at_most 30 e = false)
                  MOCK_EVENTS).
Proof.
  assert (exists m, analyze MOCK_RAW = Ok m) as [m Hm]
    by (eexists; vm_compute; reflexivity).
  exists m. split; [exact Hm |].
  pose proof (event_windows MOCK_RAW m Hm) as (H30 & H3090 & _).
  split; [exact H30 | exact H3090].
Defined.

Lemma event_counts_consistent_witness :
  exists m,
    analyze MOCK_RAW = Ok m /\
    total_events (of_events m) = len MOCK_EVENTS /\
    events_last_30d (of_events m) + events_30_90d (of_events m) <= total_events (of_events m).
Proof.
  assert (exists m, analyze MOCK_RAW = Ok m) as [m Hm]
    by (eexists; vm_compute; reflexivity).
  exists m. split; [exact Hm |].
  pose proof (event_counts_consistent MOCK_RAW m Hm)
    as (Htotal & _ & _ & _ & _ & _ & _ & _ & _ & Hwindows & _).
  split; [exact Htotal | exact Hwindows].
Defined.

(** The mock events, and the same events last to first. *)
Lemma _event_metrics_order_irrelevant_witness :
  MOCK_EVENTS ≡ₚ reverse MOCK_EVENTS /\
  _event_metrics MOCK_EVENTS = _event_metrics (reverse MOCK_EVENTS).
Proof.
  assert (MOCK_EVENTS ≡ₚ reverse MOCK_EVENTS) as Hperm
    by (symmetry; apply reverse_Permutation).
  split; [exact Hperm |]. exact (_event_metrics_order_irrelevant _ _ Hperm).
Defined.

Lemma repo_signals_consistent_witness :
  exists m,
    analyze MOCK_RAW = Ok m /\
    total_repos (of_repos m) = len MOCK_REPOS /\
    0 <= original_repo_count (of_repos m) <= total_repos (of_repos m) /\
    (0 <= avg_repo_age_days (of_repos m))%Q.
Proof.
  assert (exists m, analyze MOCK_RAW = Ok m) as [m Hm]
    by (eexists; vm_compute; reflexivity).
  exists m. split; [exact Hm |].
  pose proof (repo_signals_consistent MOCK_RAW m Hm)
    as (Htotal & _ & Horiginal & _ & _ & _ & _ & _ & _ & Hage).
  split; [exact Htotal |]. split; [exact Horiginal | exact Hage].
Defined.


Lemma momentum_ratio_by_cases_witness :
  exists m,
    analyze MOCK_RAW = Ok m /\
    (0 <= momentum_ratio (derived m) <= inject_Z (events_last_30d (of_events m)))%Q.
Proof.
  assert (exists m, analyze MOCK_RAW = Ok m) as [m Hm]
    by (eexists; vm_compute; reflexivity).
  exists m. split; [exact Hm |].
  exact (proj1 (momentum_ratio_by_cases MOCK_RAW m Hm)).
Defined.

(** The mock profile, without its repositories and its events. *)
Lemma empty_account_is_dystopia_witness :
  zoned (with_events (with_repos MOCK_RAW []) []) /\
  exists m report,
    App.analyze_and_score (with_events (with_repos MOCK_RAW []) []) = Ok (m, report) /\
    (Scorer.overall_score report <= 4.9)%R /\
    Scorer.tendency report = "Dystopia"%string.
Proof.
  assert (Hz : zoned (with_events (with_repos MOCK_RAW []) []))
    by (apply zoned_check_true; vm_compute; reflexivity).
  split; [exact Hz |].
  destruct (empty_account_is_dystopia _ Hz eq_refl eq_refl)
    as (m & report & Hrun & _ & _ & _ & Hoverall & Htendency).
  exists m, report. split; [exact Hrun |]. split; [exact Hoverall | exact Htendency].
Defined.

Lemma momentum_score_zero_iff_no_recent_event_witness :
  exists m report,
    analyze MOCK_RAW = Ok m /\
    App.analyze_and_score MOCK_RAW = Ok (m, report) /\
    (Scorer.dimensions report momentum = 0%R <-> events_last_30d (of_events m) = 0).
Proof.
  assert (exists m, analyze MOCK_RAW = Ok m) as [m Hm]
    by (eexists; vm_compute; reflexivity).
  destruct (momentum_score_zero_iff_no_recent_event MOCK_RAW m Hm)
    as (report & Hrun & _ & Hiff).
  exists m, report. split; [exact Hm |]. split; [exact Hrun | exact Hiff].
Defined.

Lemma analyzed_overall_at_most_95_witness :
  exists m report,
    analyze MOCK_RAW = Ok m /\
    App.analyze_and_score MOCK_RAW = Ok (m, report) /\
    (0 <= Scorer.overall_score report <= 95.4)%R.
Proof.
  assert (exists m, analyze MOCK_RAW = Ok m) as [m Hm]
    by (eexists; vm_compute; reflexivity).
  destruct (analyzed_overall_at_most_95 MOCK_RAW m Hm) as (report & Hrun & _ & _ & Hoverall).
  exists m, report. split; [exact Hm |]. split; [exact Hrun | exact Hoverall].
Defined.

(** A space and a tab before "octocat", a newline after it. *)
Lemma validate_github_username_padding_witness :
  forallb Username.isspace [32; 9] = true /\
  forallb Username.isspace [10] = true /\
  Username.validate_github_username ([32; 9] ++ Username.codes "octocat" ++ [10])
  = Username.validate_github_username (Username.codes "octocat").
Proof.
  split; [reflexivity |]. split; [reflexivity |].
  apply (validate_github_username_padding [32; 9] (Username.codes "octocat") [10]);
    reflexivity.
Defined.

End MoreRuns.
